(** * ObjectListTableModelViewQt: a table model over a list of objects

    A shallow embedding of [ObjectListTableModelViewQt.py]: the recursive
    attribute access [getAttrRecursive] / [setAttrRecursive], the model
    class [ObjectListTableModelQt] and the delegate assignment of
    [ObjectListTableViewQt.setModel], with the properties of the
    specification proved (or refuted) about them; then the selection,
    the header menus and the slots of the view, with what the code shows
    about them.

    Python objects live in a store: an object is a location, its
    attributes are a finite map from names to slots, and two names for one
    location are aliases.  Python lists are Rocq lists indexed by [Z] with
    Python's rules for negative indices.  An exception is a value of
    [exn]; a [try] block is a match on the [result] of its body.

    What the model leaves out: the objects of the list are instances (the
    list holds no [None]); numbers and strings have no attributes; a
    property descriptor is a dict from strings to values; the toolkit's
    change notifications ([beginInsertRows] and the like) are not
    recorded; what the user does in a dialog is an argument of the slot
    that opens it; the body of a method that is called, and of the
    accessors of a property, is not run: a call is recorded, and an
    assignment that returns is one to a plain attribute. *)

From Stdlib Require Import ZArith String Ascii.
From stdpp Require Import gmap strings list sorting.
From Equations Require Import Equations.
From Equations.Prop Require Import Logic.

#[local] Set Warnings "-clear-no-such-hyp".

(** ** Exceptions and results *)

Inductive exn :=
| ValueError | AttributeError | KeyError | IndexError | TypeError | OtherError.

Inductive result (A : Type) :=
| Ok (a : A)
| Raise (e : exn).
Arguments Ok {A} a.
Arguments Raise {A} e.

#[global] Instance exn_eq_dec : EqDecision exn.
Proof. solve_decision. Defined.

#[global] Instance result_ret : MRet result := fun A a => Ok a.
#[global] Instance result_bind : MBind result := fun A B f m =>
  match m with Ok a => f a | Raise e => Raise e end.

(** [try: body except e: handler] *)
Definition try_except {A} (body : result A) (e : exn) (handler : result A) : result A :=
  match body with
  | Ok a => Ok a
  | Raise e' => if decide (e' = e) then handler else Raise e'
  end.

(** [try: body except: handler] (a bare [except] catches everything) *)
Definition try_except_all {A} (body : result A) (handler : A) : A :=
  match body with
  | Ok a => a
  | Raise _ => handler
  end.

(** ** Python values *)

Abbreviation loc := nat (only parsing).

Inductive pytype :=
| TNoneType | TBool | TInt | TFloat | TStr | TDatetime | TType | TMethod | TObject.

(** A float is carried as its bit pattern and a datetime as a time stamp:
    the program never computes with either.  [VMethod name raises] is a
    callable: calling it raises [e] when [raises = Some e] and otherwise
    returns, which the store records under [name]. *)
Inductive value :=
| VNone
| VBool (b : bool)
| VInt (n : Z)
| VFloat (bits : Z)
| VStr (s : string)
| VDatetime (stamp : Z)
| VType (t : pytype)
| VMethod (name : string) (raises : option exn)
| VRef (l : loc).

#[global] Instance pytype_eq_dec : EqDecision pytype.
Proof. solve_decision. Defined.

#[global] Instance value_eq_dec : EqDecision value.
Proof. solve_decision. Defined.

(** [type(v)] *)
Definition py_type (v : value) : pytype :=
  match v with
  | VNone => TNoneType
  | VBool _ => TBool
  | VInt _ => TInt
  | VFloat _ => TFloat
  | VStr _ => TStr
  | VDatetime _ => TDatetime
  | VType _ => TType
  | VMethod _ _ => TMethod
  | VRef _ => TObject
  end.

(** An attribute slot of an object: a plain attribute holding a value, or
    a property whose getter and setter raise.  A property whose accessors
    run code of their own and return is not modelled: what is stated of
    an assignment that returns is stated of a plain attribute. *)
Inductive slot :=
| Attr (v : value)
| Raising (e : exn).

(** The store: objects by location, each a map from attribute names to
    slots, and the names of the methods called so far. *)
Record store := {
  heap : gmap loc (gmap string slot);
  called : list string
}.

(** [getattr(obj, name)]: only objects of the store have attributes
    (the built-in attributes of numbers and strings are not modelled). *)
Definition getattr (h : gmap loc (gmap string slot)) (obj : value) (name : string)
  : result value :=
  match obj with
  | VRef l =>
      match h !! l with
      | Some o =>
          match o !! name with
          | Some (Attr v) => Ok v
          | Some (Raising e) => Raise e
          | None => Raise AttributeError
          end
      | None => Raise AttributeError
      end
  | _ => Raise AttributeError
  end.

(** [setattr(obj, name, v)] *)
Definition setattr (h : gmap loc (gmap string slot)) (obj : value) (name : string)
  (v : value) : result (gmap loc (gmap string slot)) :=
  match obj with
  | VRef l =>
      match h !! l with
      | Some o =>
          match o !! name with
          | Some (Raising e) => Raise e
          | _ => Ok (<[l := <[name := Attr v]> o]> h)
          end
      | None => Raise AttributeError
      end
  | _ => Raise AttributeError
  end.

(** ** Python strings and lists *)

(** [s[0:p]] and [s[p+1:]] for [p] within [s] *)
Definition str_before (p : nat) (s : string) : string := String.substring 0 p s.
Definition str_after (p : nat) (s : string) : string :=
  String.substring (S p) (String.length s - S p) s.

(** [sub in s] for strings *)
Definition str_contains (sub s : string) : bool :=
  match String.index 0 sub s with
  | Some _ => true
  | None => false
  end.

Definition py_len {A} (l : list A) : Z := Z.of_nat (length l).

(** Python's index normalisation: [-len <= i < 0] counts from the end. *)
Definition py_position {A} (l : list A) (i : Z) : option nat :=
  if decide (0 <= i < py_len l)%Z then Some (Z.to_nat i)
  else if decide (- py_len l <= i < 0)%Z then Some (Z.to_nat (py_len l + i))
  else None.

(** [l[i]] *)
Definition py_getitem {A} (l : list A) (i : Z) : result A :=
  match py_position l i with
  | Some n => match l !! n with Some x => Ok x | None => Raise IndexError end
  | None => Raise IndexError
  end.

(** [del l[i]] *)
Definition py_delitem {A} (l : list A) (i : Z) : result (list A) :=
  match py_position l i with
  | Some n => Ok (delete n l)
  | None => Raise IndexError
  end.

(** The bound of a slice or of [insert]: negative counts from the end, and
    the result is clamped to [0, len]. *)
Definition py_bound {A} (l : list A) (i : Z) : nat :=
  Z.to_nat (Z.min (Z.max 0 (if decide (i < 0)%Z then py_len l + i else i)) (py_len l)).

(** [l.insert(i, x)] *)
Definition py_insert {A} (l : list A) (i : Z) (x : A) : list A :=
  take (py_bound l i) l ++ x :: drop (py_bound l i) l.

(** [del l[a:b]] *)
Definition py_delslice {A} (l : list A) (a b : Z) : list A :=
  take (py_bound l a) l ++ drop (Nat.max (py_bound l a) (py_bound l b)) l.

(** [min([max([0, i]), hi])] *)
Definition clamp (i hi : Z) : Z := Z.min (Z.max 0 i) hi.

(** ** Recursive attribute access *)

Lemma index_dot_cons c s :
  String.index 0 "." (String c s) =
  if decide (c = "."%char) then Some 0 else S <$> String.index 0 "." s.
Proof.
  change (String.index 0 "." (String c s)) with
    (if String.prefix "." (String c s) then Some 0
     else match String.index 0 "." s with Some n => Some (S n) | None => None end).
  change (String.prefix "." (String c s)) with
    (match ascii_dec "." c with left _ => String.prefix "" s | right _ => false end).
  destruct (ascii_dec "." c) as [<-|Hne].
  - rewrite decide_True by done. by destruct s.
  - rewrite decide_False by congruence. by destruct (String.index 0 "." s).
Qed.

Lemma length_substring_le n m s :
  String.length (String.substring n m s) <= String.length s.
Proof.
  revert n m. induction s as [|c s IH]; intros [|n] [|m]; simpl; try lia.
  - specialize (IH 0 m). lia.
  - specialize (IH n 0). lia.
  - specialize (IH n (S m)). lia.
Qed.

(** The rest of a path after its first dot is shorter than the path: the
    recursion of [getAttrRecursive] and [setAttrRecursive] ends. *)
Lemma str_after_shorter p s :
  String.index 0 "." s = Some p -> String.length (str_after p s) < String.length s.
Proof.
  unfold str_after. revert p.
  induction s as [|c s IH]; intros p.
  - discriminate.
  - rewrite index_dot_cons. case_decide as Hc.
    + intros [= <-]. cbn [String.length substring].
      pose proof (length_substring_le 0 (S (String.length s) - 1) s). lia.
    + destruct (String.index 0 "." s) as [q|] eqn:E; [|discriminate].
      intros [= <-]. specialize (IH q eq_refl). cbn [String.length substring].
      change (S (String.length s) - S (S q)) with (String.length s - S q). lia.
Qed.

(** [getAttrRecursive(obj, attr)].  The handler of [except ValueError]
    sees [obj] as the [try] block left it: rebound to the member once
    [getattr] has returned. *)
Equations? getAttrRecursive (h : gmap loc (gmap string slot)) (obj : value)
  (attr : string) : result value by wf (String.length attr) lt :=
  getAttrRecursive h obj attr with inspect (String.index 0 "." attr) := {
    | exist _ (Some p) Hp =>
        match getattr h obj (str_before p attr) with
        | Ok obj' =>
            try_except (getAttrRecursive h obj' (str_after p attr))
              ValueError (getattr h obj' attr)
        | Raise e =>
            try_except (Raise e) ValueError (getattr h obj attr)
        end
    | exist _ None _ => getattr h obj attr }.
Proof. by apply str_after_shorter. Qed.

(** [setAttrRecursive(obj, attr, value)], returning the store's heap after
    the assignment. *)
Equations? setAttrRecursive (h : gmap loc (gmap string slot)) (obj : value)
  (attr : string) (v : value) : result (gmap loc (gmap string slot))
  by wf (String.length attr) lt :=
  setAttrRecursive h obj attr v with inspect (String.index 0 "." attr) := {
    | exist _ (Some p) Hp =>
        match getattr h obj (str_before p attr) with
        | Ok obj' =>
            try_except (setAttrRecursive h obj' (str_after p attr) v)
              ValueError (setattr h obj' attr v)
        | Raise e =>
            try_except (Raise e) ValueError (setattr h obj attr v)
        end
    | exist _ None _ => setattr h obj attr v }.
Proof. by apply str_after_shorter. Qed.

(** ** Dicts, calls and deep copies *)

(** [d[k]] on a dict *)
Definition dict_getitem (d : gmap string value) (k : string) : result value :=
  match d !! k with
  | Some v => Ok v
  | None => Raise KeyError
  end.

(** [d.get(k, dflt)] *)
Definition dict_get (d : gmap string value) (k : string) (dflt : value) : value :=
  default dflt (d !! k).

(** [k in d.keys()] *)
Definition dict_has (d : gmap string value) (k : string) : bool :=
  bool_decide (is_Some (d !! k)).

(** The attribute path of a descriptor must be a string: [attr.index] on
    anything else is an [AttributeError]. *)
Definition as_attr_path (v : value) : result string :=
  match v with
  | VStr s => Ok s
  | _ => Raise AttributeError
  end.

(** [sub in v]: defined on strings, a [TypeError] elsewhere. *)
Definition py_contains (sub : string) (v : value) : result bool :=
  match v with
  | VStr s => Ok (str_contains sub s)
  | _ => Raise TypeError
  end.

(** [f()]: a method returns (and the store records the call) or raises;
    anything else is not callable.  What the body of a method does to the
    objects is not modelled: the store keeps the call and nothing else of
    it. *)
Definition py_call (w : store) (f : value) : result store :=
  match f with
  | VMethod name None => Ok {| heap := heap w; called := name :: called w |}
  | VMethod _ (Some e) => Raise e
  | _ => Raise TypeError
  end.

(** A location above every object of the heap. *)
Definition next_loc (h : gmap loc (gmap string slot)) : nat :=
  S (max_list (elements (dom h))).

Definition shift_value (off : nat) (v : value) : value :=
  match v with
  | VRef l => VRef (l + off)
  | _ => v
  end.

Definition shift_slot (off : nat) (s : slot) : slot :=
  match s with
  | Attr v => Attr (shift_value off v)
  | Raising e => Raising e
  end.

(** The objects an object refers to through its plain attributes. *)
Definition slot_ref (s : slot) : option loc :=
  match s with
  | Attr (VRef l) => Some l
  | _ => None
  end.

Definition refs_of (o : gmap string slot) : gset loc := map_img (omap slot_ref o).

(** One more step along the references, within the heap. *)
Definition reach_step (h : gmap loc (gmap string slot)) (R : gset loc) : gset loc :=
  R ∪ (dom h ∩ set_bind (fun l => refs_of (default ∅ (h !! l))) R).

(** The objects reachable from [l]: no path without a repeated object is
    longer than the heap has objects. *)
Definition reachable (h : gmap loc (gmap string slot)) (l : loc) : gset loc :=
  Nat.iter (size h) (reach_step h) {[ l ]}.

(** [copy.deepcopy(obj)], Python's library function.  The copy is taken by
    renaming: every object reachable from [l] gets a twin at a fresh
    location ([off] above its own), a reference held by a twin leads to
    the twin of its target, and the copy of [l] is the twin of [l]. *)
Definition deepcopy (h : gmap loc (gmap string slot)) (l : loc)
  : gmap loc (gmap string slot) * loc :=
  let off := next_loc h in
  let twins := filter (fun kv => kv.1 ∈ reachable h l) h in
  (h ∪ kmap (M2 := gmap nat) (fun l' => l' + off)
         (fmap (M := gmap string) (shift_slot off) <$> twins),
   l + off).

Arguments deepcopy : simpl never.

(** What an observer sees of a value by following attributes to depth
    [d]: the shape of the object graph without its locations. *)
#[warnings="-register-all"]
Inductive tree :=
| TLeaf (v : value)
| TRaises (e : exn)
| TObj (attrs : gmap string tree)
| TDangling
| TCut.

Fixpoint unfold (d : nat) (h : gmap loc (gmap string slot)) (v : value) : tree :=
  match v with
  | VRef l =>
      match d with
      | 0 => TCut
      | S d' =>
          match h !! l with
          | Some o =>
              TObj ((fun s => match s with
                              | Attr v' => unfold d' h v'
                              | Raising e => TRaises e
                              end) <$> o)
          | None => TDangling
          end
      end
  | _ => TLeaf v
  end.

(** [l] reaches [l'] along the references of plain attributes. *)
Inductive reaches (h : gmap loc (gmap string slot)) : loc -> loc -> Prop :=
| reaches_here l : reaches h l l
| reaches_attr l o a l1 l2 :
    h !! l = Some o -> o !! a = Some (Attr (VRef l1)) -> reaches h l1 l2 ->
    reaches h l l2.

(** [c] in [h'] is a deep copy of [src] in [h]: neither [c] nor anything it
    reaches is an object of [h], and [c] has the attributes and values of
    [src] all the way down. *)
Definition deep_copy_of (h : gmap loc (gmap string slot)) (src : loc)
  (h' : gmap loc (gmap string slot)) (c : loc) : Prop :=
  (forall l', reaches h' c l' -> l' ∉ dom h)
  /\ (forall d, unfold d h' (VRef c) = unfold d h (VRef src)).

(** The objects [news] of [h'] are new to [h] and each looks like [src]
    in [h]. *)
Definition copies_of (h : gmap loc (gmap string slot)) (src : loc)
  (h' : gmap loc (gmap string slot)) (news : list loc) : Prop :=
  Forall (fun c => c ∈ dom h' /\ deep_copy_of h src h' c) news.

(** A heap without dangling references. *)
Definition closed (h : gmap loc (gmap string slot)) : Prop :=
  forall l o a l', h !! l = Some o -> o !! a = Some (Attr (VRef l')) -> l' ∈ dom h.

(** ** The toolkit's types *)

(** [QModelIndex]: valid when it has a model and neither coordinate is
    negative. *)
Record QModelIndex := {
  row : Z;
  column : Z;
  has_model : bool
}.

Definition isValid (index : QModelIndex) : bool :=
  bool_decide (0 <= row index)%Z && bool_decide (0 <= column index)%Z && has_model index.

Inductive Orientation := Horizontal | Vertical.

#[global] Instance Orientation_eq_dec : EqDecision Orientation.
Proof. solve_decision. Defined.

(** [Qt.ItemDataRole] and [Qt.ItemFlag]; a flag is one bit of a mask. *)
Definition DisplayRole : Z := 0.
Definition EditRole : Z := 2.
Definition ItemIsSelectable : Z := 1.
Definition ItemIsEditable : Z := 2.
Definition ItemIsEnabled : Z := 32.

Definition has_flag (mask flag : Z) : Prop := Z.testbit mask (Z.log2 flag) = true.

(** ** ObjectListTableModelQt *)

Record ObjectListTableModelQt := {
  objects : list loc;
  properties : list (gmap string value);
  isRowObjects : bool;
  isDynamic : bool;
  templateObject : option loc
}.

Definition set_objects (self : ObjectListTableModelQt) (objs : list loc)
  : ObjectListTableModelQt :=
  {| objects := objs; properties := properties self;
     isRowObjects := isRowObjects self; isDynamic := isDynamic self;
     templateObject := templateObject self |}.

Definition set_templateObject (self : ObjectListTableModelQt) (t : option loc)
  : ObjectListTableModelQt :=
  {| objects := objects self; properties := properties self;
     isRowObjects := isRowObjects self; isDynamic := isDynamic self;
     templateObject := t |}.

(** [getObject]: list indexing raises nothing but [IndexError], the one
    exception the source catches. *)
Definition getObject (self : ObjectListTableModelQt) (index : QModelIndex) : option loc :=
  if negb (isValid index) then None
  else
    let objectIndex := if isRowObjects self then row index else column index in
    match py_getitem (objects self) objectIndex with
    | Ok obj => Some obj
    | Raise _ => None
    end.

Definition getProperty (self : ObjectListTableModelQt) (index : QModelIndex)
  : option (gmap string value) :=
  if negb (isValid index) then None
  else
    let propertyIndex := if isRowObjects self then column index else row index in
    match py_getitem (properties self) propertyIndex with
    | Ok prop => Some prop
    | Raise _ => None
    end.

Definition rowCount (self : ObjectListTableModelQt) : Z :=
  if isRowObjects self then py_len (objects self) else py_len (properties self).

Definition columnCount (self : ObjectListTableModelQt) : Z :=
  if isRowObjects self then py_len (properties self) else py_len (objects self).

(** [getAttrRecursive(obj, prop['attr'])] *)
Definition get_prop_attr (h : gmap loc (gmap string slot)) (obj : value)
  (prop : gmap string value) : result value :=
  attr ← dict_getitem prop "attr";
  path ← as_attr_path attr;
  getAttrRecursive h obj path.

(** [data(index, role)]: Python's [None] is [VNone]. *)
Definition data (self : ObjectListTableModelQt) (w : store) (index : QModelIndex)
  (role : Z) : value :=
  if negb (isValid index) then VNone
  else
    match getObject self index, getProperty self index with
    | Some obj, Some prop =>
        try_except_all
          (if bool_decide (role = DisplayRole \/ role = EditRole)
           then get_prop_attr (heap w) (VRef obj) prop
           else Ok VNone)
          VNone
    | _, _ => VNone
    end.

(** [setData(index, value, role)]: the returned value and the store after
    the call.  The model's values are Python values already, so the
    [QVariant] and [QString] conversions leave [value] as it is. *)
Definition setData (self : ObjectListTableModelQt) (w : store) (index : QModelIndex)
  (v : value) (role : Z) : value * store :=
  if negb (isValid index) then (VBool false, w)
  else
    match getObject self index, getProperty self index with
    | Some obj, Some prop =>
        try_except_all
          (let action := dict_get prop "action" VNone in
           let edit :=
             if bool_decide (role = EditRole)
             then
               attr ← dict_getitem prop "attr";
               path ← as_attr_path attr;
               h' ← setAttrRecursive (heap w) (VRef obj) path v;
               Ok (VBool true, {| heap := h'; called := called w |})
             else Ok (VBool false, w) in
           if bool_decide (action <> VNone) then
             if bool_decide (action = VStr "button") then
               (* Call obj.attr() *)
               f ← get_prop_attr (heap w) (VRef obj) prop;
               w' ← py_call w f;
               Ok (VBool true, w')
             else
               (* "fileDialog" and any other action: fall through. *)
               edit
           else edit)
          (VBool false, w)
    | _, _ => (VNone, w)
    end.

Section Flags.

(** [QAbstractTableModel.flags], the toolkit's base implementation. *)
Variable baseFlags : QModelIndex -> Z.

Definition flags (self : ObjectListTableModelQt) (index : QModelIndex) : result Z :=
  let flags := baseFlags index in
  if negb (isValid index) then Ok flags
  else
    match getProperty self index with
    | None => Ok flags
    | Some prop =>
        let flags := Z.lor flags ItemIsEnabled in
        let flags := Z.lor flags ItemIsSelectable in
        let mode := dict_get prop "mode" (VStr "Read/Write") in
        writable ← py_contains "Write" mode;
        if writable : bool then Ok (Z.lor flags ItemIsEditable) else Ok flags
    end.

End Flags.

(** [headerData(section, orientation, role)]: indexing the list raises
    nothing but [IndexError] and the dict nothing but [KeyError], the two
    exceptions the source catches. *)
Definition headerData (self : ObjectListTableModelQt) (section : Z)
  (orientation : Orientation) (role : Z) : value :=
  if bool_decide (role <> DisplayRole) then VNone
  else if (bool_decide (orientation = Horizontal) && isRowObjects self)
          || (bool_decide (orientation = Vertical) && negb (isRowObjects self))
  then
    (* Display property headers. *)
    match py_getitem (properties self) section with
    | Ok prop =>
        match dict_getitem prop "header" with
        | Ok hdr => hdr
        | Raise _ => VNone
        end
    | Raise _ => VNone
    end
  else
    (* Display object indices (1-based). *)
    if bool_decide (0 <= section < py_len (objects self))%Z
    then VInt (section + 1) else VNone.

(** [range(a, a + n)] *)
Definition py_range (a n : Z) : list Z :=
  (fun k => (a + Z.of_nat k)%Z) <$> seq 0 (Z.to_nat n).

(** The loop of [insertObjects] over [objectIndex in range(i, i + num)]. *)
Fixpoint insert_loop (template : option loc) (range : list Z)
  (objs : list loc) (h : gmap loc (gmap string slot))
  : result (list loc * gmap loc (gmap string slot)) :=
  match range with
  | [] => Ok (objs, h)
  | objectIndex :: range' =>
      match template with
      | Some t =>
          let '(h', c) := deepcopy h t in
          insert_loop template range' (py_insert objs objectIndex c) h'
      | None =>
          if bool_decide (py_len objs <> 0)%Z then
            let copyIndex := clamp objectIndex (py_len objs - 1) in
            src ← py_getitem objs copyIndex;
            let '(h', c) := deepcopy h src in
            insert_loop template range' (py_insert objs objectIndex c) h'
          else insert_loop template range' objs h
      end
  end.

(** [insertObjects(i, num)]: the returned flag, the model and the store
    after the call.  The toolkit's begin/end notifications carry no data
    of the model and are left out, here and below. *)
Definition insertObjects (self : ObjectListTableModelQt) (w : store) (i num : Z)
  : result (bool * ObjectListTableModelQt * store) :=
  if (bool_decide (py_len (objects self) = 0)%Z
      && bool_decide (templateObject self = None))
     || bool_decide (num <= 0)%Z
  then Ok (false, self, w)
  else
    let i := clamp i (py_len (objects self)) in
    '(objs, h) ← insert_loop (templateObject self) (py_range i num) (objects self) (heap w);
    Ok (true, set_objects self objs, {| heap := h; called := called w |}).

Definition removeObjects (self : ObjectListTableModelQt) (i num : Z)
  : result (bool * ObjectListTableModelQt) :=
  if bool_decide (py_len (objects self) = 0)%Z || bool_decide (num <= 0)%Z
  then Ok (false, self)
  else
    let i := clamp i (py_len (objects self) - 1) in
    let num := Z.min num (py_len (objects self) - i) in
    self' ←
      (if bool_decide (num = py_len (objects self)) then
         (* Make sure we have a template for inserting objects later. *)
         match templateObject self with
         | None =>
             first ← py_getitem (objects self) 0;
             Ok (set_templateObject self (Some first))
         | Some _ => Ok self
         end
       else Ok self);
    Ok (true, set_objects self' (py_delslice (objects self') i (i + num))).

(** [for i in ...: del self.objects[i]] over the indices in the order
    given: the list as the loop left it, and the exception that stopped
    it, if any. *)
Fixpoint del_loop (indices : list Z) (objs : list loc) : option exn * list loc :=
  match indices with
  | [] => (None, objs)
  | i :: rest =>
      match py_delitem objs i with
      | Ok objs' => del_loop rest objs'
      | Raise e => (Some e, objs)
      end
  end.

(** [for i, obj in enumerate(objectsToMove)], counting [i] from [k]. *)
Fixpoint reinsert_loop (moveToIndex : Z) (k : Z) (objectsToMove : list loc)
  (objs : list loc) : list loc :=
  match objectsToMove with
  | [] => objs
  | obj :: rest =>
      let j := (moveToIndex + k)%Z in
      let j := clamp j (py_len objs) in
      reinsert_loop moveToIndex (k + 1) rest (py_insert objs j obj)
  end.

(** [moveObjects(indices, moveToIndex)]: a bare [except] returns [False]
    and keeps the list as the interrupted loop left it. *)
Definition moveObjects (self : ObjectListTableModelQt) (indices : list Z)
  (moveToIndex : Z) : bool * ObjectListTableModelQt :=
  if bool_decide (py_len (objects self) <= 1)%Z then (false, self)
  else
    let indices := (fun idx => clamp idx (py_len (objects self) - 1)) <$> indices in
    let moveToIndex := clamp moveToIndex (py_len (objects self) - 1) in
    match mapM (py_getitem (objects self)) indices with
    | Raise _ => (false, self)
    | Ok objectsToMove =>
        match del_loop (reverse indices) (objects self) with
        | (Some _, objs) => (false, set_objects self objs)
        | (None, objs) =>
            (true, set_objects self (reinsert_loop moveToIndex 0 objectsToMove objs))
        end
    end.

Definition clearObjects (self : ObjectListTableModelQt)
  : result ObjectListTableModelQt :=
  if bool_decide (py_len (objects self) <> 0)%Z then
    self' ←
      match templateObject self with
      | None =>
          first ← py_getitem (objects self) 0;
          Ok (set_templateObject self (Some first))
      | Some _ => Ok self
      end;
    Ok (set_objects self' [])
  else Ok self.

(** [propertyType(propertyIndex)]: a type is the value [VType t]. *)
Definition propertyType (self : ObjectListTableModelQt) (w : store)
  (propertyIndex : Z) : value :=
  try_except_all
    (prop ← py_getitem (properties self) propertyIndex;
     if dict_has prop "dtype" then dict_getitem prop "dtype"
     else if dict_has prop "attr" then
       match templateObject self with
       | Some t =>
           v ← get_prop_attr (heap w) (VRef t) prop;
           Ok (VType (py_type v))
       | None =>
           if bool_decide (py_len (objects self) > 0)%Z then
             first ← py_getitem (objects self) 0;
             v ← get_prop_attr (heap w) (VRef first) prop;
             Ok (VType (py_type v))
           else Ok VNone
       end
     else Ok VNone)
    VNone.

(** ** ObjectListTableViewQt *)

Inductive delegate :=
| CheckBoxDelegateQt
| FloatEditDelegateQt
| DateTimeEditDelegateQt (format : value)
| ComboBoxDelegateQt (choices : value)
| PushButtonDelegateQt (text : value)
| FileDialogDelegateQt.

Inductive ContextMenuPolicy := NoContextMenu | CustomContextMenu.

Inductive menuHandler := getPropertyHeaderContextMenu | getObjectHeaderContextMenu.

(** The view: its three lists of per-property delegates, the delegates
    the toolkit holds per column and per row, and the headers' context
    menu policy and connected handlers. *)
Record ObjectListTableViewQt := {
  _dateTimeEditDelegates : list delegate;
  _comboBoxDelegates : list delegate;
  _pushButtonDelegates : list delegate;
  itemDelegateForColumn : gmap nat delegate;
  itemDelegateForRow : gmap nat delegate;
  horizontalPolicy : ContextMenuPolicy;
  verticalPolicy : ContextMenuPolicy;
  horizontalHandlers : list menuHandler;
  verticalHandlers : list menuHandler
}.

(** [setItemDelegateForColumn(i, d)] when [isRowObjects], otherwise
    [setItemDelegateForRow(i, d)]. *)
Definition setItemDelegate (byColumn : bool) (i : nat) (d : delegate)
  (view : ObjectListTableViewQt) : ObjectListTableViewQt :=
  {| _dateTimeEditDelegates := _dateTimeEditDelegates view;
     _comboBoxDelegates := _comboBoxDelegates view;
     _pushButtonDelegates := _pushButtonDelegates view;
     itemDelegateForColumn :=
       if byColumn then <[i := d]> (itemDelegateForColumn view)
       else itemDelegateForColumn view;
     itemDelegateForRow :=
       if byColumn then itemDelegateForRow view
       else <[i := d]> (itemDelegateForRow view);
     horizontalPolicy := horizontalPolicy view;
     verticalPolicy := verticalPolicy view;
     horizontalHandlers := horizontalHandlers view;
     verticalHandlers := verticalHandlers view |}.

Definition set_delegate_lists (dts cbs pbs : list delegate)
  (view : ObjectListTableViewQt) : ObjectListTableViewQt :=
  {| _dateTimeEditDelegates := dts;
     _comboBoxDelegates := cbs;
     _pushButtonDelegates := pbs;
     itemDelegateForColumn := itemDelegateForColumn view;
     itemDelegateForRow := itemDelegateForRow view;
     horizontalPolicy := horizontalPolicy view;
     verticalPolicy := verticalPolicy view;
     horizontalHandlers := horizontalHandlers view;
     verticalHandlers := verticalHandlers view |}.

Definition set_header_menus (hp vp : ContextMenuPolicy) (hh vh : list menuHandler)
  (view : ObjectListTableViewQt) : ObjectListTableViewQt :=
  {| _dateTimeEditDelegates := _dateTimeEditDelegates view;
     _comboBoxDelegates := _comboBoxDelegates view;
     _pushButtonDelegates := _pushButtonDelegates view;
     itemDelegateForColumn := itemDelegateForColumn view;
     itemDelegateForRow := itemDelegateForRow view;
     horizontalPolicy := hp;
     verticalPolicy := vp;
     horizontalHandlers := hh;
     verticalHandlers := vh |}.

(** One round of [for i, prop in enumerate(model.properties)]: the
    [if]/[elif] chain that assigns the custom delegate of property [i]. *)
Definition assign_delegate (model : ObjectListTableModelQt) (w : store)
  (i : nat) (prop : gmap string value) (view : ObjectListTableViewQt)
  : ObjectListTableViewQt :=
  let dtype := propertyType model w (Z.of_nat i) in
  if dict_has prop "choices" then
    let d := ComboBoxDelegateQt (default VNone (prop !! "choices")) in
    let view := set_delegate_lists (_dateTimeEditDelegates view)
                  (_comboBoxDelegates view ++ [d]) (_pushButtonDelegates view) view in
    setItemDelegate (isRowObjects model) i d view
  else if bool_decide (dict_get prop "action" (VStr "") = VStr "fileDialog") then
    setItemDelegate (isRowObjects model) i FileDialogDelegateQt view
  else if bool_decide (dict_get prop "action" (VStr "") = VStr "button") then
    let d := PushButtonDelegateQt (dict_get prop "text" (VStr "")) in
    let view := set_delegate_lists (_dateTimeEditDelegates view)
                  (_comboBoxDelegates view) (_pushButtonDelegates view ++ [d]) view in
    setItemDelegate (isRowObjects model) i d view
  else if bool_decide (dtype = VType TBool) then
    setItemDelegate (isRowObjects model) i CheckBoxDelegateQt view
  else if bool_decide (dtype = VType TFloat) then
    setItemDelegate (isRowObjects model) i FloatEditDelegateQt view
  else if bool_decide (dtype = VType TDatetime) then
    let d := DateTimeEditDelegateQt (dict_get prop "text" (VStr "%c")) in
    let view := set_delegate_lists (_dateTimeEditDelegates view ++ [d])
                  (_comboBoxDelegates view) (_pushButtonDelegates view) view in
    setItemDelegate (isRowObjects model) i d view
  else view.

(** [enumerate(model.properties)], counting from [i]. *)
Fixpoint assign_delegates (model : ObjectListTableModelQt) (w : store)
  (i : nat) (props : list (gmap string value)) (view : ObjectListTableViewQt)
  : ObjectListTableViewQt :=
  match props with
  | [] => view
  | prop :: props' =>
      assign_delegates model w (S i) props' (assign_delegate model w i prop view)
  end.

(** [setModel(model)]: the argument is an [ObjectListTableModelQt] by its
    type, so the [RuntimeError] of the first line cannot arise. *)
Definition setModel (view : ObjectListTableViewQt) (model : ObjectListTableModelQt)
  (w : store) : ObjectListTableViewQt :=
  (* Clear current delegate lists. *)
  let view := set_delegate_lists [] [] [] view in
  (* Assign custom delegates. *)
  let view := assign_delegates model w 0 (properties model) view in
  (* Context menus for right click in header. *)
  if isDynamic model then
    if isRowObjects model then
      set_header_menus CustomContextMenu CustomContextMenu
        (horizontalHandlers view ++ [getPropertyHeaderContextMenu])
        (verticalHandlers view ++ [getObjectHeaderContextMenu]) view
    else
      set_header_menus CustomContextMenu CustomContextMenu
        (horizontalHandlers view ++ [getObjectHeaderContextMenu])
        (verticalHandlers view ++ [getPropertyHeaderContextMenu]) view
  else
    if isRowObjects model then
      set_header_menus CustomContextMenu NoContextMenu
        (horizontalHandlers view ++ [getPropertyHeaderContextMenu])
        (verticalHandlers view) view
    else
      set_header_menus NoContextMenu CustomContextMenu
        (horizontalHandlers view)
        (verticalHandlers view ++ [getPropertyHeaderContextMenu]) view.

(** ** The view's selection, header menus and slots

    The methods of the view that act on [self.model()] take the model
    (and the store, where objects are copied or written) and return them
    as the call leaves them.  What the toolkit supplies is an argument:
    the indexes of the selection model, and the number and the [ok] flag
    an input dialog returned. *)

Module View.

(** [sorted(list(s))] on a set of integers. *)
Definition py_sorted (s : gset Z) : list Z := merge_sort Z.le (elements s).

(** [selectedRows()], over [self.selectionModel().selection().indexes()]. *)
Definition selectedRows (selectedIndexes : list QModelIndex) : list Z :=
  let rows := foldl (fun (rows : gset Z) index => rows ∪ {[row index]}) ∅ selectedIndexes in
  py_sorted rows.

Definition selectedColumns (selectedIndexes : list QModelIndex) : list Z :=
  let columns :=
    foldl (fun (columns : gset Z) index => columns ∪ {[column index]}) ∅ selectedIndexes in
  py_sorted columns.

(** [self.selectedRows() if self.model().isRowObjects else self.selectedColumns()] *)
Definition selectedObjectIndices (model : ObjectListTableModelQt)
  (selectedIndexes : list QModelIndex) : list Z :=
  if isRowObjects model then selectedRows selectedIndexes
  else selectedColumns selectedIndexes.

(** [self.selectedColumns() if self.model().isRowObjects else self.selectedRows()] *)
Definition selectedPropertyIndices (model : ObjectListTableModelQt)
  (selectedIndexes : list QModelIndex) : list Z :=
  if isRowObjects model then selectedColumns selectedIndexes
  else selectedRows selectedIndexes.

(** The methods of the view a menu action is connected to. *)
Inductive slotOfView :=
| SlotInsertObjectBeforeSelectedObjects
| SlotInsertObjectAfterSelectedObjects
| SlotInsertObjectsBeforeSelectedObjects
| SlotInsertObjectsAfterSelectedObjects
| SlotMoveSelectedObjects
| SlotRemoveSelectedObjects
| SlotSetPropertyForAllObjects
| SlotAppendObject.

(** What [addAction] and [addSeparator] put into a [QMenu]. *)
Inductive menuItem :=
| Action (text : string) (slot : slotOfView)
| Separator.

(** [getObjectHeaderContextMenu(pos)]: the menu that is shown. *)
Definition getObjectHeaderContextMenu (model : ObjectListTableModelQt) : list menuItem :=
  let rowOrColumn := if isRowObjects model then "Row" else "Column" in
  let aboveOrBefore := if isRowObjects model then "Above" else "Before" in
  let belowOrAfter := if isRowObjects model then "Below" else "After" in
  [ Action ("Insert " ++ rowOrColumn ++ " " ++ aboveOrBefore ++ " Selected")
      SlotInsertObjectBeforeSelectedObjects;
    Action ("Insert " ++ rowOrColumn ++ " " ++ belowOrAfter ++ " Selected")
      SlotInsertObjectAfterSelectedObjects;
    Separator;
    Action ("Insert " ++ rowOrColumn ++ "s " ++ aboveOrBefore ++ " Selected")
      SlotInsertObjectsBeforeSelectedObjects;
    Action ("Insert " ++ rowOrColumn ++ "s " ++ belowOrAfter ++ " Selected")
      SlotInsertObjectsAfterSelectedObjects;
    Separator;
    Action ("Move Selected " ++ rowOrColumn ++ "s") SlotMoveSelectedObjects;
    Separator;
    Action ("Delete Selected " ++ rowOrColumn ++ "s") SlotRemoveSelectedObjects ]%string.

(** [getPropertyHeaderContextMenu(pos)]: the menu that is shown, [None]
    when the method returns without showing one. *)
Definition getPropertyHeaderContextMenu (model : ObjectListTableModelQt)
  : option (list menuItem) :=
  if bool_decide (py_len (objects model) > 1)%Z then
    let rowOrColumn := if isRowObjects model then "Column" else "Row" in
    Some [Action ("Set All In Selected " ++ rowOrColumn) SlotSetPropertyForAllObjects]%string
  else if bool_decide (py_len (objects model) = 0)%Z
          && bool_decide (templateObject model <> None) then
    let rowOrColumn := if isRowObjects model then "Row" else "Column" in
    Some [Action ("Add Object " ++ rowOrColumn) SlotAppendObject]%string
  else None.

(** [insertObject(i)]: the model's flag is dropped, its exceptions are not. *)
Definition insertObject (model : ObjectListTableModelQt) (w : store) (i : Z)
  : result (ObjectListTableModelQt * store) :=
  '(_, model', w') ← insertObjects model w i 1;
  Ok (model', w').

Definition appendObject (model : ObjectListTableModelQt) (w : store)
  : result (ObjectListTableModelQt * store) :=
  insertObject model w (py_len (objects model)).

Definition removeObject (model : ObjectListTableModelQt) (i : Z)
  : result ObjectListTableModelQt :=
  '(_, model') ← removeObjects model i 1;
  Ok model'.

Definition insertObjectBeforeSelectedObjects (model : ObjectListTableModelQt) (w : store)
  (selectedIndexes : list QModelIndex) : result (ObjectListTableModelQt * store) :=
  let selectedObjectIndices := selectedObjectIndices model selectedIndexes in
  first ← py_getitem selectedObjectIndices 0;
  '(_, model', w') ← insertObjects model w first 1;
  Ok (model', w').

Definition insertObjectAfterSelectedObjects (model : ObjectListTableModelQt) (w : store)
  (selectedIndexes : list QModelIndex) : result (ObjectListTableModelQt * store) :=
  let selectedObjectIndices := selectedObjectIndices model selectedIndexes in
  last ← py_getitem selectedObjectIndices (-1);
  '(_, model', w') ← insertObjects model w (last + 1) 1;
  Ok (model', w').

(** [num, ok = QInputDialog.getInt(...)] is what the dialog returned. *)
Definition insertObjectsBeforeSelectedObjects (model : ObjectListTableModelQt) (w : store)
  (selectedIndexes : list QModelIndex) (num : Z) (ok : bool)
  : result (ObjectListTableModelQt * store) :=
  if ok then
    let selectedObjectIndices := selectedObjectIndices model selectedIndexes in
    first ← py_getitem selectedObjectIndices 0;
    '(_, model', w') ← insertObjects model w first num;
    Ok (model', w')
  else Ok (model, w).

Definition insertObjectsAfterSelectedObjects (model : ObjectListTableModelQt) (w : store)
  (selectedIndexes : list QModelIndex) (num : Z) (ok : bool)
  : result (ObjectListTableModelQt * store) :=
  if ok then
    let selectedObjectIndices := selectedObjectIndices model selectedIndexes in
    last ← py_getitem selectedObjectIndices (-1);
    '(_, model', w') ← insertObjects model w (last + 1) num;
    Ok (model', w')
  else Ok (model, w).

(** [for i in ...: self.model().removeObjects(i, 1)] *)
Fixpoint remove_loop (indices : list Z) (model : ObjectListTableModelQt)
  : result ObjectListTableModelQt :=
  match indices with
  | [] => Ok model
  | i :: rest =>
      '(_, model') ← removeObjects model i 1;
      remove_loop rest model'
  end.

Definition removeSelectedObjects (model : ObjectListTableModelQt)
  (selectedIndexes : list QModelIndex) : result ObjectListTableModelQt :=
  let selectedObjectIndices := selectedObjectIndices model selectedIndexes in
  remove_loop (reverse selectedObjectIndices) model.

(** [moveToIndex, ok = QInputDialog.getInt(...)] is what the dialog
    returned. *)
Definition moveSelectedObjects (model : ObjectListTableModelQt)
  (selectedIndexes : list QModelIndex) (moveToIndex : Z) (ok : bool)
  : ObjectListTableModelQt :=
  if ok then
    (* From 1-based to 0-based. *)
    let moveToIndex := (moveToIndex - 1)%Z in
    let moveToIndex := clamp moveToIndex (py_len (objects model)) in
    let selectedObjectIndices := selectedObjectIndices model selectedIndexes in
    (moveObjects model selectedObjectIndices moveToIndex).2
  else model.

Definition clearObjects (model : ObjectListTableModelQt) : result ObjectListTableModelQt :=
  clearObjects model.

(** [QAbstractTableModel.index(row, column)], the toolkit's: the index of
    a cell of the table, the invalid index elsewhere. *)
Definition index (model : ObjectListTableModelQt) (r c : Z) : QModelIndex :=
  if bool_decide (0 <= r < rowCount model)%Z && bool_decide (0 <= c < columnCount model)%Z
  then {| row := r; column := c; has_model := true |}
  else {| row := -1; column := -1; has_model := false |}.

(** [for objectIndex, obj in enumerate(self.model().objects)], counting
    [objectIndex] from [k]: the first round binds [value], the later ones
    write it.  [f(value)] is the call of [py_call], which keeps no record
    of arguments.  Nothing in the loop raises past its own handlers. *)
Fixpoint set_all_loop (model : ObjectListTableModelQt) (prop : gmap string value)
  (propertyIndex : Z) (k : Z) (objs : list loc) (value : value) (w : store) : store :=
  match objs with
  | [] => w
  | obj :: rest =>
      let objectIndex := k in
      let row := if isRowObjects model then objectIndex else propertyIndex in
      let col := if isRowObjects model then propertyIndex else objectIndex in
      let index := index model row col in
      if bool_decide (objectIndex = 0)%Z then
        let value := data model w index DisplayRole in
        set_all_loop model prop propertyIndex (k + 1) rest value w
      else
        let w' :=
          if bool_decide (dict_get prop "action" (VStr "") = VStr "fileDialog") then
            try_except_all
              (f ← get_prop_attr (heap w) (VRef obj) prop;
               py_call w f)
              (setData model w index value EditRole).2
          else (setData model w index value EditRole).2 in
        set_all_loop model prop propertyIndex (k + 1) rest value w'
  end.

(** [setPropertyForAllObjects()]: [dialog] is what the user does to the
    store in the dialog that edits the property of the first object.
    The bare [except: pass] covers the lines before the dialog; behind it
    nothing raises. *)
Definition setPropertyForAllObjects (model : ObjectListTableModelQt) (w : store)
  (selectedIndexes : list QModelIndex) (dialog : store -> store) : store :=
  let selectedPropertyIndices := selectedPropertyIndices model selectedIndexes in
  if bool_decide (py_len selectedPropertyIndices <> 1)%Z then w
  else
    try_except_all
      (propertyIndex ← py_getitem selectedPropertyIndices 0;
       let dtype := propertyType model w propertyIndex in
       if bool_decide (dtype = VNone) then Ok w
       else
         obj ← py_getitem (objects model) 0;
         prop ← py_getitem (properties model) propertyIndex;
         writable ← py_contains "Write" (dict_get prop "mode" (VStr "Read/Write"));
         if negb writable then Ok w
         else
           let w := dialog w in
           Ok (set_all_loop model prop propertyIndex 0 (objects model) VNone w))
      w.

End View.

(** ** Sequences of model operations *)

Inductive operation :=
| OpInsert (i num : Z)
| OpRemove (i num : Z)
| OpMove (indices : list Z) (moveToIndex : Z)
| OpClear
| OpSetData (index : QModelIndex) (v : value) (role : Z).

Definition run_op (o : operation) (st : ObjectListTableModelQt * store)
  : result (ObjectListTableModelQt * store) :=
  let '(self, w) := st in
  match o with
  | OpInsert i num => '(_, self', w') ← insertObjects self w i num; Ok (self', w')
  | OpRemove i num => '(_, self') ← removeObjects self i num; Ok (self', w)
  | OpMove indices moveToIndex => Ok ((moveObjects self indices moveToIndex).2, w)
  | OpClear => self' ← clearObjects self; Ok (self', w)
  | OpSetData index v role => Ok (self, (setData self w index v role).2)
  end.

Fixpoint run_ops (ops : list operation) (st : ObjectListTableModelQt * store)
  : result (ObjectListTableModelQt * store) :=
  match ops with
  | [] => Ok st
  | o :: ops' => st' ← run_op o st; run_ops ops' st'
  end.

(** New objects can be inserted: there is an object to copy. *)
Definition insertable (self : ObjectListTableModelQt) : Prop :=
  objects self <> [] \/ templateObject self <> None.

(** A move names no more indices than the list has objects. *)
Definition move_fits (o : operation) (self : ObjectListTableModelQt) : Prop :=
  match o with
  | OpMove indices _ => length indices <= length (objects self)
  | _ => True
  end.

Fixpoint moves_fit (ops : list operation) (st : ObjectListTableModelQt * store) : Prop :=
  match ops with
  | [] => True
  | o :: ops' =>
      move_fits o st.1 /\
      match run_op o st with
      | Ok st' => moves_fit ops' st'
      | Raise _ => True
      end
  end.

(** ** The specification's side *)

(** The nested lookup [getattr(...getattr(obj, a1)..., an)]. *)
Fixpoint getattr_path (h : gmap loc (gmap string slot)) (obj : value)
  (names : list string) : result value :=
  match names with
  | [] => Ok obj
  | a :: names' => obj' ← getattr h obj a; getattr_path h obj' names'
  end.

(** The assignment [setattr(getattr(...getattr(obj, a1)..., a(n-1)), an, v)]. *)
Definition setattr_path (h : gmap loc (gmap string slot)) (obj : value)
  (names : list string) (leaf : string) (v : value)
  : result (gmap loc (gmap string slot)) :=
  target ← getattr_path h obj names; setattr h target leaf v.

(** The dotted path ["a1.a2. ... .an"]. *)
Definition dotted (names : list string) : string := String.concat "." names.

(** A name of a dotted path holds no dot. *)
Definition dotless (a : string) : Prop := String.index 0 "." a = None.

(** [s] holds [sub] as a substring. *)
Definition has_substring (sub s : string) : Prop :=
  exists pre post, s = (pre ++ sub ++ post)%string.

(** The dtype the specification infers for a descriptor: its ['dtype']
    key, else the type of the attribute on the template object, else (with
    no template) on the first object, else [None]; an attribute that
    cannot be read has no type, which is [None] too. *)
Definition inferred_dtype (model : ObjectListTableModelQt) (w : store)
  (prop : gmap string value) : value :=
  match prop !! "dtype" with
  | Some t => t
  | None =>
      match prop !! "attr" with
      | Some (VStr path) =>
          match templateObject model, objects model with
          | Some t, _ =>
              match getAttrRecursive (heap w) (VRef t) path with
              | Ok v => VType (py_type v)
              | Raise _ => VNone
              end
          | None, first :: _ =>
              match getAttrRecursive (heap w) (VRef first) path with
              | Ok v => VType (py_type v)
              | Raise _ => VNone
              end
          | None, [] => VNone
          end
      | _ => VNone
      end
  end.

(** The delegate the specification's ordered rules choose, if any. *)
Definition chosen_delegate (prop : gmap string value) (dtype : value) : option delegate :=
  match prop !! "choices" with
  | Some choices => Some (ComboBoxDelegateQt choices)
  | None =>
      if decide (prop !! "action" = Some (VStr "fileDialog")) then Some FileDialogDelegateQt
      else if decide (prop !! "action" = Some (VStr "button")) then
        Some (PushButtonDelegateQt (default (VStr "") (prop !! "text")))
      else if decide (dtype = VType TBool) then Some CheckBoxDelegateQt
      else if decide (dtype = VType TFloat) then Some FloatEditDelegateQt
      else if decide (dtype = VType TDatetime) then
        Some (DateTimeEditDelegateQt (default (VStr "%c") (prop !! "text")))
      else None
  end.

(** A check of [closed] that computes. *)
Definition closedb (h : gmap loc (gmap string slot)) : bool :=
  bool_decide (map_Forall (fun _ o =>
    map_Forall (fun (_ : string) s =>
      match slot_ref s with
      | Some l' => bool_decide (l' ∈ dom h)
      | None => true
      end = true) o) h).

(** The objects a nested lookup reads an attribute of: [obj], then
    [obj.a1], and so on, up to the one before the last. *)
Fixpoint path_objects (h : gmap loc (gmap string slot)) (obj : value)
  (names : list string) : list value :=
  match names with
  | [] => []
  | a :: names' =>
      obj :: match getattr h obj a with
             | Ok obj' => path_objects h obj' names'
             | Raise _ => []
             end
  end.

(** The model with the ['mode'] of every descriptor set to [mode]. *)
Definition with_mode (mode : value) (self : ObjectListTableModelQt)
  : ObjectListTableModelQt :=
  {| objects := objects self;
     properties := (fun prop => <["mode" := mode]> prop) <$> properties self;
     isRowObjects := isRowObjects self; isDynamic := isDynamic self;
     templateObject := templateObject self |}.

(** What a cell of a plain attribute shows. *)
Definition cell_of (h : gmap nat (gmap string slot)) (l : nat) (a : string) : value :=
  try_except_all (getattr h (VRef l) a) VNone.

(** The table turned over: objects in columns instead of rows, or back. *)
Definition transpose (self : ObjectListTableModelQt) : ObjectListTableModelQt :=
  {| objects := objects self; properties := properties self;
     isRowObjects := negb (isRowObjects self); isDynamic := isDynamic self;
     templateObject := templateObject self |}.

(** The index of the cell across the diagonal. *)
Definition transpose_index (index : QModelIndex) : QModelIndex :=
  {| row := column index; column := row index; has_model := has_model index |}.

Definition transpose_orientation (orientation : Orientation) : Orientation :=
  match orientation with Horizontal => Vertical | Vertical => Horizontal end.

(** The attribute [a] of the object [o] is a plain attribute, or [o] has
    no such attribute yet: no property stands behind the name. *)
Definition plain_attribute (o : gmap string slot) (a : string) : Prop :=
  o !! a = None \/ exists x, o !! a = Some (Attr x).

(** A store whose objects have plain attributes only. *)
Definition plain_store (h : gmap loc (gmap string slot)) : Prop :=
  forall l o a, h !! l = Some o -> plain_attribute o a.

(** [plain_store], as a check that runs. *)
Definition plain_storeb (h : gmap loc (gmap string slot)) : bool :=
  bool_decide (map_Forall (fun _ o =>
    map_Forall (fun (_ : string) s =>
      match s with Attr _ => true | Raising _ => false end = true) o) h).

(** ** A small table: two objects with a child each, five properties *)

Definition ex_object (name : string) (n : Z) (child : option loc) : gmap string slot :=
  let base : gmap string slot :=
    {[ "name" := Attr (VStr name); "intValue" := Attr (VInt n);
       "boolValue" := Attr (VBool true); "clicked" := Attr (VMethod "clicked" None) ]} in
  match child with
  | Some c => <[ "child" := Attr (VRef c) ]> base
  | None => base
  end.

Definition ex_store : store :=
  {| heap := {[ 1 := ex_object "obj A" 3 (Some 2); 2 := ex_object "obj A" 3 None;
                3 := ex_object "obj B" (-1) (Some 4); 4 := ex_object "obj B" (-1) None ]};
     called := [] |}.

Definition ex_properties : list (gmap string value) :=
  [ {[ "attr" := VStr "name"; "header" := VStr "Read Only Name"; "mode" := VStr "Read Only" ]};
    {[ "attr" := VStr "intValue"; "header" := VStr "Integer" ]};
    {[ "attr" := VStr "boolValue"; "header" := VStr "Bool" ]};
    {[ "attr" := VStr "clicked"; "header" := VStr "Button"; "action" := VStr "button";
       "text" := VStr "Click Me!" ]};
    {[ "attr" := VStr "child.intValue"; "header" := VStr "Child Int" ]} ].

Definition ex_model : ObjectListTableModelQt :=
  {| objects := [1; 3]; properties := ex_properties; isRowObjects := true;
     isDynamic := true; templateObject := None |}.

Definition ex_index (r c : Z) : QModelIndex := {| row := r; column := c; has_model := true |}.

Definition ex_view : ObjectListTableViewQt :=
  {| _dateTimeEditDelegates := []; _comboBoxDelegates := []; _pushButtonDelegates := [];
     itemDelegateForColumn := ∅; itemDelegateForRow := ∅;
     horizontalPolicy := NoContextMenu; verticalPolicy := NoContextMenu;
     horizontalHandlers := []; verticalHandlers := [] |}.

(** Remove every row, insert two, move the first behind the second, write
    a cell and clear the table. *)
Definition ex_operations : list operation :=
  [ OpRemove 0 5; OpInsert 0 2; OpMove [0%Z] 1;
    OpSetData (ex_index 0 1) (VInt 9) EditRole; OpClear ].

(** The toolkit's base flags of a valid index: selectable and enabled. *)
Definition ex_baseFlags (index : QModelIndex) : Z :=
  if isValid index then Z.lor ItemIsSelectable ItemIsEnabled else 0.

(** A selection of the small table: the integer cells of both rows, the
    lower one first. *)
Definition ex_selection : list QModelIndex := [ex_index 1 1; ex_index 0 1].

(** The user sets the integer of the first row to 7 in the dialog. *)
Definition ex_dialog (w : store) : store :=
  (setData ex_model w (ex_index 0 1) (VInt 7) EditRole).2.

(** An object whose child has a property [locked] with a setter and a
    getter that raise [ValueError]. *)
Definition ex_locked : gmap loc (gmap string slot) :=
  {[ 1 := {[ "child" := Attr (VRef 2) ]};
     2 := {[ "locked" := Raising ValueError ]} ]}.

(** The store of [ex_locked] with an attribute named "child.locked", dot
    included, on the child. *)
Definition ex_shadowed : gmap loc (gmap string slot) :=
  {[ 1 := {[ "child" := Attr (VRef 2) ]};
     2 := {[ "locked" := Raising ValueError; "child.locked" := Attr (VInt 5) ]} ]}.

(** * Properties *)

Example getAttrRecursive_child :
  getAttrRecursive (heap ex_store) (VRef 1) "child.intValue" = Ok (VInt 3).
Proof. vm_compute. reflexivity. Qed.

(** ** Python lists *)

Lemma py_getitem_nonneg {A} (l : list A) (i : Z) :
  (0 <= i)%Z ->
  py_getitem l i = match l !! Z.to_nat i with Some x => Ok x | None => Raise IndexError end.
Proof.
  intros Hi. unfold py_getitem, py_position, py_len.
  destruct (decide (0 <= i < Z.of_nat (length l))%Z) as [Hin|Hout]; [done|].
  rewrite decide_False by lia.
  rewrite lookup_ge_None_2 by lia. done.
Qed.

Lemma py_getitem_lookup {A} (l : list A) (n : nat) x :
  l !! n = Some x -> py_getitem l (Z.of_nat n) = Ok x.
Proof. intros H. rewrite py_getitem_nonneg by lia. by rewrite Nat2Z.id, H. Qed.

Lemma py_getitem_IndexError {A} (l : list A) (i : Z) e :
  py_getitem l i = Raise e -> e = IndexError.
Proof.
  unfold py_getitem. destruct (py_position l i); [destruct (l !! n)|]; congruence.
Qed.

Lemma isValid_nonneg index :
  isValid index = true -> (0 <= row index)%Z /\ (0 <= column index)%Z.
Proof.
  unfold isValid. rewrite !andb_true_iff, !bool_decide_eq_true. tauto.
Qed.

Lemma getObject_valid self index :
  isValid index = true ->
  getObject self index =
    objects self !! Z.to_nat (if isRowObjects self then row index else column index).
Proof.
  intros Hv. unfold getObject. rewrite Hv. simpl.
  destruct (isValid_nonneg _ Hv) as [Hr Hc].
  rewrite py_getitem_nonneg by (destruct (isRowObjects self); lia).
  by destruct (objects self !! _).
Qed.

Lemma getProperty_valid self index :
  isValid index = true ->
  getProperty self index =
    properties self !! Z.to_nat (if isRowObjects self then column index else row index).
Proof.
  intros Hv. unfold getProperty. rewrite Hv. simpl.
  destruct (isValid_nonneg _ Hv) as [Hr Hc].
  rewrite py_getitem_nonneg by (destruct (isRowObjects self); lia).
  by destruct (properties self !! _).
Qed.

(** ** Rows and columns *)

(** C4: with [isRowObjects] the rows are the objects and the columns the
    property descriptors; without it the two counts are swapped. *)
Theorem rowCount_columnCount (self : ObjectListTableModelQt) :
  (isRowObjects self = true /\
   rowCount self = Z.of_nat (length (objects self)) /\
   columnCount self = Z.of_nat (length (properties self)))
  \/
  (isRowObjects self = false /\
   rowCount self = Z.of_nat (length (properties self)) /\
   columnCount self = Z.of_nat (length (objects self))).
Proof.
  unfold rowCount, columnCount, py_len.
  destruct (isRowObjects self); [left|right]; done.
Qed.

(** ** Reading a cell *)

(** C2: on a valid index that addresses an object and a descriptor,
    [data] with the display or the edit role returns what
    [getAttrRecursive] returns for the descriptor's attribute, and [None]
    when that lookup raises; it returns [None] for an invalid index, a row
    or column past the lists, any other role, and a descriptor without a
    usable ['attr']. *)
Theorem data_spec (self : ObjectListTableModelQt) (w : store) (index : QModelIndex)
  (role : Z) :
  let objectIndex := if isRowObjects self then row index else column index in
  let propertyIndex := if isRowObjects self then column index else row index in
  (forall obj prop path,
     isValid index = true ->
     objects self !! Z.to_nat objectIndex = Some obj ->
     properties self !! Z.to_nat propertyIndex = Some prop ->
     prop !! "attr" = Some (VStr path) ->
     role = DisplayRole \/ role = EditRole ->
     data self w index role =
       match getAttrRecursive (heap w) (VRef obj) path with
       | Ok v => v
       | Raise _ => VNone
       end)
  /\ (isValid index = false
      \/ objects self !! Z.to_nat objectIndex = None
      \/ properties self !! Z.to_nat propertyIndex = None
      \/ (role <> DisplayRole /\ role <> EditRole)
      \/ (forall prop path, properties self !! Z.to_nat propertyIndex = Some prop ->
                            prop !! "attr" <> Some (VStr path))
      -> data self w index role = VNone).
Proof.
  intros objectIndex propertyIndex. split.
  - intros obj prop path Hv Ho Hp Hattr Hrole.
    unfold data. rewrite Hv, getObject_valid, getProperty_valid by done. simpl.
    fold objectIndex propertyIndex. rewrite Ho, Hp.
    rewrite bool_decide_eq_true_2 by done.
    unfold get_prop_attr, dict_getitem. rewrite Hattr. simpl.
    by destruct (getAttrRecursive _ _ _).
  - intros H. unfold data.
    destruct (isValid index) eqn:Hv; [simpl|done].
    rewrite getObject_valid, getProperty_valid by done.
    fold objectIndex propertyIndex.
    destruct H as [H|[H|[H|[H|H]]]]; [done|by rewrite H|rewrite H; by destruct (objects self !! _)|..].
    + destruct (objects self !! Z.to_nat objectIndex),
        (properties self !! Z.to_nat propertyIndex); try done.
      rewrite bool_decide_eq_false_2 by tauto. done.
    + destruct (objects self !! Z.to_nat objectIndex); [|done].
      destruct (properties self !! Z.to_nat propertyIndex) as [prop|] eqn:Hp; [|done].
      case_bool_decide; [|done].
      unfold get_prop_attr, dict_getitem.
      destruct (prop !! "attr") as [[]|] eqn:Hattr; try done.
      by destruct (H prop s).
Qed.

(** The second row's "child.intValue" in the small table. *)
Lemma data_spec_witness :
  data ex_model ex_store (ex_index 1 4) DisplayRole = VInt (-1).
Proof.
  refine (proj1 (data_spec ex_model ex_store (ex_index 1 4) DisplayRole)
            3 _ "child.intValue" _ _ _ _ _); try reflexivity.
  by left.
Defined.

(** ** Writing a cell *)

(** An invalid index: [False], and nothing is written. *)
Lemma setData_invalid self w index v role :
  isValid index = false -> setData self w index v role = (VBool false, w).
Proof. intros Hv. unfold setData. by rewrite Hv. Qed.

(** A valid index past the objects or the descriptors: [None], not
    [False], and nothing is written. *)
Lemma setData_missing self w index v role :
  isValid index = true ->
  getObject self index = None \/ getProperty self index = None ->
  setData self w index v role = (VNone, w).
Proof.
  intros Hv H. unfold setData. rewrite Hv. simpl.
  destruct H as [-> | ->]; [done|]. by destruct (getObject self index).
Qed.

(** An object and a descriptor: the ["button"] action calls the method,
    the edit role sets the attribute, and in both cases the answer is
    [True] when that went through and [False] when it raised; any other
    role answers [False]. *)
Lemma setData_present self w index v role obj prop :
  isValid index = true ->
  getObject self index = Some obj ->
  getProperty self index = Some prop ->
  setData self w index v role =
    if decide (prop !! "action" = Some (VStr "button")) then
      match (f ← get_prop_attr (heap w) (VRef obj) prop; py_call w f) with
      | Ok w' => (VBool true, w')
      | Raise _ => (VBool false, w)
      end
    else if decide (role = EditRole) then
      match (attr ← dict_getitem prop "attr";
             path ← as_attr_path attr;
             setAttrRecursive (heap w) (VRef obj) path v) with
      | Ok h' => (VBool true, {| heap := h'; called := called w |})
      | Raise _ => (VBool false, w)
      end
    else (VBool false, w).
Proof.
  intros Hv Ho Hp. unfold setData, dict_get. rewrite Hv, Ho, Hp. simpl.
  destruct (decide (prop !! "action" = Some (VStr "button"))) as [Hb|Hb].
  - rewrite Hb. simpl.
    destruct (get_prop_attr (heap w) (VRef obj) prop) as [f|]; [simpl|done].
    by destruct (py_call w f).
  - assert (forall a, prop !! "action" = Some a -> a <> VStr "button") as Hne
      by (intros a Ha ->; done).
    destruct (prop !! "action") as [a|] eqn:Ha; simpl.
    + rewrite (bool_decide_eq_false_2 (a = VStr "button")) by eauto.
      assert (forall X : result (value * store),
               (if bool_decide (a <> VNone) then X else X) = X) as ->
        by (intros; by case_bool_decide).
      case_bool_decide; case_decide; try done.
      unfold dict_getitem. destruct (prop !! "attr") as [at_|]; [simpl|done].
      destruct (as_attr_path at_) as [path|]; [simpl|done].
      by destruct (setAttrRecursive _ _ _ _).
    + case_bool_decide; case_decide; try done.
      unfold dict_getitem. destruct (prop !! "attr") as [at_|]; [simpl|done].
      destruct (as_attr_path at_) as [path|]; [simpl|done].
      by destruct (setAttrRecursive _ _ _ _).
Qed.

(** C1, where the code falls short of it: a valid index whose row is past
    the last object (row 5 of the two-row table) makes [setData] return
    [None] where every other refused write returns [False]. *)
Theorem setData_None_past_last_object :
  isValid (ex_index 5 1) = true /\
  setData ex_model ex_store (ex_index 5 1) (VInt 9) EditRole = (VNone, ex_store).
Proof. split; reflexivity. Qed.

(** The button column calls the object's method, whatever the role. *)
Example setData_button_calls_method :
  setData ex_model ex_store (ex_index 0 3) VNone DisplayRole
    = (VBool true, {| heap := heap ex_store; called := ["clicked"%string] |}).
Proof. reflexivity. Qed.

(** Writing the child's integer of the second row. *)
Example setData_writes_child_attribute :
  let '(r, w') := setData ex_model ex_store (ex_index 1 4) (VInt 9) EditRole in
  r = VBool true /\
  data ex_model w' (ex_index 1 4) DisplayRole = VInt 9 /\
  data ex_model w' (ex_index 0 4) DisplayRole = VInt 3.
Proof. vm_compute. done. Qed.

(** ** Headers *)

(** On the object axis the header is the 1-based object number of a
    section within the list, and [None] elsewhere. *)
Lemma headerData_object_axis self section orientation :
  orientation = (if isRowObjects self then Vertical else Horizontal) ->
  headerData self section orientation DisplayRole =
    if decide (0 <= section < Z.of_nat (length (objects self)))%Z
    then VInt (section + 1) else VNone.
Proof.
  intros ->. unfold headerData, py_len. simpl.
  destruct (isRowObjects self); simpl; by repeat case_bool_decide; case_decide.
Qed.

(** On the property axis a section from 0 on gives the descriptor's
    ['header'], and [None] past the last descriptor or without the key. *)
Lemma headerData_property_axis self section orientation :
  orientation = (if isRowObjects self then Horizontal else Vertical) ->
  (0 <= section)%Z ->
  headerData self section orientation DisplayRole =
    match properties self !! Z.to_nat section with
    | Some prop => default VNone (prop !! "header")
    | None => VNone
    end.
Proof.
  intros -> Hs. unfold headerData. simpl.
  assert ((bool_decide ((if isRowObjects self then Horizontal else Vertical) = Horizontal)
             && isRowObjects self
           || bool_decide ((if isRowObjects self then Horizontal else Vertical) = Vertical)
                && negb (isRowObjects self)) = true) as ->
    by (by destruct (isRowObjects self)).
  rewrite py_getitem_nonneg by done.
  destruct (properties self !! Z.to_nat section) as [prop|]; [|done].
  unfold dict_getitem. by destruct (prop !! "header").
Qed.

Lemma headerData_other_role self section orientation role :
  role <> DisplayRole -> headerData self section orientation role = VNone.
Proof. intros H. unfold headerData. by rewrite bool_decide_eq_true_2. Qed.

(** C6, where the code falls short of it: section -1 is out of range, and
    on the property axis [headerData] answers with the header of the last
    descriptor; on the object axis the same section gives [None]. *)
Theorem headerData_negative_section :
  headerData ex_model (-1) Horizontal DisplayRole = VStr "Child Int" /\
  headerData ex_model (-1) Vertical DisplayRole = VNone.
Proof. split; reflexivity. Qed.

(** ** Flags *)

Lemma substring_prefix_app sub post :
  String.substring 0 (String.length sub) (sub ++ post) = sub.
Proof. induction sub as [|c sub IH]; simpl; [by destruct post|by rewrite IH]. Qed.

Lemma substring_app_mid pre sub post :
  String.substring (String.length pre) (String.length sub) (pre ++ sub ++ post) = sub.
Proof. induction pre as [|c pre IH]; [exact (substring_prefix_app sub post)|exact IH]. Qed.

Lemma substring_prefix_inv sub s :
  String.substring 0 (String.length sub) s = sub -> exists post, s = (sub ++ post)%string.
Proof.
  revert s. induction sub as [|c sub IH]; intros s; simpl.
  - by exists s.
  - destruct s as [|c' s]; [done|]. intros [= -> H].
    destruct (IH s H) as [post ->]. by exists post.
Qed.

Lemma substring_has_substring m sub s :
  String.substring m (String.length sub) s = sub -> has_substring sub s.
Proof.
  revert m. induction s as [|c s IH]; intros [|m] H.
  - exists ""%string, ""%string. by destruct sub.
  - exists ""%string, ""%string. simpl in H. by subst.
  - destruct (substring_prefix_inv _ _ H) as [post ->]. by exists ""%string, post.
  - simpl in H. destruct (IH m H) as (pre & post & ->). by exists (String c pre), post.
Qed.

(** [sub in s] finds a non-empty [sub] exactly when [s] holds it. *)
Lemma str_contains_spec sub s :
  sub <> ""%string -> str_contains sub s = true <-> has_substring sub s.
Proof.
  intros Hne. unfold str_contains.
  destruct (String.index 0 sub s) as [m|] eqn:Hi; split; try done.
  - intros _. eapply substring_has_substring, String.index_correct1, Hi.
  - intros (pre & post & ->). exfalso.
    eapply (String.index_correct3 0 (String.length pre)); [done..|lia|].
    apply substring_app_mid.
Qed.

Lemma has_flag_lor mask flag flag' :
  has_flag (Z.lor mask flag') flag <-> has_flag mask flag \/ has_flag flag' flag.
Proof. unfold has_flag. rewrite Z.lor_spec, orb_true_iff. done. Qed.

(** C7: on a valid index that addresses a descriptor whose mode (by
    default "Read/Write") is a string, the flags hold [ItemIsEnabled] and
    [ItemIsSelectable], and they hold [ItemIsEditable] exactly when the
    mode holds "Write"; the toolkit's base flags never hold
    [ItemIsEditable] themselves. *)
Theorem flags_spec (baseFlags : QModelIndex -> Z) (self : ObjectListTableModelQt)
  (index : QModelIndex) (prop : gmap string value) (mode : string) :
  isValid index = true ->
  properties self !! Z.to_nat (if isRowObjects self then column index else row index)
    = Some prop ->
  default (VStr "Read/Write") (prop !! "mode") = VStr mode ->
  ~ has_flag (baseFlags index) ItemIsEditable ->
  exists f, flags baseFlags self index = Ok f /\
    has_flag f ItemIsEnabled /\
    has_flag f ItemIsSelectable /\
    (has_flag f ItemIsEditable <-> has_substring "Write" mode).
Proof.
  intros Hv Hp Hmode Hbase. unfold flags, dict_get.
  rewrite Hv, getProperty_valid, Hp, Hmode by done. simpl.
  pose proof (str_contains_spec "Write" mode ltac:(done)) as Hc.
  assert (has_flag ItemIsEnabled ItemIsEnabled) as He by reflexivity.
  assert (has_flag ItemIsSelectable ItemIsSelectable) as Hs by reflexivity.
  assert (has_flag ItemIsEditable ItemIsEditable) as Hed by reflexivity.
  assert (~ has_flag ItemIsEnabled ItemIsEditable) as Hn1 by discriminate.
  assert (~ has_flag ItemIsSelectable ItemIsEditable) as Hn2 by discriminate.
  destruct (str_contains "Write" mode); eexists; (split; [reflexivity|]);
    rewrite !has_flag_lor.
  - split_and!; [tauto..|]. split; [intros _; by apply Hc|tauto].
  - split_and!; [tauto..|]. split; [tauto|]. intros H. by apply Hc in H.
Qed.

(** The read-only first column and the writable second column of the
    small table. *)
Lemma flags_spec_witness :
  (exists f, flags ex_baseFlags ex_model (ex_index 0 0) = Ok f /\
     has_flag f ItemIsEnabled /\ has_flag f ItemIsSelectable /\
     (has_flag f ItemIsEditable <-> has_substring "Write" "Read Only")) /\
  (exists f, flags ex_baseFlags ex_model (ex_index 0 1) = Ok f /\
     has_flag f ItemIsEnabled /\ has_flag f ItemIsSelectable /\
     (has_flag f ItemIsEditable <-> has_substring "Write" "Read/Write")).
Proof.
  split.
  - eapply (flags_spec ex_baseFlags ex_model (ex_index 0 0)); [reflexivity..|].
    unfold has_flag. vm_compute. discriminate.
  - eapply (flags_spec ex_baseFlags ex_model (ex_index 0 1)); [reflexivity..|].
    unfold has_flag. vm_compute. discriminate.
Defined.

(** ** Delegates *)

(** [propertyType] computes the dtype the specification infers. *)
Lemma propertyType_inferred model w i prop :
  properties model !! i = Some prop ->
  propertyType model w (Z.of_nat i) = inferred_dtype model w prop.
Proof.
  intros Hp. unfold propertyType, inferred_dtype.
  rewrite (py_getitem_lookup _ _ _ Hp). simpl.
  unfold dict_has, dict_getitem, get_prop_attr, dict_getitem.
  destruct (prop !! "dtype") as [t|] eqn:Hd.
  { by rewrite bool_decide_eq_true_2. }
  rewrite bool_decide_eq_false_2 by (intros [? ?]; done).
  destruct (prop !! "attr") as [attr|] eqn:Ha.
  2: { by rewrite bool_decide_eq_false_2 by (intros [? ?]; done). }
  rewrite bool_decide_eq_true_2 by done.
  destruct (templateObject model) as [t|]; simpl.
  - destruct attr; simpl; try done. by destruct (getAttrRecursive _ _ _).
  - destruct (objects model) as [|first objs] eqn:Ho; simpl.
    + by destruct attr.
    + destruct attr; simpl; try done. by destruct (getAttrRecursive _ _ _).
Qed.

(** One round of the loop sets the chosen delegate, on the column of the
    property when objects are rows and on its row otherwise. *)
Lemma assign_delegate_maps model w i prop view :
  properties model !! i = Some prop ->
  let view' := assign_delegate model w i prop view in
  let set (m : gmap nat delegate) :=
    match chosen_delegate prop (inferred_dtype model w prop) with
    | Some d => <[i := d]> m
    | None => m
    end in
  itemDelegateForColumn view' =
    (if isRowObjects model then set (itemDelegateForColumn view)
     else itemDelegateForColumn view) /\
  itemDelegateForRow view' =
    (if isRowObjects model then itemDelegateForRow view
     else set (itemDelegateForRow view)).
Proof.
  intros Hp. simpl. unfold assign_delegate, chosen_delegate.
  rewrite (propertyType_inferred _ _ _ _ Hp).
  unfold dict_has, dict_get.
  destruct (prop !! "choices") as [c|] eqn:Hc.
  { rewrite bool_decide_eq_true_2 by done. simpl. by destruct (isRowObjects model). }
  rewrite bool_decide_eq_false_2 by (intros [? ?]; done).
  destruct (prop !! "action") as [a|] eqn:Ha; simpl;
    repeat case_bool_decide; repeat case_decide; try congruence;
    by destruct (isRowObjects model).
Qed.

Lemma assign_delegates_maps model w props : forall k view i,
  (forall j prop, props !! j = Some prop -> properties model !! (k + j) = Some prop) ->
  let view' := assign_delegates model w k props view in
  let chosen :=
    (if decide (k <= i) then props !! (i - k) else None)
      ≫= (fun prop => chosen_delegate prop (inferred_dtype model w prop)) in
  let upd (m : gmap nat delegate) := match chosen with Some d => Some d | None => m !! i end in
  (if isRowObjects model
   then itemDelegateForColumn view' !! i = upd (itemDelegateForColumn view)
        /\ itemDelegateForRow view' = itemDelegateForRow view
   else itemDelegateForRow view' !! i = upd (itemDelegateForRow view)
        /\ itemDelegateForColumn view' = itemDelegateForColumn view).
Proof.
  induction props as [|prop props IH]; intros k view i Hsuffix; simpl.
  { case_decide; simpl; by destruct (isRowObjects model). }
  assert (properties model !! k = Some prop) as Hk.
  { specialize (Hsuffix 0 prop eq_refl). by rewrite Nat.add_0_r in Hsuffix. }
  specialize (IH (S k) (assign_delegate model w k prop view) i).
  simpl in IH. lapply IH.
  2: { intros j p Hj. specialize (Hsuffix (S j) p Hj).
       by replace (S (k + j)) with (k + S j) by lia. }
  clear IH. intros IH.
  destruct (assign_delegate_maps model w k prop view Hk) as [Hcol Hrow].
  destruct (decide (k <= i)) as [Hle|Hgt].
  - destruct (decide (S k <= i)) as [Hlt|Hge].
    + replace (i - k) with (S (i - S k)) by lia. simpl.
      destruct (isRowObjects model); destruct IH as [IH1 IH2]; rewrite IH1, IH2;
        [rewrite Hcol, Hrow | rewrite Hrow, Hcol]; split; try done;
        destruct (props !! (i - S k) ≫= _); try done;
        destruct (chosen_delegate prop _); try done; by rewrite lookup_insert_ne by lia.
    + assert (i = k) as -> by lia. rewrite Nat.sub_diag. simpl.
      destruct (isRowObjects model); destruct IH as [IH1 IH2]; rewrite IH1, IH2;
        [rewrite Hcol, Hrow | rewrite Hrow, Hcol]; split; try done;
        destruct (chosen_delegate prop _); try done; by rewrite lookup_insert_eq.
  - rewrite decide_False in IH by lia. simpl in *.
    destruct (isRowObjects model); destruct IH as [IH1 IH2]; rewrite IH1, IH2;
      [rewrite Hcol, Hrow | rewrite Hrow, Hcol]; split; try done;
      destruct (chosen_delegate prop _); try done; by rewrite lookup_insert_ne by lia.
Qed.

(** C8: after [setModel], the delegate of the column of property [i] (of
    its row, when objects are columns) is the one the ordered rules of the
    specification choose for its descriptor and the dtype [propertyType]
    gives; when no rule matches, or past the last property, the delegate
    is the one held before; the delegates of the other axis are untouched.
    The dtype is the one the specification infers: the ['dtype'] key,
    else the type of the attribute on the template object, else on the
    first object, else [None]. *)
Theorem setModel_delegates (view : ObjectListTableViewQt)
  (model : ObjectListTableModelQt) (w : store) (i : nat) :
  let view' := setModel view model w in
  let chosen :=
    properties model !! i
      ≫= (fun prop => chosen_delegate prop (propertyType model w (Z.of_nat i))) in
  (if isRowObjects model
   then itemDelegateForColumn view' !! i =
          match chosen with Some d => Some d | None => itemDelegateForColumn view !! i end
        /\ itemDelegateForRow view' = itemDelegateForRow view
   else itemDelegateForRow view' !! i =
          match chosen with Some d => Some d | None => itemDelegateForRow view !! i end
        /\ itemDelegateForColumn view' = itemDelegateForColumn view)
  /\ match properties model !! i with
     | Some prop => propertyType model w (Z.of_nat i) = inferred_dtype model w prop
     | None => propertyType model w (Z.of_nat i) = VNone
     end.
Proof.
  split.
  2: { destruct (properties model !! i) as [prop|] eqn:Hp.
       - by apply propertyType_inferred.
       - unfold propertyType. rewrite (py_getitem_nonneg (properties model)) by lia.
         by rewrite Nat2Z.id, Hp. }
  assert ((properties model !! i
             ≫= fun prop => chosen_delegate prop (propertyType model w (Z.of_nat i)))
          = (properties model !! i
             ≫= fun prop => chosen_delegate prop (inferred_dtype model w prop))) as ->.
  { destruct (properties model !! i) as [prop|] eqn:Hp; [simpl|done].
    by rewrite (propertyType_inferred _ _ _ _ Hp). }
  pose proof (assign_delegates_maps model w (properties model) 0
                (set_delegate_lists [] [] [] view) i) as H.
  lapply H; [clear H; intros H|by intros j prop Hj].
  simpl in H. rewrite Nat.sub_0_r in H.
  simpl. unfold setModel.
  destruct (isDynamic model), (isRowObjects model); exact H.
Qed.

Example setModel_small_table :
  itemDelegateForColumn (setModel ex_view ex_model ex_store)
    = {[ 2 := CheckBoxDelegateQt; 3 := PushButtonDelegateQt (VStr "Click Me!") ]}
  /\ itemDelegateForRow (setModel ex_view ex_model ex_store) = ∅
  /\ _pushButtonDelegates (setModel ex_view ex_model ex_store)
     = [PushButtonDelegateQt (VStr "Click Me!")].
Proof. split_and!; vm_compute; reflexivity. Qed.

(** ** Dotted paths *)

Lemma getAttrRecursive_dotless h obj attr :
  dotless attr -> getAttrRecursive h obj attr = getattr h obj attr.
Proof.
  intros Hd. rewrite getAttrRecursive_equation_1.
  destruct (Logic.inspect (String.index 0 "." attr)) as [[q|] Hq].
  - unfold dotless in Hd. congruence.
  - apply getAttrRecursive_clause_1_equation_2.
Qed.

Lemma getAttrRecursive_dot h obj attr p :
  String.index 0 "." attr = Some p ->
  getAttrRecursive h obj attr =
    match getattr h obj (str_before p attr) with
    | Ok obj' =>
        try_except (getAttrRecursive h obj' (str_after p attr))
          ValueError (getattr h obj' attr)
    | Raise e => try_except (Raise e) ValueError (getattr h obj attr)
    end.
Proof.
  intros Hp. rewrite getAttrRecursive_equation_1.
  destruct (Logic.inspect (String.index 0 "." attr)) as [[q|] Hq].
  - assert (q = p) as -> by congruence. apply getAttrRecursive_clause_1_equation_1.
  - congruence.
Qed.

Lemma setAttrRecursive_dotless h obj attr v :
  dotless attr -> setAttrRecursive h obj attr v = setattr h obj attr v.
Proof.
  intros Hd. rewrite setAttrRecursive_equation_1.
  destruct (Logic.inspect (String.index 0 "." attr)) as [[q|] Hq].
  - unfold dotless in Hd. congruence.
  - apply setAttrRecursive_clause_1_equation_2.
Qed.

Lemma setAttrRecursive_dot h obj attr v p :
  String.index 0 "." attr = Some p ->
  setAttrRecursive h obj attr v =
    match getattr h obj (str_before p attr) with
    | Ok obj' =>
        try_except (setAttrRecursive h obj' (str_after p attr) v)
          ValueError (setattr h obj' attr v)
    | Raise e => try_except (Raise e) ValueError (setattr h obj attr v)
    end.
Proof.
  intros Hp. rewrite setAttrRecursive_equation_1.
  destruct (Logic.inspect (String.index 0 "." attr)) as [[q|] Hq].
  - assert (q = p) as -> by congruence. apply setAttrRecursive_clause_1_equation_1.
  - congruence.
Qed.

(** The first dot of ["a.rest"] stands right after a dotless [a]. *)
Lemma index_dot_app a rest :
  dotless a -> String.index 0 "." (a ++ "." ++ rest) = Some (String.length a).
Proof.
  unfold dotless. induction a as [|c a IH]; intros Hd.
  - change (("" ++ "." ++ rest)%string) with (String "." rest).
    by rewrite index_dot_cons, decide_True.
  - rewrite index_dot_cons in Hd.
    change ((String c a ++ "." ++ rest)%string) with (String c (a ++ "." ++ rest)).
    rewrite index_dot_cons. case_decide; [done|].
    rewrite IH; [done|]. by destruct (String.index 0 "." a).
Qed.

Lemma str_before_app a rest : str_before (String.length a) (a ++ "." ++ rest) = a.
Proof. unfold str_before. induction a as [|c a IH]; simpl; [done|by rewrite IH]. Qed.

Lemma substring_all s : String.substring 0 (String.length s) s = s.
Proof. induction s as [|c s IH]; simpl; [done|by rewrite IH]. Qed.

Lemma str_after_app a rest : str_after (String.length a) (a ++ "." ++ rest) = rest.
Proof.
  unfold str_after. induction a as [|c a IH].
  - simpl. rewrite Nat.sub_0_r. apply substring_all.
  - simpl in *. exact IH.
Qed.

Lemma dotted_cons a names :
  names <> [] -> dotted (a :: names) = (a ++ "." ++ dotted names)%string.
Proof. by destruct names. Qed.

Lemma try_except_not_raised {A} (body handler : result A) e :
  body <> Raise e -> try_except body e handler = body.
Proof.
  intros H. destruct body as [a|e']; simpl; [done|].
  rewrite decide_False; [done|]. congruence.
Qed.

Lemma getAttrRecursive_path h names leaf : forall obj,
  Forall dotless names -> dotless leaf ->
  getattr_path h obj (names ++ [leaf]) <> Raise ValueError ->
  getAttrRecursive h obj (dotted (names ++ [leaf])) = getattr_path h obj (names ++ [leaf]).
Proof.
  induction names as [|a names IH]; intros obj Hn Hl Hr.
  - simpl in *. change (dotted [leaf]) with leaf.
    rewrite getAttrRecursive_dotless by done.
    by destruct (getattr h obj leaf).
  - apply Forall_cons in Hn as [Ha Hn].
    change ((a :: names) ++ [leaf]) with (a :: (names ++ [leaf])) in *.
    rewrite dotted_cons by (by destruct names).
    rewrite (getAttrRecursive_dot _ _ _ _ (index_dot_app a _ Ha)).
    rewrite str_before_app, str_after_app.
    simpl in *. destruct (getattr h obj a) as [obj'|e]; simpl in *.
    + rewrite IH by done. by apply try_except_not_raised.
    + by rewrite decide_False by congruence.
Qed.

Lemma setAttrRecursive_path h names leaf v : forall obj,
  Forall dotless names -> dotless leaf ->
  setattr_path h obj names leaf v <> Raise ValueError ->
  setAttrRecursive h obj (dotted (names ++ [leaf])) v = setattr_path h obj names leaf v.
Proof.
  unfold setattr_path.
  induction names as [|a names IH]; intros obj Hn Hl Hr.
  - simpl in *. change (dotted [leaf]) with leaf.
    by rewrite setAttrRecursive_dotless.
  - apply Forall_cons in Hn as [Ha Hn].
    change ((a :: names) ++ [leaf]) with (a :: (names ++ [leaf])) in *.
    rewrite dotted_cons by (by destruct names).
    rewrite (setAttrRecursive_dot _ _ _ _ _ (index_dot_app a _ Ha)).
    rewrite str_before_app, str_after_app.
    simpl in *. destruct (getattr h obj a) as [obj'|e]; simpl in *.
    + rewrite IH by done. by apply try_except_not_raised.
    + by rewrite decide_False by congruence.
Qed.

(** C5, where the code agrees with it: on a dotted path of dotless names,
    [getAttrRecursive] returns the value of the nested lookup, and
    [setAttrRecursive] assigns to the last name on the object the nested
    lookup of the names before it leads to; each does what the nested
    [getattr]/[setattr] does whenever that is not a [ValueError].  The
    recursion splits off the name before the
    first dot: on ["a.rest"] it looks [a] up and goes on with ["rest"] on
    the object found. *)
Theorem attrRecursive_spec (h : gmap loc (gmap string slot)) (obj : value)
  (names : list string) (leaf : string) (v : value) :
  Forall dotless names -> dotless leaf ->
  (forall x, getattr_path h obj (names ++ [leaf]) = Ok x ->
             getAttrRecursive h obj (dotted (names ++ [leaf])) = Ok x)
  /\ (forall target h', getattr_path h obj names = Ok target ->
                        setattr h target leaf v = Ok h' ->
                        setAttrRecursive h obj (dotted (names ++ [leaf])) v = Ok h')
  /\ (getattr_path h obj (names ++ [leaf]) <> Raise ValueError ->
      getAttrRecursive h obj (dotted (names ++ [leaf]))
        = getattr_path h obj (names ++ [leaf]))
  /\ (setattr_path h obj names leaf v <> Raise ValueError ->
      setAttrRecursive h obj (dotted (names ++ [leaf])) v
        = setattr_path h obj names leaf v)
  /\ (forall a rest obj', names = a :: rest -> getattr h obj a = Ok obj' ->
        getAttrRecursive h obj (dotted (names ++ [leaf]))
          = try_except (getAttrRecursive h obj' (dotted (rest ++ [leaf])))
              ValueError (getattr h obj' (dotted (names ++ [leaf])))
        /\ setAttrRecursive h obj (dotted (names ++ [leaf])) v
          = try_except (setAttrRecursive h obj' (dotted (rest ++ [leaf])) v)
              ValueError (setattr h obj' (dotted (names ++ [leaf])) v)).
Proof.
  intros Hn Hl. split_and!.
  - intros x Hx. rewrite getAttrRecursive_path by (done || congruence). done.
  - intros target h' Ht Hs.
    assert (setattr_path h obj names leaf v = Ok h') as E
      by (unfold setattr_path; rewrite Ht; done).
    rewrite setAttrRecursive_path by (done || congruence). done.
  - by apply getAttrRecursive_path.
  - by apply setAttrRecursive_path.
  - intros a rest obj' -> Ha. apply Forall_cons in Hn as [Hda Hn].
    change ((a :: rest) ++ [leaf]) with (a :: (rest ++ [leaf])).
    rewrite dotted_cons by (by destruct rest).
    rewrite (getAttrRecursive_dot _ _ _ _ (index_dot_app a _ Hda)).
    rewrite (setAttrRecursive_dot _ _ _ _ _ (index_dot_app a _ Hda)).
    rewrite str_before_app, str_after_app, Ha. done.
Qed.

(** Reading and writing "child.intValue" of the first object. *)
Lemma attrRecursive_spec_witness :
  getAttrRecursive (heap ex_store) (VRef 1) "child.intValue" = Ok (VInt 3)
  /\ setAttrRecursive (heap ex_store) (VRef 1) "child.intValue" (VInt 9)
     = Ok (<[2 := <["intValue" := Attr (VInt 9)]> (ex_object "obj A" 3 None)]>
             (heap ex_store)).
Proof.
  assert (Forall dotless ["child"%string]) as Hn by (repeat constructor).
  assert (dotless "intValue") as Hl by reflexivity.
  destruct (attrRecursive_spec (heap ex_store) (VRef 1) ["child"%string]
              "intValue" (VInt 9) Hn Hl) as (Hget & Hset & _).
  split.
  - apply Hget. reflexivity.
  - apply (Hset (VRef 2)); reflexivity.
Defined.

(** C5, where the code falls short of it: the [try] block of either
    function also holds the recursive call, so a [ValueError] of the last
    name is taken for the one of a path without dot.  On "child.locked",
    where [locked] raises [ValueError], the nested lookup and the nested
    assignment raise; [getAttrRecursive] returns instead the value of the
    attribute named "child.locked", dot included, of the child, and
    [setAttrRecursive] returns after assigning to an attribute of that
    name, which it creates, and leaves [locked] as it was. *)
Theorem attrRecursive_ValueError_of_leaf :
  getattr_path ex_shadowed (VRef 1) ["child"; "locked"]%string = Raise ValueError
  /\ getAttrRecursive ex_shadowed (VRef 1) "child.locked" = Ok (VInt 5)
  /\ setattr_path ex_locked (VRef 1) ["child"%string] "locked" (VInt 9) = Raise ValueError
  /\ setAttrRecursive ex_locked (VRef 1) "child.locked" (VInt 9)
     = Ok (<[2 := {[ "locked" := Raising ValueError; "child.locked" := Attr (VInt 9) ]}]>
             ex_locked).
Proof. split_and!; vm_compute; reflexivity. Qed.

(** ** Moving objects *)

Lemma clamp_in_range i hi : (0 <= i <= hi)%Z -> clamp i hi = i.
Proof. unfold clamp. lia. Qed.

Lemma clamp_bounds i hi : (0 <= hi)%Z -> (0 <= clamp i hi <= hi)%Z.
Proof. unfold clamp. lia. Qed.

Lemma py_delitem_in_range {A} (l : list A) (i : Z) :
  (0 <= i < py_len l)%Z -> py_delitem l i = Ok (delete (Z.to_nat i) l).
Proof. intros H. unfold py_delitem, py_position. by rewrite decide_True. Qed.

Lemma py_bound_in_range {A} (l : list A) (j : Z) :
  (0 <= j <= py_len l)%Z -> py_bound l j = Z.to_nat j.
Proof. intros H. unfold py_bound. rewrite decide_False by lia. f_equal. lia. Qed.

Lemma mapM_py_getitem (objs : list nat) (indices : list Z) :
  Forall (fun i => 0 <= i < py_len objs)%Z indices ->
  exists moved,
    mapM (py_getitem objs) indices = Ok moved /\
    Forall2 (fun i x => objs !! Z.to_nat i = Some x) indices moved.
Proof.
  induction 1 as [|i indices Hi _ (moved & Hm & HF)].
  - exists []. split; [done|constructor].
  - unfold py_len in Hi.
    destruct (lookup_lt_is_Some_2 objs (Z.to_nat i)) as [x Hx]; [lia|].
    exists (x :: moved). split; [|by constructor].
    simpl. rewrite py_getitem_nonneg, Hx by lia. simpl.
    change (mapM (py_getitem objs) indices ≫= (fun k => mret (x :: k)) = Ok (x :: moved)).
    by rewrite Hm.
Qed.

(** Deleting increasing positions from the last to the first removes
    exactly the objects at those positions. *)
Lemma del_loop_increasing (indices : list Z) : forall (objs moved : list nat),
  StronglySorted Z.lt indices ->
  Forall (fun i => 0 <= i < py_len objs)%Z indices ->
  Forall2 (fun i x => objs !! Z.to_nat i = Some x) indices moved ->
  exists rest,
    del_loop (reverse indices) objs = (None, rest) /\
    objs ≡ₚ moved ++ rest /\
    rest `sublist_of` objs.
Proof.
  induction indices as [|last init IH] using rev_ind; intros objs moved Hs Hr HF.
  - apply Forall2_nil_inv_l in HF as ->. by exists objs.
  - apply Forall2_app_inv_l in HF as (moved' & xs & HF' & Hx & ->).
    apply Forall2_cons_inv_l in Hx as (x & tl & Hx & Htl & ->).
    apply Forall2_nil_inv_l in Htl as ->.
    rewrite Forall_app, Forall_singleton in Hr. destruct Hr as [Hr Hlast].
    assert (Forall (fun i => i < last)%Z init) as Hlt.
    { apply Forall_forall. intros i Hi.
      apply (StronglySorted_app_1_elem_of Z.lt init [last]); [done|done|by constructor]. }
    apply StronglySorted_app_1_l in Hs.
    rewrite reverse_snoc. simpl. rewrite py_delitem_in_range by done.
    destruct (IH (delete (Z.to_nat last) objs) moved') as (rest & Hd & Hp & Hsub).
    + done.
    + rewrite Forall_forall in Hr, Hlt |- *. intros i Hi.
      specialize (Hr i Hi). specialize (Hlt i Hi).
      unfold py_len in *. rewrite length_delete by eauto. lia.
    + apply Forall2_same_length_lookup. split; [by eapply Forall2_length|].
      intros n i y Hi Hy. rewrite Forall_forall in Hr, Hlt.
      apply list_elem_of_lookup_2 in Hi as Hin.
      specialize (Hr i Hin). specialize (Hlt i Hin).
      rewrite list_lookup_delete_lt by lia.
      exact (Forall2_lookup_lr _ _ _ _ _ _ HF' Hi Hy).
    + exists rest. split_and!; [done| |].
      * rewrite (delete_Permutation objs (Z.to_nat last) x) by done.
        rewrite Hp. rewrite <- (assoc_L (++)). simpl.
        by rewrite Permutation_middle.
      * etrans; [done|]. apply sublist_delete.
Qed.

(** Reinserting puts the moved objects in a row: the [k]-th goes to
    position [moveToIndex + k] when the list is long enough and to its end
    otherwise, which is right behind the ones already placed. *)
Lemma reinsert_loop_consecutive (moveToIndex : Z) (xs : list nat) :
  forall (k : Z) (front placed back : list nat),
  Z.of_nat (length front) = Z.min moveToIndex (Z.of_nat (length (front ++ back))) ->
  Z.of_nat (length placed) = k ->
  reinsert_loop moveToIndex k xs (front ++ placed ++ back)
    = front ++ (placed ++ xs) ++ back.
Proof.
  induction xs as [|x xs IH]; intros k front placed back Hfront Hk; simpl.
  - by rewrite app_nil_r.
  - rewrite length_app in Hfront.
    assert (clamp (moveToIndex + k) (py_len (front ++ placed ++ back))
            = Z.of_nat (length (front ++ placed))) as Hj.
    { unfold clamp, py_len. rewrite !length_app. lia. }
    rewrite Hj. unfold py_insert.
    rewrite py_bound_in_range by (unfold py_len; rewrite !length_app; lia).
    rewrite Nat2Z.id, (assoc_L (++) front placed back).
    rewrite take_app_length, drop_app_length.
    replace ((front ++ placed) ++ x :: back) with (front ++ (placed ++ [x]) ++ back)
      by (by rewrite <- !(assoc_L (++))).
    rewrite IH.
    + by rewrite <- (assoc_L (++) placed).
    + rewrite length_app. lia.
    + rewrite length_app. simpl. lia.
Qed.

(** C10: with at least two objects, strictly increasing indices within
    the list and a target within the list, [moveObjects] returns [True];
    the result holds the selected objects in a row, at the target or at
    the end of what is left when the target lies beyond it, and is a
    rearrangement of the original list of the same length. *)
Theorem moveObjects_rearranges (self : ObjectListTableModelQt) (indices : list Z)
  (moveToIndex : Z) :
  2 <= length (objects self) ->
  StronglySorted Z.lt indices ->
  Forall (fun i => 0 <= i < Z.of_nat (length (objects self)))%Z indices ->
  (0 <= moveToIndex < Z.of_nat (length (objects self)))%Z ->
  exists moved rest result,
    Forall2 (fun i x => objects self !! Z.to_nat i = Some x) indices moved /\
    rest `sublist_of` objects self /\
    objects self ≡ₚ moved ++ rest /\
    result = take (Z.to_nat moveToIndex) rest ++ moved ++ drop (Z.to_nat moveToIndex) rest /\
    moveObjects self indices moveToIndex = (true, set_objects self result) /\
    length result = length (objects self) /\
    result ≡ₚ objects self.
Proof.
  intros Hlen Hsorted Hrange Hto. unfold moveObjects.
  rewrite bool_decide_eq_false_2 by (unfold py_len; lia).
  assert (((fun idx => clamp idx (py_len (objects self) - 1)) <$> indices) = indices)
    as ->.
  { rewrite <- (list_fmap_id indices) at 2. apply Forall_fmap_ext_1.
    eapply Forall_impl; [done|]. intros i Hi. apply clamp_in_range.
    unfold py_len, id. simpl in Hi. lia. }
  rewrite (clamp_in_range moveToIndex) by (unfold py_len; lia).
  destruct (mapM_py_getitem (objects self) indices Hrange) as (moved & -> & HF).
  destruct (del_loop_increasing indices (objects self) moved Hsorted Hrange HF)
    as (rest & -> & Hperm & Hsub).
  set (m := Z.to_nat moveToIndex).
  exists moved, rest, (take m rest ++ moved ++ drop m rest).
  assert (take m rest ++ moved ++ drop m rest ≡ₚ objects self) as Hres.
  { rewrite Hperm. rewrite (Permutation_app_comm moved rest).
    rewrite <- (take_drop m rest) at 3. rewrite <- (assoc_L (++)).
    apply Permutation_app_head, Permutation_app_comm. }
  split_and!; try done.
  - do 2 f_equal.
    rewrite <- (take_drop m rest) at 1.
    apply (reinsert_loop_consecutive moveToIndex moved 0 (take m rest) [] (drop m rest));
      [|done].
    rewrite take_drop, length_take. lia.
  - by rewrite Hres.
Qed.

(** Moving the first of the two objects of the small table to index 1. *)
Lemma moveObjects_rearranges_witness :
  exists moved rest result,
    Forall2 (fun i x => objects ex_model !! Z.to_nat i = Some x) [0%Z] moved /\
    rest `sublist_of` objects ex_model /\
    objects ex_model ≡ₚ moved ++ rest /\
    result = take (Z.to_nat 1) rest ++ moved ++ drop (Z.to_nat 1) rest /\
    moveObjects ex_model [0%Z] 1 = (true, set_objects ex_model result) /\
    length result = length (objects ex_model) /\
    result ≡ₚ objects ex_model.
Proof.
  apply (moveObjects_rearranges ex_model [0%Z] 1).
  - simpl. lia.
  - repeat constructor.
  - repeat constructor; simpl; lia.
  - simpl. lia.
Defined.

Example moveObjects_first_to_second :
  moveObjects ex_model [0%Z] 1 = (true, set_objects ex_model [3; 1]).
Proof. reflexivity. Qed.

(** ** Deep copies *)

Lemma refs_of_spec (o : gmap string slot) (l : nat) :
  l ∈ refs_of o <-> exists a, o !! a = Some (Attr (VRef l)).
Proof.
  unfold refs_of. rewrite elem_of_map_img. split.
  - intros [a Ha]. exists a. apply lookup_omap_Some in Ha as (s & Hs & Hl).
    destruct s as [[]|]; simplify_eq/=. done.
  - intros [a Ha]. exists a. apply lookup_omap_Some. by exists (Attr (VRef l)).
Qed.

Lemma reach_step_spec (h : gmap nat (gmap string slot)) (R : gset nat) (l' : nat) :
  l' ∈ reach_step h R <->
  l' ∈ R \/ (l' ∈ dom h /\
             exists l o a, l ∈ R /\ h !! l = Some o /\ o !! a = Some (Attr (VRef l'))).
Proof.
  unfold reach_step. rewrite elem_of_union, elem_of_intersection, elem_of_set_bind.
  split; (intros [H|[Hd H]]; [by left|right; split; [done|]]).
  - destruct H as (l & Hl & Hr). apply refs_of_spec in Hr as [a Ha].
    destruct (h !! l) as [o|] eqn:Ho; simpl in Ha; [|by rewrite lookup_empty in Ha].
    by exists l, o, a.
  - destruct H as (l & o & a & Hl & Ho & Ha). exists l. split; [done|].
    rewrite Ho. simpl. apply refs_of_spec. by exists a.
Qed.

Lemma reach_step_fixed (h : gmap nat (gmap string slot)) (R : gset nat) (n : nat) :
  reach_step h R = R -> Nat.iter n (reach_step h) R = R.
Proof. intros E. induction n as [|n IH]; simpl; [done|]. by rewrite IH. Qed.

(** Within a bound [B] the steps stop growing after as many rounds as
    [B] has elements beyond the start. *)
Lemma reach_step_stable (h : gmap nat (gmap string slot)) (B : gset nat) :
  (forall R, R ⊆ B -> reach_step h R ⊆ B) ->
  forall n R, R ⊆ B -> size B <= size R + n ->
  reach_step h (Nat.iter n (reach_step h) R) = Nat.iter n (reach_step h) R.
Proof.
  intros Hbound. induction n as [|n IH]; intros R HR Hsize.
  - simpl. assert (R = B) as -> by (apply set_subseteq_size_eq; [done|lia]).
    apply (anti_symm (⊆)); [by apply Hbound|]. unfold reach_step. set_solver.
  - destruct (decide (reach_step h R = R)) as [E|NE].
    + by rewrite (reach_step_fixed _ _ _ E).
    + rewrite Nat.iter_succ_r. apply IH; [by apply Hbound|].
      assert (R ⊂ reach_step h R) as Hsub.
      { split; [unfold reach_step; set_solver|].
        intros Hback. apply NE. apply (anti_symm (⊆)); [done|].
        unfold reach_step. set_solver. }
      apply subset_size in Hsub. lia.
Qed.

Lemma reachable_root (h : gmap nat (gmap string slot)) (l : nat) : l ∈ reachable h l.
Proof.
  unfold reachable. generalize (size h). intros n.
  induction n as [|n IH]; simpl; [set_solver|]. apply reach_step_spec. by left.
Qed.

(** The reachable objects are closed under references within the heap. *)
Lemma reachable_closed (h : gmap nat (gmap string slot)) (l l1 l2 : nat) o a :
  l1 ∈ reachable h l -> h !! l1 = Some o -> o !! a = Some (Attr (VRef l2)) ->
  l2 ∈ dom h -> l2 ∈ reachable h l.
Proof.
  intros H1 Ho Ha Hd.
  assert (reach_step h (reachable h l) = reachable h l) as <-.
  { unfold reachable. apply (reach_step_stable h ({[l]} ∪ dom h)).
    - intros R HR l'. rewrite reach_step_spec. set_solver.
    - set_solver.
    - rewrite size_union_alt, size_singleton.
      pose proof (subseteq_size (dom h ∖ {[l]}) (dom h)) as Hle.
      rewrite size_dom in Hle. specialize (Hle ltac:(set_solver)). lia. }
  apply reach_step_spec. right. split; [done|]. by exists l1, o, a.
Qed.

Lemma next_loc_above (h : gmap nat (gmap string slot)) (l : nat) :
  l ∈ dom h -> l < next_loc h.
Proof.
  intros Hl. unfold next_loc.
  assert (l <= max_list (elements (dom h))); [|lia].
  apply max_list_elem_of_le. by apply elem_of_elements.
Qed.

#[local] Instance shift_loc_inj (off : nat) : Inj (=) (=) (fun l' : nat => l' + off).
Proof. intros x y. lia. Qed.

(** An object of the heap is untouched by a copy. *)
Lemma deepcopy_lookup_old (h : gmap nat (gmap string slot)) (l l' : nat) :
  l' < next_loc h -> (deepcopy h l).1 !! l' = h !! l'.
Proof.
  intros Hl. unfold deepcopy. simpl. rewrite lookup_union.
  rewrite (proj2 (lookup_kmap_None _ _ l')); [by destruct (h !! l')|].
  intros i ->. lia.
Qed.

(** A twin holds the slots of its original, shifted. *)
Lemma deepcopy_lookup_twin (h : gmap nat (gmap string slot)) (l l1 : nat) :
  (deepcopy h l).1 !! (l1 + next_loc h) =
    if decide (l1 ∈ reachable h l)
    then fmap (M := gmap string) (shift_slot (next_loc h)) <$> h !! l1
    else None.
Proof.
  unfold deepcopy. simpl. rewrite lookup_union.
  assert (h !! (l1 + next_loc h) = None) as ->.
  { apply not_elem_of_dom. intros Hd%next_loc_above. lia. }
  rewrite (lookup_kmap (fun l' => l' + next_loc h)), lookup_fmap, map_lookup_filter.
  rewrite (left_id_L None _).
  destruct (h !! l1) as [o|]; simpl; [|by case_decide].
  case_decide; [by rewrite option_guard_True|by rewrite option_guard_False].
Qed.

Lemma deepcopy_extends (h : gmap nat (gmap string slot)) (l : nat) :
  h ⊆ (deepcopy h l).1.
Proof. unfold deepcopy. simpl. apply map_union_subseteq_l. Qed.

Lemma deepcopy_dom (h : gmap nat (gmap string slot)) (l l' : nat) :
  l' ∈ dom (deepcopy h l).1 <->
  l' ∈ dom h \/ exists l1, l' = l1 + next_loc h /\ l1 ∈ reachable h l /\ l1 ∈ dom h.
Proof.
  rewrite !elem_of_dom. split.
  - intros [o Ho]. destruct (decide (l' < next_loc h)) as [Hlt|Hge].
    + left. rewrite deepcopy_lookup_old in Ho by done. by exists o.
    + right. exists (l' - next_loc h).
      replace l' with ((l' - next_loc h) + next_loc h) in Ho by lia.
      rewrite deepcopy_lookup_twin in Ho.
      split; [lia|]. case_decide; [|done]. split; [done|].
      apply elem_of_dom. destruct (h !! (l' - next_loc h)); [done|by simpl in Ho].
  - intros [[o Ho]|(l1 & -> & Hr & [o Ho]%elem_of_dom)].
    + exists o. rewrite deepcopy_lookup_old; [done|].
      apply next_loc_above, elem_of_dom. by exists o.
    + rewrite deepcopy_lookup_twin, decide_True, Ho by done. by eexists.
Qed.

(** The copy is a new object. *)
Lemma deepcopy_fresh (h : gmap nat (gmap string slot)) (l : nat) :
  l ∈ dom h -> ((deepcopy h l).2 ∉ dom h) /\ ((deepcopy h l).2 ∈ dom (deepcopy h l).1).
Proof.
  intros Hl. split.
  - intros Hd%next_loc_above. unfold deepcopy in Hd. simpl in Hd. lia.
  - apply deepcopy_dom. right. exists l. split_and!; [done| |done].
    apply reachable_root.
Qed.

Lemma deepcopy_closed (h : gmap nat (gmap string slot)) (l : nat) :
  closed h -> closed (deepcopy h l).1.
Proof.
  intros Hc l1 o a l2 Ho Ha. destruct (decide (l1 < next_loc h)) as [Hlt|Hge].
  - rewrite deepcopy_lookup_old in Ho by done.
    apply deepcopy_dom. left. by eapply Hc.
  - replace l1 with ((l1 - next_loc h) + next_loc h) in Ho by lia.
    rewrite deepcopy_lookup_twin in Ho. case_decide as Hr; [|done].
    destruct (h !! (l1 - next_loc h)) as [o0|] eqn:Ho0; simplify_eq/=.
    rewrite lookup_fmap in Ha.
    destruct (o0 !! a) as [[[]|]|] eqn:Hs; simplify_eq/=.
    apply deepcopy_dom. right. exists l0.
    assert (l0 ∈ dom h) by (by eapply Hc).
    split_and!; [done| |done]. by eapply reachable_closed.
Qed.

(** In a closed heap, what an object looks like survives every extension
    of the heap. *)
Lemma unfold_extend (h h' : gmap nat (gmap string slot)) :
  closed h -> h ⊆ h' ->
  forall d l, l ∈ dom h -> unfold d h' (VRef l) = unfold d h (VRef l).
Proof.
  intros Hc Hsub. induction d as [|d IH]; intros l Hl; [done|].
  apply elem_of_dom in Hl as [o Ho]. simpl.
  rewrite Ho, (lookup_weaken _ _ _ _ Ho Hsub). f_equal.
  apply map_fmap_ext. intros a [v|e] Ha; [|done].
  destruct v; try (by destruct d). apply IH. by eapply Hc.
Qed.

(** The copy looks like its original. *)
Lemma deepcopy_unfold (h : gmap nat (gmap string slot)) (l : nat) :
  closed h ->
  forall d l1, l1 ∈ dom h -> l1 ∈ reachable h l ->
  unfold d (deepcopy h l).1 (VRef (l1 + next_loc h)) = unfold d h (VRef l1).
Proof.
  intros Hc. induction d as [|d IH]; intros l1 Hd Hr; [done|].
  apply elem_of_dom in Hd as [o Ho]. cbn [unfold].
  rewrite deepcopy_lookup_twin, decide_True, Ho by done. cbn [fmap option_fmap option_map]. f_equal.
  rewrite <- map_fmap_compose.
  apply map_fmap_ext. intros a [v|e] Ha; [|done]. simpl.
  destruct v; try (by destruct d). simpl. apply IH.
  - by eapply Hc.
  - eapply reachable_closed; [done..|]. by eapply Hc.
Qed.

(** In a closed heap, an object reaches the same objects after every
    extension of the heap. *)
Lemma reaches_extend (h h' : gmap nat (gmap string slot)) (l l' : nat) :
  closed h -> h ⊆ h' -> l ∈ dom h -> reaches h' l l' -> reaches h l l'.
Proof.
  intros Hc Hsub Hl Hr. induction Hr as [l|l o a l1 l2 Ho Ha Hr IH]; [constructor|].
  apply elem_of_dom in Hl as [o0 Ho0].
  pose proof (lookup_weaken _ _ _ _ Ho0 Hsub) as Ho'.
  assert (o0 = o) as -> by congruence.
  eapply reaches_attr; [done..|]. apply IH. by eapply Hc.
Qed.

(** The copy reaches twins only. *)
Lemma deepcopy_reaches_fresh (h : gmap nat (gmap string slot)) (l x l' : nat) :
  reaches (deepcopy h l).1 x l' -> next_loc h <= x -> next_loc h <= l'.
Proof.
  intros Hr. induction Hr as [x|x o a l1 l2 Ho Ha Hr IH]; [done|].
  intros Hx. apply IH.
  replace x with ((x - next_loc h) + next_loc h) in Ho by lia.
  rewrite deepcopy_lookup_twin in Ho. case_decide; [|done].
  destruct (h !! (x - next_loc h)) as [o0|]; [|done].
  injection Ho as <-. rewrite lookup_fmap in Ha.
  destruct (o0 !! a) as [[v|]|]; [|done..].
  destruct v; try done. injection Ha as <-. lia.
Qed.

Lemma deepcopy_deep_copy_of (h : gmap nat (gmap string slot)) (l : nat) :
  closed h -> l ∈ dom h ->
  deep_copy_of h l (deepcopy h l).1 (deepcopy h l).2.
Proof.
  intros Hc Hl. split.
  - intros l' Hr Hd%next_loc_above.
    apply deepcopy_reaches_fresh in Hr; [lia|]. unfold deepcopy. simpl. lia.
  - intros d. apply deepcopy_unfold; [done..|apply reachable_root].
Qed.

(** ** Inserting objects *)

Lemma py_range_S (a : Z) (n : nat) :
  py_range a (Z.of_nat (S n)) = a :: py_range (a + 1) (Z.of_nat n).
Proof.
  unfold py_range. rewrite !Nat2Z.id. simpl. f_equal; [lia|].
  rewrite <- fmap_S_seq, <- list_fmap_compose.
  apply list_fmap_ext. intros _ k _. simpl. lia.
Qed.

Lemma py_insert_middle (front news back : list nat) (c : nat) :
  py_insert (front ++ news ++ back) (Z.of_nat (length front + length news)) c
    = front ++ (news ++ [c]) ++ back.
Proof.
  unfold py_insert.
  rewrite py_bound_in_range by (unfold py_len; rewrite !length_app; lia).
  rewrite Nat2Z.id, (assoc_L (++) front news back), <- length_app.
  rewrite take_app_length, drop_app_length.
  by rewrite <- !(assoc_L (++)).
Qed.

(** The loop of [insertObjects] puts [n] new objects in a row behind the
    ones it has placed; each is a copy of the template or, without one,
    of the object next to the place of insertion, or of a copy of it. *)
Lemma insert_loop_copies (template : option nat) (front back : list nat)
  (h0 : gmap nat (gmap string slot)) (src0 : nat) :
  closed h0 -> src0 ∈ dom h0 ->
  match template with
  | Some t => t = src0
  | None => (front ++ back) !! (length front `min` (length (front ++ back) - 1)) = Some src0
  end ->
  forall (n : nat) (news : list nat) (h : gmap nat (gmap string slot)),
    closed h -> h0 ⊆ h -> copies_of h0 src0 h news -> NoDup news ->
    exists news' h',
      insert_loop template
        (py_range (Z.of_nat (length front + length news)) (Z.of_nat n))
        (front ++ news ++ back) h
      = Ok (front ++ (news ++ news') ++ back, h') /\
      length news' = n /\ closed h' /\ h0 ⊆ h' /\
      copies_of h0 src0 h' (news ++ news') /\ NoDup (news ++ news').
Proof.
  intros Hc0 Hsrc0 Hsel. induction n as [|n IH]; intros news h Hc Hsub Hnews Hnd.
  { exists [], h. rewrite app_nil_r. by split_and!. }
  rewrite py_range_S. cbn [insert_loop].
  (* the object the loop copies looks like [src0] *)
  assert (exists src, src ∈ dom h /\
            (forall d, unfold d h (VRef src) = unfold d h0 (VRef src0)) /\
              (match template with
               | Some t =>
                   let '(h', c) := deepcopy h t in
                   insert_loop template
                     (py_range (Z.of_nat (length front + length news) + 1) (Z.of_nat n))
                     (py_insert (front ++ news ++ back)
                        (Z.of_nat (length front + length news)) c) h'
               | None =>
                   if bool_decide (py_len (front ++ news ++ back) <> 0)%Z then
                     src ← py_getitem (front ++ news ++ back)
                             (clamp (Z.of_nat (length front + length news))
                                (py_len (front ++ news ++ back) - 1));
                     let '(h', c) := deepcopy h src in
                     insert_loop template
                       (py_range (Z.of_nat (length front + length news) + 1) (Z.of_nat n))
                       (py_insert (front ++ news ++ back)
                          (Z.of_nat (length front + length news)) c) h'
                   else insert_loop template
                          (py_range (Z.of_nat (length front + length news) + 1) (Z.of_nat n))
                          (front ++ news ++ back) h
               end)
              = insert_loop template
                  (py_range (Z.of_nat (length front + length news) + 1) (Z.of_nat n))
                  (py_insert (front ++ news ++ back)
                     (Z.of_nat (length front + length news)) (deepcopy h src).2)
                  (deepcopy h src).1) as (src & Hsrc & Hlook & Hstep).
  { assert (src0 ∈ dom h) as Hsrc0h by (by eapply subseteq_dom).
    assert (forall d, unfold d h (VRef src0) = unfold d h0 (VRef src0)) as Hlook0
      by (intros d; by apply unfold_extend).
    destruct template as [t|].
    - subst t. exists src0. split_and!; [done..|]. by destruct (deepcopy h src0).
    - rewrite length_app in Hsel.
      assert (exists src, (front ++ news ++ back)
                !! Z.to_nat (clamp (Z.of_nat (length front + length news))
                               (py_len (front ++ news ++ back) - 1)) = Some src
              /\ src ∈ dom h
              /\ forall d, unfold d h (VRef src) = unfold d h0 (VRef src0))
        as (src & Hget & Hsrc & Hlook).
      { unfold clamp, py_len. rewrite !length_app.
        destruct back as [|b back].
        - rewrite !app_nil_r in *. simpl in Hsel.
          destruct news as [|c news _] using rev_ind.
          + exists src0. split_and!; [|done..].
            rewrite app_nil_r. rewrite <- Hsel. f_equal. simpl.
            apply lookup_lt_Some in Hsel. lia.
          + exists c. apply Forall_app in Hnews as [_ [Hc1 [Hc2 Hc3]]%Forall_singleton].
            split_and!; [|done..].
            rewrite (assoc_L (++)), length_app. simpl.
            replace (Z.to_nat _) with (length (front ++ news))
              by (rewrite length_app; lia).
            by rewrite list_lookup_middle.
        - exists src0. split_and!; [|done..].
          simpl in *. replace (Z.to_nat _) with (length (front ++ news))
            by (rewrite length_app; lia).
          rewrite (assoc_L (++)), list_lookup_middle by done.
          replace (length front `min` (length front + S (length back) - 1))
            with (length front) in Hsel by lia.
          by rewrite list_lookup_middle in Hsel. }
      exists src. split_and!; [done..|].
      rewrite bool_decide_eq_true_2.
      2: { apply lookup_lt_Some in Hget. unfold py_len. lia. }
      rewrite py_getitem_nonneg, Hget by (apply clamp_bounds;
        apply lookup_lt_Some in Hget; unfold py_len; lia).
      simpl. by destruct (deepcopy h src). }
  rewrite Hstep. clear Hstep.
  destruct (deepcopy_fresh h src Hsrc) as [Hfresh Hin].
  set (c := (deepcopy h src).2) in *. set (h1 := (deepcopy h src).1) in *.
  assert (h ⊆ h1) as Hsub1 by apply deepcopy_extends.
  rewrite py_insert_middle.
  destruct (IH (news ++ [c]) h1) as (news' & h' & Hrun & Hlen & Hc' & Hsub' & Hnews' & Hnd').
  - by apply deepcopy_closed.
  - by etrans.
  - apply Forall_app. split.
    + eapply Forall_impl; [exact Hnews|]. intros x (Hx & Hx0 & Hxl).
      unfold deep_copy_of. split_and!; [by eapply subseteq_dom| |].
      * intros l' Hr. apply Hx0. by eapply reaches_extend.
      * intros d. rewrite <- Hxl. by apply unfold_extend.
    + apply Forall_singleton.
      destruct (deepcopy_deep_copy_of h src Hc Hsrc) as [Hnew Hsame].
      unfold deep_copy_of. split_and!; [done| |].
      * intros l' Hr Hd. apply (Hnew l' Hr). by eapply subseteq_dom.
      * intros d. rewrite <- Hlook. apply Hsame.
  - apply NoDup_app. split_and!; [done| |apply NoDup_singleton].
    intros x Hx ->%list_elem_of_singleton.
    unfold copies_of in Hnews. rewrite Forall_forall in Hnews.
    apply Hfresh, (Hnews _ Hx).
  - exists (c :: news'), h'. split_and!; try done.
    + rewrite length_app in Hrun. simpl in Hrun.
      replace (Z.of_nat (length front + length news) + 1)%Z
        with (Z.of_nat (length front + (length news + 1))) by lia.
      rewrite Hrun. by rewrite <- !(assoc_L (++)).
    + simpl. by rewrite Hlen.
    + by rewrite <- (assoc_L (++)) in Hnews'.
    + by rewrite <- (assoc_L (++)) in Hnd'.
Qed.

(** C3: [insertObjects] returns [False] and changes nothing exactly when
    [num <= 0] or there is neither an object nor a template to copy.
    Otherwise it returns [True] and the list has [num] new objects at
    position [i] clamped to [0, len], each a deep copy of the template or,
    without a template, of the object nearest to that position; the
    objects of before stay as they were and the list is [num] longer.
    The heap has no dangling reference and holds the objects and the
    template. *)
Theorem insertObjects_spec (self : ObjectListTableModelQt) (w : store) (i num : Z) :
  closed (heap w) ->
  Forall (fun l => l ∈ dom (heap w)) (objects self) ->
  (forall t, templateObject self = Some t -> t ∈ dom (heap w)) ->
  let refused := (num <= 0)%Z \/ (objects self = [] /\ templateObject self = None) in
  let p := Z.to_nat (clamp i (Z.of_nat (length (objects self)))) in
  (insertObjects self w i num = Ok (false, self, w) <-> refused)
  /\ (~ refused ->
      exists news h' src,
        insertObjects self w i num
          = Ok (true,
                set_objects self (take p (objects self) ++ news ++ drop p (objects self)),
                {| heap := h'; called := called w |})
        /\ length news = Z.to_nat num
        /\ NoDup news
        /\ match templateObject self with
           | Some t => src = t
           | None => objects self !! (p `min` (length (objects self) - 1)) = Some src
           end
        /\ Forall (fun c => deep_copy_of (heap w) src h' c) news
        /\ heap w ⊆ h'
        /\ length (take p (objects self) ++ news ++ drop p (objects self))
           = length (objects self) + Z.to_nat num).
Proof.
  intros Hc Hobjs Htem refused p.
  assert (refused -> insertObjects self w i num = Ok (false, self, w)) as Hrefused.
  { intros [Hn|[Ho Ht]]; unfold insertObjects.
    - rewrite (bool_decide_eq_true_2 (num <= 0)%Z) by done. by rewrite orb_true_r.
    - rewrite Ho, Ht. done. }
  assert (~ refused ->
      exists news h' src,
        insertObjects self w i num
          = Ok (true,
                set_objects self (take p (objects self) ++ news ++ drop p (objects self)),
                {| heap := h'; called := called w |})
        /\ length news = Z.to_nat num
        /\ NoDup news
        /\ match templateObject self with
           | Some t => src = t
           | None => objects self !! (p `min` (length (objects self) - 1)) = Some src
           end
        /\ Forall (fun c => deep_copy_of (heap w) src h' c) news
        /\ heap w ⊆ h'
        /\ length (take p (objects self) ++ news ++ drop p (objects self))
           = length (objects self) + Z.to_nat num) as Haccepted.
  { intros Hnot.
    assert (0 < num)%Z as Hnum by (unfold refused in Hnot; lia).
    assert (objects self <> [] \/ templateObject self <> None) as Hsome.
    { destruct (objects self); [|by left]. right. intros Ht. apply Hnot. by right. }
    assert (p <= length (objects self)) as Hp.
    { subst p. pose proof (clamp_bounds i (Z.of_nat (length (objects self)))). lia. }
    (* the object that is copied *)
    assert (exists src, src ∈ dom (heap w) /\
              match templateObject self with
              | Some t => t = src
              | None => objects self !! (p `min` (length (objects self) - 1)) = Some src
              end) as (src & Hsrc & Hsel).
    { destruct (templateObject self) as [t|] eqn:Ht.
      - exists t. split; [by apply Htem|done].
      - destruct Hsome as [Hne|]; [|done].
        destruct (lookup_lt_is_Some_2 (objects self) (p `min` (length (objects self) - 1)))
          as [src Hsrc].
        { destruct (objects self); [done|simpl; lia]. }
        exists src. split; [|done].
        rewrite Forall_forall in Hobjs. apply Hobjs. by eapply list_elem_of_lookup_2. }
    destruct (insert_loop_copies (templateObject self) (take p (objects self))
                (drop p (objects self)) (heap w) src Hc Hsrc) with
      (n := Z.to_nat num) (news := @nil nat) (h := heap w)
      as (news & h' & Hrun & Hlen & Hc' & Hsub & Hnews & Hnd).
    { destruct (templateObject self); [done|].
      by rewrite take_drop, length_take_le. }
    { done. }
    { done. }
    { constructor. }
    { constructor. }
    exists news, h', src. simpl in Hrun, Hnews, Hnd.
    rewrite length_take_le, Nat.add_0_r, take_drop, Z2Nat.id in Hrun by lia.
    split_and!; try done.
    - unfold insertObjects.
      rewrite (bool_decide_eq_false_2 (num <= 0)%Z), orb_false_r by lia.
      assert (bool_decide (py_len (objects self) = 0)%Z
              && bool_decide (templateObject self = None) = false) as ->.
      { apply andb_false_iff. destruct Hsome as [Ho|Ht].
        - left. apply bool_decide_eq_false_2. unfold py_len.
          destruct (objects self); [done|simpl; lia].
        - right. by apply bool_decide_eq_false_2. }
      unfold py_len. fold p.
      replace (clamp i (Z.of_nat (length (objects self)))) with (Z.of_nat p)
        by (subst p; pose proof (clamp_bounds i (Z.of_nat (length (objects self)))); lia).
      rewrite Hrun. done.
    - destruct (templateObject self); done.
    - eapply Forall_impl; [exact Hnews|]. by intros c [_ Hcopy].
    - rewrite !length_app, length_take_le, length_drop, Hlen by lia. lia. }
  split_and!; [|done].
  split; [|done]. intros Hret.
  destruct (decide (num <= 0)%Z) as [|Hpos]; [by left|].
  destruct (objects self) as [|o objs] eqn:Ho, (templateObject self) as [t|] eqn:Ht;
    try (by right);
    (destruct Haccepted as (news & h' & src & Hrun & _);
     [unfold refused; intros [?|[? ?]]; done|congruence]).
Qed.

Lemma closedb_closed (h : gmap nat (gmap string slot)) : closedb h = true -> closed h.
Proof.
  unfold closedb. rewrite bool_decide_eq_true.
  intros H l o a l' Ho Ha. specialize (H l o Ho a _ Ha). simpl in H.
  by apply bool_decide_eq_true in H.
Qed.

(** Two rows appended to the small table: copies of the last object. *)
Lemma insertObjects_spec_witness :
  exists news h' src,
    insertObjects ex_model ex_store 5 2
      = Ok (true,
            set_objects ex_model (take 2 (objects ex_model) ++ news
                                  ++ drop 2 (objects ex_model)),
            {| heap := h'; called := called ex_store |})
    /\ length news = 2
    /\ NoDup news
    /\ objects ex_model !! 1 = Some src
    /\ Forall (fun c => deep_copy_of (heap ex_store) src h' c) news
    /\ heap ex_store ⊆ h'
    /\ length (take 2 (objects ex_model) ++ news ++ drop 2 (objects ex_model)) = 2 + 2.
Proof.
  assert (closed (heap ex_store)) as Hc by (apply closedb_closed; vm_compute; reflexivity).
  assert (Forall (fun l => l ∈ dom (heap ex_store)) (objects ex_model)) as Ho
    by (repeat constructor; apply elem_of_dom; eexists; reflexivity).
  assert (forall t, templateObject ex_model = Some t -> t ∈ dom (heap ex_store)) as Ht
    by (intros t [=]).
  apply (proj2 (insertObjects_spec ex_model ex_store 5 2 Hc Ho Ht)).
  intros [H|[H _]]; [lia|discriminate].
Defined.

Example insertObjects_appends_two :
  (fun r => match r with
            | Ok (b, self, w) => Some (b, objects self, size (heap w))
            | Raise _ => None
            end) (insertObjects ex_model ex_store 5 2)
  = Some (true, [1; 3; 8; 18], 8).
Proof. vm_compute. reflexivity. Qed.

(** ** The template invariant *)

Lemma length_py_insert {A} (l : list A) (i : Z) (x : A) :
  length (py_insert l i x) = S (length l).
Proof.
  unfold py_insert. rewrite length_app. simpl.
  pose proof (f_equal length (take_drop (py_bound l i) l)) as H.
  rewrite length_app in H. lia.
Qed.

(** The loop of [insertObjects] never raises, and adds an object per round
    when there is something to copy. *)
Lemma insert_loop_total (template : option nat) (range : list Z) :
  forall (objs : list nat) (h : gmap nat (gmap string slot)),
  template <> None \/ objs <> [] ->
  exists objs' h',
    insert_loop template range objs h = Ok (objs', h') /\
    length objs' = length objs + length range.
Proof.
  induction range as [|objectIndex range IH]; intros objs h Hsome.
  { exists objs, h. simpl. split; [done|lia]. }
  cbn [insert_loop length]. destruct template as [t|].
  - destruct (deepcopy h t) as [h1 c]. cbn beta iota.
    destruct (IH (py_insert objs objectIndex c) h1) as (objs' & h' & -> & Hlen);
      [by left|].
    exists objs', h'. split; [done|]. rewrite Hlen, length_py_insert. lia.
  - destruct Hsome as [|Hne]; [done|].
    assert (0 < length objs) as Hpos by (destruct objs; [done|simpl; lia]).
    rewrite bool_decide_eq_true_2 by (unfold py_len; lia).
    pose proof (clamp_bounds objectIndex (py_len objs - 1) ltac:(unfold py_len; lia))
      as Hcl.
    rewrite py_getitem_nonneg by lia.
    destruct (lookup_lt_is_Some_2 objs (Z.to_nat (clamp objectIndex (py_len objs - 1))))
      as [src ->]; [unfold py_len in *; lia|].
    cbn [mbind result_bind]. destruct (deepcopy h src) as [h1 c]. cbn beta iota.
    destruct (IH (py_insert objs objectIndex c) h1) as (objs' & h' & -> & Hlen).
    { right. intros Hnil. apply (f_equal length) in Hnil.
      rewrite length_py_insert in Hnil. done. }
    exists objs', h'. split; [done|]. rewrite Hlen, length_py_insert. lia.
Qed.

(** With something to copy, every insertion of one object or more goes
    through. *)
Lemma insertObjects_possible self w i num :
  insertable self -> (0 < num)%Z ->
  exists self' w',
    insertObjects self w i num = Ok (true, self', w') /\ insertable self'.
Proof.
  intros Hins Hnum. unfold insertObjects.
  rewrite (bool_decide_eq_false_2 (num <= 0)%Z), orb_false_r by lia.
  assert (bool_decide (py_len (objects self) = 0)%Z
          && bool_decide (templateObject self = None) = false) as ->.
  { apply andb_false_iff. destruct Hins as [Ho|Ht].
    - left. apply bool_decide_eq_false_2. unfold py_len.
      destruct (objects self); [done|simpl; lia].
    - right. by apply bool_decide_eq_false_2. }
  destruct (insert_loop_total (templateObject self)
              (py_range (clamp i (py_len (objects self))) num) (objects self) (heap w))
    as (objs' & h' & -> & Hlen).
  { destruct Hins; [by right|by left]. }
  simpl. eexists _, _. split; [done|].
  destruct Hins as [Ho|Ht]; [left|by right]. simpl.
  destruct (objects self); [done|]. destruct objs'; [simpl in Hlen; lia|done].
Qed.

Lemma insertObjects_insertable self w i num b self' w' :
  insertable self -> insertObjects self w i num = Ok (b, self', w') -> insertable self'.
Proof.
  intros Hins Hrun. destruct (decide (0 < num)%Z) as [Hpos|Hneg].
  - destruct (insertObjects_possible self w i num Hins Hpos) as (s1 & w1 & Hrun' & Hins').
    congruence.
  - unfold insertObjects in Hrun.
    rewrite (bool_decide_eq_true_2 (num <= 0)%Z), orb_true_r in Hrun by lia.
    congruence.
Qed.

Lemma length_py_delslice {A} (l : list A) (a n : Z) :
  (0 <= a)%Z -> (0 <= n)%Z -> (a + n <= py_len l)%Z ->
  length (py_delslice l a (a + n)) = length l - Z.to_nat n.
Proof.
  intros Ha Hn Hle. unfold py_delslice.
  rewrite !py_bound_in_range by lia.
  rewrite length_app, length_take, length_drop. unfold py_len in Hle. lia.
Qed.

(** [removeObjects] never raises; when it empties the list it has a
    template, the one it had or the first object. *)
Lemma removeObjects_total self i num :
  exists b self',
    removeObjects self i num = Ok (b, self') /\
    (insertable self -> insertable self') /\
    (objects self <> [] -> objects self' = [] ->
     templateObject self' = match templateObject self with
                            | Some t => Some t
                            | None => head (objects self)
                            end).
Proof.
  unfold removeObjects.
  destruct (bool_decide (py_len (objects self) = 0)%Z || bool_decide (num <= 0)%Z)
    eqn:Hguard.
  { exists false, self. split_and!; [done..|]. intros Hne Hnil. done. }
  apply orb_false_iff in Hguard as [Hlen Hnum].
  apply bool_decide_eq_false in Hlen, Hnum.
  destruct (objects self) as [|first objs] eqn:Ho; [done|]. clear Hlen.
  set (len := py_len (first :: objs)) in *.
  assert (0 < len)%Z as Hpos by (unfold len, py_len; simpl; lia).
  set (i' := clamp i (len - 1)).
  pose proof (clamp_bounds i (len - 1) ltac:(lia)) as Hi'. fold i' in Hi'.
  set (num' := Z.min num (len - i')).
  assert (1 <= num' <= len - i')%Z as Hnum' by (unfold num'; lia).
  assert (length (py_delslice (first :: objs) i' (i' + num'))
          = length (first :: objs) - Z.to_nat num') as Hcut
    by (apply length_py_delslice; fold len; lia).
  assert (num' <> len -> py_delslice (first :: objs) i' (i' + num') <> []) as Hleft.
  { intros Hall Hnil. rewrite Hnil in Hcut. unfold len, py_len in *. simpl in *. lia. }
  case_bool_decide as Hall.
  - destruct (templateObject self) as [t|] eqn:Ht.
    + cbn [mbind result_bind]. eexists true, _. rewrite Ho.
      split_and!; [done| |].
      * intros _. right. simpl. by rewrite Ht.
      * intros _ _. simpl. by rewrite Ht.
    + change (py_getitem (first :: objs) 0) with (Ok (A := nat) first).
      cbn [mbind result_bind]. eexists true, _. split_and!; [done| |].
      * intros _. by right.
      * intros _ _. done.
  - cbn [mbind result_bind]. eexists true, _. rewrite Ho.
    split_and!; [done| |].
    + intros _. left. simpl. by apply Hleft.
    + intros _ Hnil. simpl in Hnil. by apply Hleft in Hnil.
Qed.

(** [clearObjects] never raises and leaves a template behind. *)
Lemma clearObjects_total self :
  exists self',
    clearObjects self = Ok self' /\
    (insertable self -> insertable self') /\
    (objects self <> [] ->
     objects self' = [] /\
     templateObject self' = match templateObject self with
                            | Some t => Some t
                            | None => head (objects self)
                            end).
Proof.
  unfold clearObjects, py_len.
  destruct (objects self) as [|first objs] eqn:Ho; simpl.
  { exists self. split_and!; [done..|]. by rewrite Ho. }
  destruct (templateObject self) as [t|] eqn:Ht; simpl.
  - eexists. split_and!; [done| |].
    + intros _. right. simpl. by rewrite Ht.
    + intros _. simpl. by rewrite Ht.
  - change (py_getitem (first :: objs) 0) with (Ok (A := nat) first). simpl.
    eexists. split_and!; [done| |]; intros _; [by right|done].
Qed.

(** A run of deletions takes one object per index it gets through, and
    an interrupted run has not got through all of them. *)
Lemma del_loop_length (indices : list Z) : forall (objs : list nat) r objs',
  del_loop indices objs = (r, objs') ->
  match r with
  | None => length objs = length objs' + length indices
  | Some _ => length objs < length objs' + length indices
  end.
Proof.
  induction indices as [|i indices IH]; intros objs r objs' Hrun; simpl in Hrun.
  { injection Hrun as <- <-. simpl. lia. }
  unfold py_delitem in Hrun. destruct (py_position objs i) as [n|] eqn:Hpos.
  - assert (n < length objs) as Hn.
    { unfold py_position, py_len in Hpos.
      repeat case_decide; try discriminate; injection Hpos as <-; lia. }
    apply IH in Hrun. rewrite length_delete in Hrun by (by apply lookup_lt_is_Some_2).
    simpl. destruct r; lia.
  - injection Hrun as <- <-. simpl. lia.
Qed.

Lemma length_reinsert_loop moveToIndex (xs : list nat) : forall k objs,
  length (reinsert_loop moveToIndex k xs objs) = length objs + length xs.
Proof.
  induction xs as [|x xs IH]; intros k objs; simpl; [lia|].
  rewrite IH, length_py_insert. lia.
Qed.

Lemma mapM_result_length {A B} (f : A -> result B) (l : list A) (k : list B) :
  mapM f l = Ok k -> length k = length l.
Proof.
  revert k. induction l as [|x l IH]; intros k; simpl.
  - by intros [= <-].
  - destruct (f x) as [y|]; [simpl|done].
    change (mapM f l ≫= (fun k0 => mret (y :: k0)) = Ok k -> length k = S (length l)).
    destruct (mapM f l) as [k0|]; [simpl|done].
    intros [= <-]. simpl. by rewrite (IH k0).
Qed.

(** A move that names no more indices than there are objects leaves
    something to copy. *)
Lemma moveObjects_insertable self indices moveToIndex :
  insertable self -> length indices <= length (objects self) ->
  insertable (moveObjects self indices moveToIndex).2.
Proof.
  intros Hins Hfit. unfold moveObjects.
  case_bool_decide as Hlen; [done|].
  destruct (mapM _ _) as [moved|] eqn:Hmoved; [|done].
  apply mapM_result_length in Hmoved. rewrite length_fmap in Hmoved.
  destruct (del_loop _ _) as [r objs'] eqn:Hdel.
  apply del_loop_length in Hdel. rewrite length_reverse, length_fmap in Hdel.
  left. destruct r as [e|]; simpl.
  - intros ->. simpl in Hdel. lia.
  - intros Hnil. apply (f_equal length) in Hnil.
    rewrite length_reinsert_loop in Hnil. unfold py_len in Hlen. simpl in Hnil. lia.
Qed.

Lemma run_op_insertable o self w :
  insertable self -> move_fits o self ->
  exists self' w', run_op o (self, w) = Ok (self', w') /\ insertable self'.
Proof.
  intros Hins Hfit. destruct o as [i num|i num|indices moveToIndex| |index v role]; simpl.
  - destruct (decide (0 < num)%Z) as [Hpos|Hneg].
    + destruct (insertObjects_possible self w i num Hins Hpos) as (s1 & w1 & -> & H1).
      simpl. by eexists _, _.
    + unfold insertObjects.
      rewrite (bool_decide_eq_true_2 (num <= 0)%Z), orb_true_r by lia.
      simpl. by eexists _, _.
  - destruct (removeObjects_total self i num) as (b & s1 & -> & H1 & _).
    simpl. eexists _, _. split; [done|by apply H1].
  - eexists _, _. split; [done|]. by apply moveObjects_insertable.
  - destruct (clearObjects_total self) as (s1 & -> & H1 & _).
    simpl. eexists _, _. split; [done|by apply H1].
  - by eexists _, _.
Qed.

(** C9, as the code has it: while every move names no more indices than
    the list has objects, a sequence of model operations runs without an
    exception and keeps "there is an object or a template"; after it
    every insertion of one object or more goes through.  [removeObjects]
    and [clearObjects] keep the template they have, and without one make
    the first object the template when they empty the list. *)
Theorem insertable_preserved (ops : list operation) (self : ObjectListTableModelQt)
  (w : store) :
  insertable self -> moves_fit ops (self, w) ->
  (exists self' w',
     run_ops ops (self, w) = Ok (self', w') /\
     insertable self' /\
     forall i num, (0 < num)%Z ->
       exists self'' w'', insertObjects self' w' i num = Ok (true, self'', w''))
  /\ (forall i num b self', removeObjects self i num = Ok (b, self') ->
        objects self <> [] -> objects self' = [] ->
        templateObject self' = match templateObject self with
                               | Some t => Some t
                               | None => head (objects self)
                               end)
  /\ (forall self', clearObjects self = Ok self' -> objects self <> [] ->
        objects self' = [] /\
        templateObject self' = match templateObject self with
                               | Some t => Some t
                               | None => head (objects self)
                               end).
Proof.
  intros Hins Hfit. split_and!.
  - revert self w Hins Hfit. induction ops as [|o ops IH]; intros self w Hins Hfit.
    + exists self, w. split_and!; [done..|]. intros i num Hnum.
      destruct (insertObjects_possible self w i num Hins Hnum) as (s1 & w1 & H1 & _).
      by exists s1, w1.
    + destruct Hfit as [Hfit Hrest]. simpl in Hfit.
      destruct (run_op_insertable o self w Hins Hfit) as (s1 & w1 & Hrun & Hins1).
      rewrite Hrun in Hrest.
      destruct (IH s1 w1 Hins1 Hrest) as (s2 & w2 & Hrun2 & Hins2 & Hnext).
      exists s2, w2. split_and!; [|done..].
      cbn [run_ops]. rewrite Hrun. exact Hrun2.
  - intros i num b self' Hrun Hne Hnil.
    destruct (removeObjects_total self i num) as (b1 & s1 & Hrun1 & _ & H1).
    rewrite Hrun in Hrun1. injection Hrun1 as <- <-. by apply H1.
  - intros self' Hrun Hne.
    destruct (clearObjects_total self) as (s1 & Hrun1 & _ & H1).
    rewrite Hrun in Hrun1. injection Hrun1 as <-. by apply H1.
Qed.

(** The operations of the small table run, and rows can be inserted after
    them. *)
Lemma insertable_preserved_witness :
  exists self' w',
    run_ops ex_operations (ex_model, ex_store) = Ok (self', w') /\
    insertable self' /\
    forall i num, (0 < num)%Z ->
      exists self'' w'', insertObjects self' w' i num = Ok (true, self'', w'').
Proof.
  assert (insertable ex_model) as Hins by (by left).
  assert (moves_fit ex_operations (ex_model, ex_store)) as Hfit
    by (vm_compute; repeat split; repeat constructor).
  exact (proj1 (insertable_preserved ex_operations ex_model ex_store Hins Hfit)).
Defined.

Example run_ops_small_table :
  (fun r => match r with
            | Ok (self, w) => Some (objects self, templateObject self)
            | Raise _ => None
            end) (run_ops ex_operations (ex_model, ex_store))
  = Some ([], Some 1).
Proof. vm_compute. reflexivity. Qed.

(** C9 as it is stated fails: the table of two objects has no template,
    and [moveObjects] with the indices [0, 0, 0] deletes both objects,
    fails on the third deletion and returns [False], leaving neither an
    object nor a template; no insertion goes through after that. *)
Lemma moveObjects_can_empty_the_list :
  insertable ex_model /\
  moveObjects ex_model [0; 0; 0]%Z 0 = (false, set_objects ex_model []) /\
  ~ insertable (set_objects ex_model []) /\
  insertObjects (set_objects ex_model []) ex_store 0 1
    = Ok (false, set_objects ex_model [], ex_store).
Proof.
  split_and!.
  - by left.
  - reflexivity.
  - intros [H|H]; by apply H.
  - reflexivity.
Qed.

(** ** The handler of [except ValueError] *)

(** The [try] block of [setAttrRecursive] also holds the recursive call:
    when the setter of the last name raises [ValueError], the handler of
    the caller assigns to an attribute named by the whole rest of the
    path, here "child.locked" on the child, and the call returns. *)
Example setAttrRecursive_ValueError_handler :
  let h : gmap nat (gmap string slot) :=
    {[ 1 := {[ "child" := Attr (VRef 2) ]};
       2 := {[ "locked" := Raising ValueError ]} ]} in
  setattr_path h (VRef 1) ["child"%string] "locked" (VInt 9) = Raise ValueError /\
  setAttrRecursive h (VRef 1) "child.locked" (VInt 9)
    = Ok (<[2 := <["child.locked" := Attr (VInt 9)]> {[ "locked" := Raising ValueError ]}]> h).
Proof. split; vm_compute; reflexivity. Qed.

(** * Further properties

    What the code shows beyond the statements above: the edges of the
    model's operations, what they keep, how they compose, and the slots
    of the view that act on the selection. *)

(** ** Removing objects *)

Lemma py_delslice_take_drop {A} (l : list A) (a n : nat) :
  a + n <= length l ->
  py_delslice l (Z.of_nat a) (Z.of_nat a + Z.of_nat n) = take a l ++ drop (a + n) l.
Proof.
  intros Hle. unfold py_delslice.
  rewrite !py_bound_in_range by (unfold py_len; lia).
  rewrite Nat2Z.id. do 2 f_equal. lia.
Qed.

(** [removeObjects] in full: the slice it cuts out and the template it
    keeps. *)
Lemma removeObjects_cases (self : ObjectListTableModelQt) (i num : Z) :
  let len := length (objects self) in
  let a := Z.to_nat (clamp i (Z.of_nat len - 1)) in
  let n := Z.to_nat num `min` (len - a) in
  removeObjects self i num =
    if decide (objects self = [] \/ (num <= 0)%Z) then Ok (false, self)
    else Ok (true,
             {| objects := take a (objects self) ++ drop (a + n) (objects self);
                properties := properties self;
                isRowObjects := isRowObjects self;
                isDynamic := isDynamic self;
                templateObject :=
                  match templateObject self with
                  | Some t => Some t
                  | None => if decide (n = len) then head (objects self) else None
                  end |}).
Proof.
  intros len a n. unfold removeObjects.
  destruct (decide (objects self = [] \/ (num <= 0)%Z)) as [Hno|Hyes].
  { assert (bool_decide (py_len (objects self) = 0)%Z || bool_decide (num <= 0)%Z = true)
      as ->; [|done].
    apply orb_true_iff. destruct Hno as [Hnil|Hnum].
    - left. apply bool_decide_eq_true_2. by rewrite Hnil.
    - right. by apply bool_decide_eq_true_2. }
  assert (objects self <> []) as Hne by tauto. assert (~ (num <= 0)%Z) as Hnum by tauto.
  assert (0 < len) as Hlen by (subst len; destruct (objects self); [done|simpl; lia]).
  rewrite (bool_decide_eq_false_2 (py_len (objects self) = 0)%Z) by (unfold py_len; lia).
  rewrite (bool_decide_eq_false_2 (num <= 0)%Z) by done. cbn [orb].
  change (py_len (objects self)) with (Z.of_nat len).
  pose proof (clamp_bounds i (Z.of_nat len - 1) ltac:(lia)) as Hcl.
  assert (clamp i (Z.of_nat len - 1) = Z.of_nat a) as -> by (subst a; lia).
  assert (Z.min num (Z.of_nat len - Z.of_nat a) = Z.of_nat n) as -> by (subst n; lia).
  assert (a + n <= len) as Hfit by (subst n; lia).
  assert (forall self', objects self' = objects self ->
            py_delslice (objects self') (Z.of_nat a) (Z.of_nat a + Z.of_nat n)
            = take a (objects self) ++ drop (a + n) (objects self)) as Hcut.
  { intros self' ->. by apply py_delslice_take_drop. }
  case_bool_decide as Hall.
  - assert (n = len) as Hn by lia. rewrite decide_True by done.
    destruct (templateObject self) as [t|] eqn:Ht.
    + cbn [mbind result_bind]. unfold set_objects. rewrite Hcut, Ht by done. done.
    + assert (exists first, py_getitem (objects self) 0 = Ok first
                              /\ head (objects self) = Some first) as (first & -> & ->).
      { destruct (objects self); [done|]. eexists. split; reflexivity. }
      cbn [mbind result_bind]. unfold set_objects, set_templateObject.
      cbn [objects properties isRowObjects isDynamic templateObject].
      by rewrite (Hcut self).
  - assert (n <> len) as Hn by lia. rewrite decide_False by done.
    cbn [mbind result_bind]. unfold set_objects. rewrite Hcut by done.
    by destruct (templateObject self).
Qed.

(** X1: [removeObjects] returns [False] and changes nothing on an empty
    list or a count below one.  Otherwise it returns [True] and cuts out
    the [n] objects from index [a] on, where [a] is [i] clamped to the
    list and [n] the count cut down to what the list holds behind [a];
    the descriptors stay, and the template is the one there was or, when
    the list is emptied with none, the first object. *)
Theorem removeObjects_removes_slice (self : ObjectListTableModelQt) (i num : Z) :
  (objects self = [] \/ (num <= 0)%Z -> removeObjects self i num = Ok (false, self))
  /\ (objects self <> [] -> (0 < num)%Z ->
      let len := length (objects self) in
      let a := Z.to_nat (clamp i (Z.of_nat len - 1)) in
      let n := Z.to_nat num `min` (len - a) in
      exists self',
        removeObjects self i num = Ok (true, self')
        /\ objects self' = take a (objects self) ++ drop (a + n) (objects self)
        /\ a < len /\ 1 <= n
        /\ length (objects self') = len - n
        /\ properties self' = properties self
        /\ isRowObjects self' = isRowObjects self
        /\ isDynamic self' = isDynamic self
        /\ templateObject self' =
             match templateObject self with
             | Some t => Some t
             | None => if decide (n = len) then head (objects self) else None
             end).
Proof.
  pose proof (removeObjects_cases self i num) as Hcases. cbn zeta in Hcases.
  split.
  - intros Hno. by rewrite Hcases, decide_True.
  - intros Hne Hnum len a n. rewrite Hcases, decide_False by (intros [|]; [done|lia]).
    eexists. split; [done|]. simpl.
    assert (0 < len) as Hlen by (subst len; destruct (objects self); [done|simpl; lia]).
    pose proof (clamp_bounds i (Z.of_nat len - 1) ltac:(lia)) as Hcl.
    assert (a < len) by (subst a; lia).
    assert (1 <= n) by (subst n; lia).
    split_and!; try done.
    rewrite length_app, length_take, length_drop. fold len. lia.
Qed.

(** ** Inserting, then removing *)

(** The loop of [insertObjects] puts its new objects in a row at the
    place of insertion, whatever the store holds. *)
Lemma insert_loop_places (template : option nat) (front back : list nat) :
  forall (n : nat) (news : list nat) (h : gmap nat (gmap string slot)),
  template <> None \/ front ++ news ++ back <> [] ->
  exists news' h',
    insert_loop template
      (py_range (Z.of_nat (length front + length news)) (Z.of_nat n))
      (front ++ news ++ back) h
    = Ok (front ++ (news ++ news') ++ back, h') /\
    length news' = n.
Proof.
  induction n as [|n IH]; intros news h Hsome.
  { exists [], h. by rewrite app_nil_r. }
  rewrite py_range_S. cbn [insert_loop].
  assert (forall c h1, exists news' h',
            insert_loop template
              (py_range (Z.of_nat (length front + length news) + 1) (Z.of_nat n))
              (py_insert (front ++ news ++ back)
                 (Z.of_nat (length front + length news)) c) h1
            = Ok (front ++ (news ++ news') ++ back, h') /\ length news' = S n) as Hstep.
  { intros c h1. rewrite py_insert_middle.
    destruct (IH (news ++ [c]) h1) as (news' & h' & Hrun & Hlen).
    { right. destruct front; [destruct news|]; done. }
    rewrite length_app in Hrun. simpl in Hrun.
    replace (Z.of_nat (length front + (length news + 1)))
      with (Z.of_nat (length front + length news) + 1)%Z in Hrun by lia.
    exists (c :: news'), h'. rewrite Hrun. split; [|simpl; lia].
    by rewrite <- !(assoc_L (++)). }
  destruct template as [t|].
  - destruct (deepcopy h t) as [h1 c]. apply Hstep.
  - destruct Hsome as [|Hne]; [done|].
    assert (0 < length (front ++ news ++ back)) as Hpos
      by (destruct (front ++ news ++ back); [done|simpl; lia]).
    rewrite bool_decide_eq_true_2 by (unfold py_len; lia).
    pose proof (clamp_bounds (Z.of_nat (length front + length news))
                  (py_len (front ++ news ++ back) - 1) ltac:(unfold py_len; lia)) as Hcl.
    rewrite py_getitem_nonneg by lia.
    destruct (lookup_lt_is_Some_2 (front ++ news ++ back)
                (Z.to_nat (clamp (Z.of_nat (length front + length news))
                             (py_len (front ++ news ++ back) - 1))))
      as [src ->]; [unfold py_len in *; lia|].
    cbn [mbind result_bind]. destruct (deepcopy h src) as [h1 c]. apply Hstep.
Qed.

(** What [insertObjects] returns when it inserts: the new objects stand
    in a row at the clamped index. *)
Lemma insertObjects_places self w i num b self' w' :
  insertObjects self w i num = Ok (b, self', w') ->
  b = true ->
  let p := Z.to_nat (clamp i (py_len (objects self))) in
  (0 < num)%Z /\ insertable self /\
  exists news,
    length news = Z.to_nat num /\
    self' = set_objects self (take p (objects self) ++ news ++ drop p (objects self)) /\
    called w' = called w.
Proof.
  intros Hrun -> p. unfold insertObjects in Hrun.
  destruct (_ || _) eqn:Hguard in Hrun; [done|].
  apply orb_false_iff in Hguard as [Hempty Hnum].
  apply bool_decide_eq_false in Hnum.
  assert (insertable self) as Hins.
  { apply andb_false_iff in Hempty as [Ho|Ht]; apply bool_decide_eq_false in Ho || apply bool_decide_eq_false in Ht.
    - left. intros Hnil. by rewrite Hnil in Ho.
    - by right. }
  split; [lia|]. split; [done|].
  pose proof (clamp_bounds i (py_len (objects self)) ltac:(unfold py_len; lia)) as Hcl.
  assert (p <= length (objects self)) as Hp by (unfold p, py_len in *; lia).
  destruct (insert_loop_places (templateObject self) (take p (objects self))
              (drop p (objects self)) (Z.to_nat num) [] (heap w))
    as (news & h' & Hloop & Hlen).
  { simpl. rewrite take_drop. destruct Hins; [by right|by left]. }
  simpl in Hloop. rewrite take_drop, length_take, Z2Nat.id in Hloop by lia.
  replace (Z.of_nat (p `min` length (objects self) + 0))
    with (clamp i (py_len (objects self))) in Hloop by lia.
  rewrite Hloop in Hrun. simpl in Hrun. injection Hrun as <- <-.
  exists news. by split_and!.
Qed.

(** X2: an insertion that went through adds [num] objects, and removing
    [num] objects at the place of insertion right after it gives back
    the model as it was, the template included; with one object the
    view's [insertObject] and [removeObject] do the same. *)
Theorem insertObjects_removeObjects_round_trip (self self' : ObjectListTableModelQt)
  (w w' : store) (i num : Z) :
  insertObjects self w i num = Ok (true, self', w') ->
  let at_index := clamp i (py_len (objects self)) in
  length (objects self') = length (objects self) + Z.to_nat num
  /\ removeObjects self' at_index num = Ok (true, self)
  /\ (num = 1%Z ->
      View.insertObject self w i = Ok (self', w')
      /\ View.removeObject self' at_index = Ok self).
Proof.
  intros Hrun at_index. subst at_index.
  assert (removeObjects self' (clamp i (py_len (objects self))) num = Ok (true, self))
    as Hback.
  { destruct (insertObjects_places _ _ _ _ _ _ _ Hrun eq_refl)
      as (Hnum & Hins & news & Hlen & -> & _).
    set (p := Z.to_nat (clamp i (py_len (objects self)))).
    pose proof (clamp_bounds i (py_len (objects self)) ltac:(unfold py_len; lia)) as Hcl.
    assert (p <= length (objects self)) as Hp by (unfold p, py_len in *; lia).
    pose proof (removeObjects_cases
                  (set_objects self (take p (objects self) ++ news ++ drop p (objects self)))
                  (clamp i (py_len (objects self))) num) as Hrem.
    cbn zeta in Hrem.
    cbn [set_objects objects properties isRowObjects isDynamic templateObject] in Hrem.
    rewrite Hrem. clear Hrem.
    rewrite !length_app, length_take, length_drop.
    rewrite decide_False.
    2:{ intros [Hnil|]; [|lia]. apply (f_equal length) in Hnil.
        rewrite !length_app in Hnil. simpl in Hnil. lia. }
    rewrite clamp_in_range by (unfold py_len in *; lia). fold p.
    replace (Z.to_nat num `min` (p `min` length (objects self)
               + (length news + (length (objects self) - p)) - p))
      with (length news) by lia.
    do 2 f_equal. destruct self as [objs props r d t]. simpl in *. f_equal.
    - rewrite take_app_le, take_take by (rewrite length_take; lia).
      rewrite drop_app_ge by (rewrite length_take; lia).
      rewrite length_take.
      replace (p + length news - p `min` length objs) with (length news) by lia.
      replace (p `min` p) with p by lia.
      rewrite drop_app_length. apply take_drop.
    - destruct t as [t|]; [done|]. rewrite decide_False; [done|].
      destruct Hins as [Hne|]; [|done]. simpl in Hne.
      destruct objs; [done|]. simpl. lia. }
  split_and!; [|done|].
  - destruct (insertObjects_places _ _ _ _ _ _ _ Hrun eq_refl)
      as (Hnum & _ & news & Hlen & -> & _).
    simpl. rewrite !length_app, length_take, length_drop, Hlen.
    pose proof (clamp_bounds i (py_len (objects self)) ltac:(unfold py_len; lia)).
    unfold py_len in *. lia.
  - intros ->. unfold View.insertObject, View.removeObject.
    by rewrite Hrun, Hback.
Qed.

(** One object inserted between the two of the small table, and removed. *)
Lemma insertObjects_removeObjects_round_trip_witness :
  exists self' w',
    insertObjects ex_model ex_store 1 1 = Ok (true, self', w')
    /\ length (objects self') = length (objects ex_model) + Z.to_nat 1
    /\ removeObjects self' (clamp 1 (py_len (objects ex_model))) 1 = Ok (true, ex_model)
    /\ (1%Z = 1%Z ->
        View.insertObject ex_model ex_store 1 = Ok (self', w')
        /\ View.removeObject self' (clamp 1 (py_len (objects ex_model))) = Ok ex_model).
Proof.
  assert (exists self' w', insertObjects ex_model ex_store 1 1 = Ok (true, self', w'))
    as (self' & w' & Hrun) by (vm_compute; eexists _, _; reflexivity).
  exists self', w'. split; [exact Hrun|].
  exact (insertObjects_removeObjects_round_trip ex_model self' ex_store w' 1 1 Hrun).
Defined.

(** ** Negative sections *)

Lemma py_getitem_negative {A} (l : list A) (i : Z) :
  (- py_len l <= i < 0)%Z -> py_getitem l i = py_getitem l (py_len l + i).
Proof.
  intros Hi. unfold py_getitem, py_position.
  rewrite (decide_False (P := (0 <= i < py_len l)%Z)) by lia.
  rewrite (decide_True (P := (- py_len l <= i < 0)%Z)) by done.
  rewrite (decide_True (P := (0 <= py_len l + i < py_len l)%Z)) by lia.
  done.
Qed.

(** X3: on the axis of the properties a negative section down to
    [-len(properties)] counts from the end, as Python's index does: the
    header is the one of the property at [len(properties) + section]. *)
Theorem headerData_wraps_negative_sections (self : ObjectListTableModelQt)
  (section : Z) (orientation : Orientation) :
  orientation = (if isRowObjects self then Horizontal else Vertical) ->
  (- py_len (properties self) <= section < 0)%Z ->
  exists prop,
    properties self !! Z.to_nat (py_len (properties self) + section) = Some prop /\
    headerData self section orientation DisplayRole = default VNone (prop !! "header") /\
    headerData self section orientation DisplayRole
      = headerData self (py_len (properties self) + section) orientation DisplayRole.
Proof.
  intros Ho Hsec.
  destruct (lookup_lt_is_Some_2 (properties self)
              (Z.to_nat (py_len (properties self) + section))) as [prop Hprop];
    [unfold py_len in *; lia|].
  exists prop. split; [done|].
  rewrite (headerData_property_axis self (py_len (properties self) + section))
    by first [done | unfold py_len in *; lia].
  rewrite Hprop. cut (headerData self section orientation DisplayRole
                      = default VNone (prop !! "header")); [by intros ->|].
  subst orientation. unfold headerData. simpl.
  assert ((bool_decide ((if isRowObjects self then Horizontal else Vertical) = Horizontal)
             && isRowObjects self
           || bool_decide ((if isRowObjects self then Horizontal else Vertical) = Vertical)
                && negb (isRowObjects self)) = true) as ->
    by (by destruct (isRowObjects self)).
  rewrite (py_getitem_negative (properties self)) by done.
  rewrite py_getitem_nonneg by lia. rewrite Hprop.
  unfold dict_getitem. by destruct (prop !! "header").
Qed.

(** Section -2 of the small table is the button column. *)
Lemma headerData_wraps_negative_sections_witness :
  exists prop,
    properties ex_model !! Z.to_nat (py_len (properties ex_model) + -2) = Some prop /\
    headerData ex_model (-2) Horizontal DisplayRole = default VNone (prop !! "header") /\
    headerData ex_model (-2) Horizontal DisplayRole
      = headerData ex_model (py_len (properties ex_model) + -2) Horizontal DisplayRole.
Proof.
  apply (headerData_wraps_negative_sections ex_model (-2) Horizontal).
  - reflexivity.
  - unfold py_len. simpl. lia.
Defined.

(** ** What [setData] reads and writes *)

(** [setData] reads two keys of the descriptor, ['action'] and ['attr']. *)
Lemma setData_reads_action_attr self self' w index v role :
  getObject self' index = getObject self index ->
  (match getProperty self index, getProperty self' index with
   | Some prop, Some prop' =>
       prop' !! "action" = prop !! "action" /\ prop' !! "attr" = prop !! "attr"
   | None, None => True
   | _, _ => False
   end) ->
  setData self' w index v role = setData self w index v role.
Proof.
  intros Hobj Hprop.
  destruct (isValid index) eqn:Hvalid; [|by rewrite !setData_invalid].
  destruct (getObject self index) as [obj|] eqn:Ho; cycle 1.
  { rewrite !setData_missing; auto. }
  destruct (getProperty self index) as [prop|] eqn:Hp,
           (getProperty self' index) as [prop'|] eqn:Hp'; try done; cycle 1.
  { rewrite !setData_missing; auto. }
  destruct Hprop as [Haction Hattr].
  rewrite (setData_present self' w index v role obj prop'),
          (setData_present self w index v role obj prop) by done.
  unfold get_prop_attr, dict_getitem. by rewrite Haction, Hattr.
Qed.

(** X4: [setData] never looks at the ['mode'] of a descriptor: with the
    mode of every descriptor replaced by any value it returns the same
    and leaves the same store, so a "Read Only" property is written like
    any other. *)
Theorem setData_ignores_mode (self : ObjectListTableModelQt) (mode : value) (w : store)
  (index : QModelIndex) (v : value) (role : Z) :
  setData (with_mode mode self) w index v role = setData self w index v role.
Proof.
  apply setData_reads_action_attr; [done|].
  unfold getProperty, with_mode. simpl.
  destruct (negb (isValid index)); [done|].
  set (propertyIndex := if isRowObjects self then column index else row index).
  unfold py_getitem, py_position, py_len. rewrite length_fmap.
  repeat case_decide; try done; rewrite list_lookup_fmap;
    (destruct (properties self !! _); simpl; [|done]);
    by rewrite !lookup_insert_ne.
Qed.

(** X5: on a cell of a property whose action is "button", [setData]
    does not look at the value or at the role: any two calls at the index
    give the same answer and the same store.  What it does is look the
    attribute up and call it: it answers [True] with the store the call
    leaves, and [False] when the lookup or the call raises; it assigns
    nothing itself. *)
Theorem setData_button_ignores_value_and_role (self : ObjectListTableModelQt) (w : store)
  (index : QModelIndex) (prop : gmap string value) :
  getProperty self index = Some prop ->
  prop !! "action" = Some (VStr "button") ->
  (forall v role v' role',
     setData self w index v role = setData self w index v' role')
  /\ (forall obj v role,
        getObject self index = Some obj ->
        setData self w index v role
        = match (f ← get_prop_attr (heap w) (VRef obj) prop; py_call w f) with
          | Ok w' => (VBool true, w')
          | Raise _ => (VBool false, w)
          end).
Proof.
  intros Hprop Hbutton.
  assert (isValid index = true) as Hvalid.
  { unfold getProperty in Hprop. by destruct (isValid index). }
  assert (forall obj v role,
            getObject self index = Some obj ->
            setData self w index v role
            = match (f ← get_prop_attr (heap w) (VRef obj) prop; py_call w f) with
              | Ok w' => (VBool true, w')
              | Raise _ => (VBool false, w)
              end) as Hcall.
  { intros obj v role Ho.
    rewrite (setData_present self w index v role obj prop) by done.
    by rewrite decide_True. }
  split; [|done].
  intros v role v' role'.
  destruct (getObject self index) as [obj|] eqn:Ho.
  - by rewrite !(Hcall obj).
  - rewrite !setData_missing; auto.
Qed.

(** The button of the first row of the small table. *)
Lemma setData_button_ignores_value_and_role_witness :
  (forall v role v' role',
     setData ex_model ex_store (ex_index 0 3) v role
     = setData ex_model ex_store (ex_index 0 3) v' role')
  /\ (forall obj v role,
        getObject ex_model (ex_index 0 3) = Some obj ->
        setData ex_model ex_store (ex_index 0 3) v role
        = match (f ← get_prop_attr (heap ex_store) (VRef obj)
                       {[ "attr" := VStr "clicked"; "header" := VStr "Button";
                          "action" := VStr "button"; "text" := VStr "Click Me!" ]};
                 py_call ex_store f) with
          | Ok w' => (VBool true, w')
          | Raise _ => (VBool false, ex_store)
          end).
Proof.
  apply (setData_button_ignores_value_and_role ex_model ex_store (ex_index 0 3)).
  - reflexivity.
  - vm_compute. reflexivity.
Defined.

Lemma getattr_insert_other (h : gmap nat (gmap string slot)) l o' obj name :
  obj <> VRef l -> getattr (<[l := o']> h) obj name = getattr h obj name.
Proof.
  intros Hne. destruct obj; try done. simpl.
  rewrite lookup_insert_ne; [done|congruence].
Qed.

Lemma setattr_Ok (h h' : gmap nat (gmap string slot)) target leaf v :
  setattr h target leaf v = Ok h' ->
  exists l o, target = VRef l /\ h !! l = Some o /\ h' = <[l := <[leaf := Attr v]> o]> h.
Proof.
  destruct target; try done. simpl. intros Hset.
  destruct (h !! l) as [o|] eqn:Hl; [|done].
  exists l, o. split_and!; [done..|].
  destruct (o !! leaf) as [[]|]; congruence.
Qed.

Lemma setattr_plain (h : gmap nat (gmap string slot)) l o a v :
  h !! l = Some o -> (forall e, o !! a <> Some (Raising e)) ->
  setattr h (VRef l) a v = Ok (<[l := <[a := Attr v]> o]> h).
Proof.
  intros Hl Hplain. unfold setattr. rewrite Hl.
  destruct (o !! a) as [[|e]|] eqn:Ha; try done. by destruct (Hplain e).
Qed.

(** A write to an object the path does not read from leaves the path as
    it was. *)
Lemma getattr_path_frame (h : gmap nat (gmap string slot)) l o' names : forall obj,
  VRef l ∉ path_objects h obj names ->
  getattr_path (<[l := o']> h) obj names = getattr_path h obj names.
Proof.
  induction names as [|a names IH]; intros obj Hnot; [done|].
  simpl in *. apply not_elem_of_cons in Hnot as [Hne Hnot].
  rewrite getattr_insert_other by done.
  destruct (getattr h obj a) as [obj'|]; [|done]. simpl. by apply IH.
Qed.

Lemma getattr_path_app h names leaf : forall obj,
  getattr_path h obj (names ++ [leaf])
    = (target ← getattr_path h obj names; getattr h target leaf).
Proof.
  induction names as [|a names IH]; intros obj; simpl.
  - by destruct (getattr h obj leaf).
  - destruct (getattr h obj a); [simpl; apply IH|done].
Qed.

Lemma setattr_getattr_path (h h' : gmap nat (gmap string slot)) obj names leaf target v :
  getattr_path h obj names = Ok target ->
  target ∉ path_objects h obj names ->
  setattr h target leaf v = Ok h' ->
  getattr_path h' obj (names ++ [leaf]) = Ok v.
Proof.
  intros Hpath Hnot Hset.
  destruct (setattr_Ok _ _ _ _ _ Hset) as (l & o & -> & Hl & ->).
  rewrite getattr_path_app, getattr_path_frame, Hpath by done. simpl.
  by rewrite !lookup_insert_eq.
Qed.

(** X6: a cell whose path [a1. ... .an.leaf] leads through plain
    attributes to an object [l], without reading an attribute of [l] on
    the way, and whose last name is a plain attribute of [l], or none
    yet, with no property behind it: [setData] with the edit role returns
    [True], sets that attribute and nothing else, and [data] then returns
    the value written, for the display and the edit role. *)
Theorem setData_then_data (self : ObjectListTableModelQt) (w : store)
  (index : QModelIndex) (v : value) (obj : loc) (prop : gmap string value)
  (names : list string) (leaf : string) (l : loc) (o : gmap string slot) :
  isValid index = true ->
  getObject self index = Some obj ->
  getProperty self index = Some prop ->
  prop !! "action" <> Some (VStr "button") ->
  prop !! "attr" = Some (VStr (dotted (names ++ [leaf]))) ->
  Forall dotless names -> dotless leaf ->
  getattr_path (heap w) (VRef obj) names = Ok (VRef l) ->
  VRef l ∉ path_objects (heap w) (VRef obj) names ->
  heap w !! l = Some o ->
  plain_attribute o leaf ->
  let w' := {| heap := <[l := <[leaf := Attr v]> o]> (heap w); called := called w |} in
  setData self w index v EditRole = (VBool true, w')
  /\ data self w' index DisplayRole = v
  /\ data self w' index EditRole = v.
Proof.
  intros Hvalid Hobj Hprop Haction Hattr Hnames Hleaf Hpath Hnot Hl Hplain w'.
  subst w'. set (h' := <[l := <[leaf := Attr v]> o]> (heap w)).
  assert (setattr (heap w) (VRef l) leaf v = Ok h') as Hset.
  { apply setattr_plain; [done|]. intros e He.
    destruct Hplain as [Hnone|[x Hx]]; congruence. }
  assert (setAttrRecursive (heap w) (VRef obj) (dotted (names ++ [leaf])) v = Ok h') as Hw.
  { assert (setattr_path (heap w) (VRef obj) names leaf v = Ok h') as Hsp
      by (unfold setattr_path; by rewrite Hpath).
    rewrite setAttrRecursive_path; [done..|]. by rewrite Hsp. }
  assert (getAttrRecursive h' (VRef obj) (dotted (names ++ [leaf])) = Ok v) as Hr.
  { pose proof (setattr_getattr_path _ _ _ _ _ _ _ Hpath Hnot Hset) as Hget.
    rewrite getAttrRecursive_path; [done..|]. by rewrite Hget. }
  split.
  - rewrite (setData_present self w index v EditRole obj prop) by done.
    rewrite decide_False, decide_True by done.
    unfold dict_getitem. rewrite Hattr. simpl. by rewrite Hw.
  - unfold data, get_prop_attr, dict_getitem. rewrite Hvalid, Hobj, Hprop, Hattr. simpl.
    by rewrite Hr.
Qed.

(** The integer of the child of the second row of the small table. *)
Lemma setData_then_data_witness :
  let w' := {| heap := <[4 := <["intValue" := Attr (VInt 9)]> (ex_object "obj B" (-1) None)]>
                         (heap ex_store);
               called := called ex_store |} in
  setData ex_model ex_store (ex_index 1 4) (VInt 9) EditRole = (VBool true, w')
  /\ data ex_model w' (ex_index 1 4) DisplayRole = VInt 9
  /\ data ex_model w' (ex_index 1 4) EditRole = VInt 9.
Proof.
  eapply (setData_then_data ex_model ex_store (ex_index 1 4) (VInt 9) 3 _
            ["child"%string] "intValue" 4 (ex_object "obj B" (-1) None)).
  - reflexivity.
  - reflexivity.
  - reflexivity.
  - vm_compute. discriminate.
  - vm_compute. reflexivity.
  - repeat constructor.
  - reflexivity.
  - reflexivity.
  - simpl. rewrite list_elem_of_singleton. discriminate.
  - reflexivity.
  - right. eexists. vm_compute. reflexivity.
Defined.

(** ** A [ValueError] of the last name *)

(** X8: on a path [a.b] whose last attribute raises [ValueError], the
    nested lookup and the nested assignment raise it, while
    [getAttrRecursive] and [setAttrRecursive] fall back on the attribute
    named "a.b", dot included, of the object [a] leads to; when it has
    none, the first raises [AttributeError] and the second creates it and
    returns. *)
Theorem ValueError_of_leaf_is_handled (h : gmap loc (gmap string slot)) (obj : value)
  (a b : string) (v : value) (l : loc) (o : gmap string slot) :
  dotless a -> dotless b ->
  getattr h obj a = Ok (VRef l) ->
  h !! l = Some o ->
  o !! b = Some (Raising ValueError) ->
  let whole := (a ++ "." ++ b)%string in
  getattr_path h obj [a; b] = Raise ValueError
  /\ setattr_path h obj [a] b v = Raise ValueError
  /\ getAttrRecursive h obj whole = getattr h (VRef l) whole
  /\ setAttrRecursive h obj whole v = setattr h (VRef l) whole v
  /\ (o !! whole = None ->
      getAttrRecursive h obj whole = Raise AttributeError
      /\ setAttrRecursive h obj whole v = Ok (<[l := <[whole := Attr v]> o]> h)).
Proof.
  intros Ha Hb Hget Hl Hslot whole.
  assert (getattr h (VRef l) b = Raise ValueError) as Hgb
    by (unfold getattr; by rewrite Hl, Hslot).
  assert (setattr h (VRef l) b v = Raise ValueError) as Hsb
    by (unfold setattr; by rewrite Hl, Hslot).
  assert (getAttrRecursive h obj whole = getattr h (VRef l) whole) as Hgr.
  { unfold whole. rewrite (getAttrRecursive_dot _ _ _ (String.length a))
      by (by apply index_dot_app).
    rewrite str_before_app, str_after_app, Hget.
    rewrite getAttrRecursive_dotless, Hgb by done. unfold try_except.
    by rewrite decide_True. }
  assert (setAttrRecursive h obj whole v = setattr h (VRef l) whole v) as Hsr.
  { unfold whole. rewrite (setAttrRecursive_dot _ _ _ _ (String.length a))
      by (by apply index_dot_app).
    rewrite str_before_app, str_after_app, Hget.
    rewrite setAttrRecursive_dotless, Hsb by done. unfold try_except.
    by rewrite decide_True. }
  split_and!; try done.
  - cbn [getattr_path]. rewrite Hget. cbn [mbind result_bind]. by rewrite Hgb.
  - unfold setattr_path. cbn [getattr_path]. rewrite Hget. cbn [mbind result_bind]. done.
  - intros Hnone. rewrite Hgr, Hsr. unfold getattr, setattr. by rewrite Hl, Hnone.
Qed.

(** The path "child.locked" in the store of the locked child. *)
Lemma ValueError_of_leaf_is_handled_witness :
  let whole := ("child" ++ "." ++ "locked")%string in
  getattr_path ex_locked (VRef 1) ["child"; "locked"]%string = Raise ValueError
  /\ setattr_path ex_locked (VRef 1) ["child"%string] "locked" (VInt 9) = Raise ValueError
  /\ getAttrRecursive ex_locked (VRef 1) whole = getattr ex_locked (VRef 2) whole
  /\ setAttrRecursive ex_locked (VRef 1) whole (VInt 9)
     = setattr ex_locked (VRef 2) whole (VInt 9)
  /\ (({[ "locked" := Raising ValueError ]} : gmap string slot) !! whole = None ->
      getAttrRecursive ex_locked (VRef 1) whole = Raise AttributeError
      /\ setAttrRecursive ex_locked (VRef 1) whole (VInt 9)
         = Ok (<[2 := <[whole := Attr (VInt 9)]> {[ "locked" := Raising ValueError ]}]>
                 ex_locked)).
Proof.
  apply (ValueError_of_leaf_is_handled ex_locked (VRef 1) "child" "locked" (VInt 9) 2).
  - reflexivity.
  - reflexivity.
  - reflexivity.
  - reflexivity.
  - reflexivity.
Defined.

(** ** What [moveObjects] keeps *)

Lemma del_loop_sublist (indices : list Z) : forall (objs : list nat) r objs',
  del_loop indices objs = (r, objs') -> objs' `sublist_of` objs.
Proof.
  induction indices as [|i indices IH]; intros objs r objs' Hrun; simpl in Hrun.
  { by injection Hrun as <- <-. }
  unfold py_delitem in Hrun. destruct (py_position objs i) as [n|].
  - apply IH in Hrun. etrans; [done|]. apply sublist_delete.
  - by injection Hrun as <- <-.
Qed.

Lemma py_insert_Permutation {A} (l : list A) (i : Z) (x : A) : py_insert l i x ≡ₚ x :: l.
Proof.
  unfold py_insert. rewrite <- Permutation_middle. by rewrite take_drop.
Qed.

Lemma reinsert_loop_Permutation moveToIndex (xs : list nat) : forall k objs,
  reinsert_loop moveToIndex k xs objs ≡ₚ xs ++ objs.
Proof.
  induction xs as [|x xs IH]; intros k objs; simpl; [done|].
  rewrite IH, py_insert_Permutation. by rewrite Permutation_middle.
Qed.

Lemma mapM_py_getitem_elem (objs : list nat) (indices : list Z) : forall moved,
  mapM (py_getitem objs) indices = Ok moved -> Forall (fun x => x ∈ objs) moved.
Proof.
  induction indices as [|i indices IH]; intros moved; simpl.
  - by intros [= <-].
  - destruct (py_getitem objs i) as [y|] eqn:Hy; [simpl|done].
    change (mapM (py_getitem objs) indices ≫= (fun k0 => mret (y :: k0)) = Ok moved
            -> Forall (fun x => x ∈ objs) moved).
    destruct (mapM (py_getitem objs) indices) as [k0|]; [simpl|done].
    intros [= <-]. constructor; [|by apply IH].
    unfold py_getitem in Hy. destruct (py_position objs i) as [n|]; [|done].
    destruct (objs !! n) eqn:Hn; [|done]. injection Hy as ->.
    by eapply list_elem_of_lookup_2.
Qed.

(** X9: whatever the indices, [moveObjects] keeps the descriptors and the
    template, and every object of the list it leaves was in the list
    before; when it returns [True] the list is as long as before, when
    it returns [False] the list is a sublist of the one before. *)
Theorem moveObjects_never_adds (self : ObjectListTableModelQt) (indices : list Z)
  (moveToIndex : Z) :
  let r := moveObjects self indices moveToIndex in
  properties r.2 = properties self
  /\ templateObject r.2 = templateObject self
  /\ (forall x, x ∈ objects r.2 -> x ∈ objects self)
  /\ (r.1 = true -> length (objects r.2) = length (objects self))
  /\ (r.1 = false -> objects r.2 `sublist_of` objects self).
Proof.
  intros r. subst r. unfold moveObjects.
  case_bool_decide as Hlen; [by split_and!|].
  destruct (mapM _ _) as [moved|] eqn:Hmoved; [|by split_and!].
  pose proof (mapM_py_getitem_elem _ _ _ Hmoved) as Helem.
  apply mapM_result_length in Hmoved. rewrite length_fmap in Hmoved.
  destruct (del_loop _ _) as [e objs'] eqn:Hdel.
  pose proof (del_loop_sublist _ _ _ _ Hdel) as Hsub.
  apply del_loop_length in Hdel. rewrite length_reverse, length_fmap in Hdel.
  destruct e as [e|]; simpl.
  - split_and!; [done..| |done|done].
    intros x Hx. by eapply elem_of_sublist.
  - split_and!; [done..| | |done].
    + intros x Hx. rewrite reinsert_loop_Permutation in Hx.
      apply elem_of_app in Hx as [Hx|Hx].
      * by apply (proj1 (Forall_forall _ _) Helem).
      * by eapply elem_of_sublist.
    + intros _. rewrite length_reinsert_loop. lia.
Qed.

(** ** The selection *)

Lemma StronglySorted_le_lt (l : list Z) :
  StronglySorted Z.le l -> NoDup l -> StronglySorted Z.lt l.
Proof.
  induction 1 as [|x l Hl IH Hx]; intros Hnd; [constructor|].
  apply NoDup_cons in Hnd as [Hnot Hnd].
  constructor; [by apply IH|].
  apply Forall_forall. intros y Hy.
  pose proof (proj1 (Forall_forall _ _) Hx y Hy).
  assert (x <> y) by (intros ->; done). lia.
Qed.

Lemma py_sorted_spec (s : gset Z) :
  StronglySorted Z.lt (View.py_sorted s) /\ forall x, x ∈ View.py_sorted s <-> x ∈ s.
Proof.
  unfold View.py_sorted.
  pose proof (merge_sort_Permutation Z.le (elements s)) as Hperm.
  split.
  - apply StronglySorted_le_lt; [apply (StronglySorted_merge_sort Z.le)|].
    rewrite Hperm. apply NoDup_elements.
  - intros x. by rewrite Hperm, elem_of_elements.
Qed.

Lemma foldl_add_spec {A} (f : A -> Z) (l : list A) : forall (s : gset Z) x,
  x ∈ foldl (fun (s : gset Z) a => s ∪ {[f a]}) s l <-> x ∈ s \/ exists a, a ∈ l /\ f a = x.
Proof.
  induction l as [|a l IH]; intros s x; simpl.
  - split; [by left|]. intros [|(a & Ha & _)]; [done|]. by apply elem_of_nil in Ha.
  - rewrite IH, elem_of_union, elem_of_singleton. split.
    + intros [[Hx| ->]|(b & Hb & <-)]; [by left|right..].
      * exists a. split; [left|done].
      * exists b. split; [by right|done].
    + intros [|(b & Hb & <-)]; [by left; left|].
      apply elem_of_cons in Hb as [ -> |Hb]; [left; by right|].
      right. by exists b.
Qed.

(** X10: [selectedRows] and [selectedColumns] are strictly increasing,
    so free of repeats, and hold exactly the rows, or the columns, of the
    selected indexes. *)
Theorem selectedRows_sorted_distinct (selectedIndexes : list QModelIndex) :
  StronglySorted Z.lt (View.selectedRows selectedIndexes)
  /\ StronglySorted Z.lt (View.selectedColumns selectedIndexes)
  /\ (forall r, r ∈ View.selectedRows selectedIndexes
                <-> exists index, index ∈ selectedIndexes /\ row index = r)
  /\ (forall c, c ∈ View.selectedColumns selectedIndexes
                <-> exists index, index ∈ selectedIndexes /\ column index = c).
Proof.
  unfold View.selectedRows, View.selectedColumns.
  split_and!; try apply py_sorted_spec.
  - intros r. rewrite (proj2 (py_sorted_spec _)), foldl_add_spec.
    split; [intros [Hr|]; [by apply not_elem_of_empty in Hr|done]|by right].
  - intros c. rewrite (proj2 (py_sorted_spec _)), foldl_add_spec.
    split; [intros [Hc|]; [by apply not_elem_of_empty in Hc|done]|by right].
Qed.

Lemma selectedObjectIndices_spec model selectedIndexes :
  StronglySorted Z.lt (View.selectedObjectIndices model selectedIndexes)
  /\ forall i, i ∈ View.selectedObjectIndices model selectedIndexes
               <-> exists index, index ∈ selectedIndexes
                                 /\ (if isRowObjects model then row index else column index) = i.
Proof.
  unfold View.selectedObjectIndices, View.selectedRows, View.selectedColumns.
  destruct (isRowObjects model); (split; [apply py_sorted_spec|]);
    intros i; rewrite (proj2 (py_sorted_spec _)), foldl_add_spec;
    (split; [intros [Hr|]; [by apply not_elem_of_empty in Hr|done]|by right]).
Qed.

(** ** Removing and moving the selection *)

(** One round of the loop of [removeSelectedObjects] at an index of the
    list. *)
Lemma removeObjects_one (self : ObjectListTableModelQt) (i : nat) :
  i < length (objects self) ->
  removeObjects self (Z.of_nat i) 1 =
    Ok (true,
        {| objects := delete i (objects self);
           properties := properties self;
           isRowObjects := isRowObjects self;
           isDynamic := isDynamic self;
           templateObject :=
             match templateObject self with
             | Some t => Some t
             | None => if decide (length (objects self) = 1) then head (objects self)
                       else None
             end |}).
Proof.
  intros Hi. pose proof (removeObjects_cases self (Z.of_nat i) 1) as Hcases.
  cbn zeta in Hcases. rewrite Hcases. clear Hcases.
  rewrite decide_False by (intros [Hnil|]; [rewrite Hnil in Hi; simpl in Hi|]; lia).
  rewrite clamp_in_range by lia. rewrite Nat2Z.id.
  replace (Z.to_nat 1 `min` (length (objects self) - i)) with 1 by lia.
  do 3 f_equal.
  - rewrite delete_take_drop. do 2 f_equal. lia.
  - destruct (templateObject self); [done|].
    repeat case_decide; try done; lia.
Qed.

Lemma remove_loop_increasing (indices : list Z) : forall model,
  StronglySorted Z.lt indices ->
  Forall (fun i => 0 <= i < py_len (objects model))%Z indices ->
  exists model',
    View.remove_loop (reverse indices) model = Ok model'
    /\ del_loop (reverse indices) (objects model) = (None, objects model')
    /\ properties model' = properties model
    /\ isRowObjects model' = isRowObjects model
    /\ isDynamic model' = isDynamic model
    /\ templateObject model' =
         match templateObject model with
         | Some t => Some t
         | None => if decide (length indices = length (objects model))
                   then head (objects model) else None
         end.
Proof.
  induction indices as [|i indices IH] using rev_ind; intros model Hsorted Hrange.
  { exists model. simpl. split_and!; try done.
    destruct (templateObject model); [done|]. case_decide as Hlen; [|done].
    by destruct (objects model). }
  apply StronglySorted_app in Hsorted as (Hlt & Hsorted & _).
  rewrite Forall_app, Forall_singleton in Hrange. destruct Hrange as [Hrange Hi].
  unfold py_len in Hi.
  rewrite reverse_snoc. cbn [View.remove_loop del_loop].
  replace (removeObjects model i 1) with (removeObjects model (Z.of_nat (Z.to_nat i)) 1)
    by (rewrite Z2Nat.id; [done|lia]).
  rewrite removeObjects_one by lia. cbn [mbind result_bind].
  rewrite py_delitem_in_range by (unfold py_len; lia).
  set (model1 := {| objects := delete (Z.to_nat i) (objects model) |}).
  destruct (IH model1 Hsorted) as (model' & Hrun & Hdel & Hprops & Hrow & Hdyn & Ht).
  { apply Forall_forall. intros j Hj.
    pose proof (proj1 (Forall_forall _ _) Hrange j Hj) as Hj0.
    pose proof (Hlt j i Hj ltac:(by left)) as Hji.
    unfold py_len, model1 in *. simpl.
    rewrite length_delete by (apply lookup_lt_is_Some_2; lia). lia. }
  exists model'. split_and!; try done.
  rewrite Ht. unfold model1. simpl. clear Ht Hrun Hdel.
  destruct (templateObject model) as [t|]; [done|].
  rewrite length_app. simpl.
  rewrite length_delete by (apply lookup_lt_is_Some_2; lia).
  destruct (decide (length (objects model) = 1)) as [Hone|Hmore].
  - assert (indices = []) as ->.
    { destruct indices as [|j indices]; [done|].
      pose proof (proj1 (Forall_forall _ _) Hrange j ltac:(by left)).
      pose proof (Hlt j i ltac:(by left) ltac:(by left)). unfold py_len in *. simpl in *. lia. }
    destruct (objects model) as [|x [|y l]]; simpl in *; try lia. done.
  - repeat case_decide; try done; try lia.
    assert (0 < Z.to_nat i) as Hpos.
    { destruct indices as [|j indices]; [simpl in *; lia|].
      pose proof (proj1 (Forall_forall _ _) Hrange j ltac:(by left)).
      pose proof (Hlt j i ltac:(by left) ltac:(by left)). unfold py_len in *. simpl in *. lia. }
    destruct (Z.to_nat i); [lia|]. by destruct (objects model).
Qed.

(** X11: when the selected indexes lie on objects of the list,
    [removeSelectedObjects] raises nothing and removes the objects at the
    selected places, one for each, and leaves the others in their order;
    the descriptors stay, and the template is the one there was or, when
    every object is selected with none, the first object. *)
Theorem removeSelectedObjects_removes_selection (model : ObjectListTableModelQt)
  (selectedIndexes : list QModelIndex) :
  Forall (fun index =>
            0 <= (if isRowObjects model then row index else column index)
              < py_len (objects model))%Z selectedIndexes ->
  let indices := View.selectedObjectIndices model selectedIndexes in
  exists model' removed,
    View.removeSelectedObjects model selectedIndexes = Ok model'
    /\ Forall2 (fun i x => objects model !! Z.to_nat i = Some x) indices removed
    /\ objects model ≡ₚ removed ++ objects model'
    /\ objects model' `sublist_of` objects model
    /\ length (objects model') = length (objects model) - length indices
    /\ properties model' = properties model
    /\ isRowObjects model' = isRowObjects model
    /\ isDynamic model' = isDynamic model
    /\ templateObject model' =
         match templateObject model with
         | Some t => Some t
         | None => if decide (length indices = length (objects model))
                   then head (objects model) else None
         end.
Proof.
  intros Hsel indices.
  destruct (selectedObjectIndices_spec model selectedIndexes) as [Hsorted Hmem].
  fold indices in Hsorted, Hmem.
  assert (Forall (fun i => 0 <= i < py_len (objects model))%Z indices) as Hrange.
  { apply Forall_forall. intros i Hi. apply Hmem in Hi as (index & Hin & <-).
    by apply (proj1 (Forall_forall _ _) Hsel). }
  destruct (remove_loop_increasing indices model Hsorted Hrange)
    as (model' & Hrun & Hdel & Hprops & Hrow & Hdyn & Ht).
  destruct (mapM_py_getitem (objects model) indices Hrange) as (removed & _ & HF).
  destruct (del_loop_increasing indices (objects model) removed Hsorted Hrange HF)
    as (rest & Hdel' & Hperm & Hsub).
  rewrite Hdel in Hdel'. injection Hdel' as <-.
  exists model', removed. split_and!; try done.
  apply (f_equal length) in Hperm || apply Permutation_length in Hperm.
  rewrite length_app in Hperm. apply Forall2_length in HF. lia.
Qed.

(** Both rows of the small table selected. *)
Lemma removeSelectedObjects_removes_selection_witness :
  exists model' removed,
    View.removeSelectedObjects ex_model ex_selection = Ok model'
    /\ Forall2 (fun i x => objects ex_model !! Z.to_nat i = Some x)
         (View.selectedObjectIndices ex_model ex_selection) removed
    /\ objects ex_model ≡ₚ removed ++ objects model'
    /\ objects model' `sublist_of` objects ex_model
    /\ length (objects model')
       = length (objects ex_model) - length (View.selectedObjectIndices ex_model ex_selection)
    /\ properties model' = properties ex_model
    /\ isRowObjects model' = isRowObjects ex_model
    /\ isDynamic model' = isDynamic ex_model
    /\ templateObject model' =
         match templateObject ex_model with
         | Some t => Some t
         | None =>
             if decide (length (View.selectedObjectIndices ex_model ex_selection)
                        = length (objects ex_model))
             then head (objects ex_model) else None
         end.
Proof.
  apply (removeSelectedObjects_removes_selection ex_model ex_selection).
  repeat constructor; unfold py_len; simpl; lia.
Defined.

(** X12: with two objects or more, selected indexes that lie on objects
    of the list and an answer of the dialog between 1 and the number of
    objects, [moveSelectedObjects] takes the selected objects out and
    puts them back in a row, in their order, at place [moveToIndex - 1]
    of the others: the list is a permutation of the one before.  When
    the dialog is cancelled nothing changes. *)
Theorem moveSelectedObjects_rearranges (model : ObjectListTableModelQt)
  (selectedIndexes : list QModelIndex) (moveToIndex : Z) :
  2 <= length (objects model) ->
  Forall (fun index =>
            0 <= (if isRowObjects model then row index else column index)
              < py_len (objects model))%Z selectedIndexes ->
  (1 <= moveToIndex <= py_len (objects model))%Z ->
  let indices := View.selectedObjectIndices model selectedIndexes in
  let m := Z.to_nat (moveToIndex - 1) in
  exists moved rest,
    Forall2 (fun i x => objects model !! Z.to_nat i = Some x) indices moved
    /\ rest `sublist_of` objects model
    /\ objects model ≡ₚ moved ++ rest
    /\ View.moveSelectedObjects model selectedIndexes moveToIndex true
       = set_objects model (take m rest ++ moved ++ drop m rest)
    /\ take m rest ++ moved ++ drop m rest ≡ₚ objects model
    /\ View.moveSelectedObjects model selectedIndexes moveToIndex false = model.
Proof.
  intros Hlen Hsel Hto indices m.
  destruct (selectedObjectIndices_spec model selectedIndexes) as [Hsorted Hmem].
  fold indices in Hsorted, Hmem.
  assert (Forall (fun i => 0 <= i < py_len (objects model))%Z indices) as Hrange.
  { apply Forall_forall. intros i Hi. apply Hmem in Hi as (index & Hin & <-).
    by apply (proj1 (Forall_forall _ _) Hsel). }
  unfold View.moveSelectedObjects. fold indices. unfold moveObjects.
  rewrite bool_decide_eq_false_2 by (unfold py_len; lia).
  assert (((fun idx => clamp idx (py_len (objects model) - 1)) <$> indices) = indices)
    as ->.
  { rewrite <- (list_fmap_id indices) at 2. apply Forall_fmap_ext_1.
    eapply Forall_impl; [done|]. intros i Hi. apply clamp_in_range.
    unfold py_len, id in *. simpl in Hi. lia. }
  rewrite (clamp_in_range (moveToIndex - 1)) by lia.
  rewrite (clamp_in_range (moveToIndex - 1)) by lia.
  destruct (mapM_py_getitem (objects model) indices Hrange) as (moved & -> & HF).
  destruct (del_loop_increasing indices (objects model) moved Hsorted Hrange HF)
    as (rest & -> & Hperm & Hsub).
  exists moved, rest.
  assert (take m rest ++ moved ++ drop m rest ≡ₚ objects model) as Hres.
  { rewrite Hperm. rewrite (Permutation_app_comm moved rest).
    rewrite <- (take_drop m rest) at 3. rewrite <- (assoc_L (++)).
    apply Permutation_app_head, Permutation_app_comm. }
  split_and!; try done.
  simpl. f_equal.
  rewrite <- (take_drop m rest) at 1.
  apply (reinsert_loop_consecutive (moveToIndex - 1) moved 0 (take m rest) [] (drop m rest));
    [|done].
  rewrite take_drop, length_take. lia.
Qed.

(** The first row of the small table, moved to index 2. *)
Lemma moveSelectedObjects_rearranges_witness :
  exists moved rest,
    Forall2 (fun i x => objects ex_model !! Z.to_nat i = Some x)
      (View.selectedObjectIndices ex_model [ex_index 0 1]) moved
    /\ rest `sublist_of` objects ex_model
    /\ objects ex_model ≡ₚ moved ++ rest
    /\ View.moveSelectedObjects ex_model [ex_index 0 1] 2 true
       = set_objects ex_model (take (Z.to_nat (2 - 1)) rest ++ moved
                               ++ drop (Z.to_nat (2 - 1)) rest)
    /\ take (Z.to_nat (2 - 1)) rest ++ moved ++ drop (Z.to_nat (2 - 1)) rest
       ≡ₚ objects ex_model
    /\ View.moveSelectedObjects ex_model [ex_index 0 1] 2 false = ex_model.
Proof.
  apply (moveSelectedObjects_rearranges ex_model [ex_index 0 1] 2).
  - simpl. lia.
  - repeat constructor; unfold py_len; simpl; lia.
  - unfold py_len. simpl. lia.
Defined.

(** X13: with nothing selected, the four slots that insert at the
    selection raise [IndexError], which nothing catches, while
    [removeSelectedObjects], [moveSelectedObjects] and
    [setPropertyForAllObjects] change nothing. *)
Theorem empty_selection_slots (model : ObjectListTableModelQt) (w : store) (num : Z) :
  View.insertObjectBeforeSelectedObjects model w [] = Raise IndexError
  /\ View.insertObjectAfterSelectedObjects model w [] = Raise IndexError
  /\ View.insertObjectsBeforeSelectedObjects model w [] num true = Raise IndexError
  /\ View.insertObjectsAfterSelectedObjects model w [] num true = Raise IndexError
  /\ View.removeSelectedObjects model [] = Ok model
  /\ (forall moveToIndex ok, View.moveSelectedObjects model [] moveToIndex ok = model)
  /\ (forall dialog, View.setPropertyForAllObjects model w [] dialog = w).
Proof.
  assert (forall model, View.selectedObjectIndices model [] = []) as Hnone
    by (intros m; unfold View.selectedObjectIndices; destruct (isRowObjects m);
        vm_compute; reflexivity).
  split_and!.
  - unfold View.insertObjectBeforeSelectedObjects. by rewrite Hnone.
  - unfold View.insertObjectAfterSelectedObjects. by rewrite Hnone.
  - unfold View.insertObjectsBeforeSelectedObjects. by rewrite Hnone.
  - unfold View.insertObjectsAfterSelectedObjects. by rewrite Hnone.
  - unfold View.removeSelectedObjects. by rewrite Hnone.
  - intros moveToIndex [|]; [|done]. unfold View.moveSelectedObjects, moveObjects.
    rewrite Hnone. case_bool_decide; [done|]. simpl. by destruct model.
  - intros dialog. unfold View.setPropertyForAllObjects, View.selectedPropertyIndices.
    assert (View.selectedRows [] = []) as Hrows by (vm_compute; reflexivity).
    assert (View.selectedColumns [] = []) as Hcols by (vm_compute; reflexivity).
    rewrite Hrows, Hcols. by destruct (isRowObjects model).
Qed.

(** ** Inserting at the selection *)

Lemma py_range_one (a : Z) : py_range a 1 = [a].
Proof. unfold py_range. simpl. f_equal. lia. Qed.

Lemma py_insert_at {A} (l : list A) (i : nat) (x : A) :
  i <= length l -> py_insert l (Z.of_nat i) x = take i l ++ x :: drop i l.
Proof.
  intros Hi. unfold py_insert.
  by rewrite py_bound_in_range, Nat2Z.id by (unfold py_len; lia).
Qed.

(** [insertObjects(i, 1)] at a place of the list, in full: it copies the
    template or, without one, the object at [i] (the last one when [i]
    is the end of the list), and does nothing when there is neither. *)
Lemma insertObjects_one (model : ObjectListTableModelQt) (w : store) (i : nat) :
  i <= length (objects model) ->
  insertObjects model w (Z.of_nat i) 1 =
    match (match templateObject model with
           | Some t => Some t
           | None => objects model !! (i `min` (length (objects model) - 1))
           end) with
    | Some src =>
        let '(h', c) := deepcopy (heap w) src in
        Ok (true, set_objects model (take i (objects model) ++ c :: drop i (objects model)),
            {| heap := h'; called := called w |})
    | None => Ok (false, model, w)
    end.
Proof.
  intros Hi. unfold insertObjects.
  rewrite (bool_decide_eq_false_2 (1 <= 0)%Z), orb_false_r by lia.
  rewrite clamp_in_range by (unfold py_len; lia). rewrite py_range_one.
  cbn [insert_loop].
  destruct (templateObject model) as [t|] eqn:Ht.
  - rewrite (bool_decide_eq_false_2 (Some t = None)), andb_false_r by done.
    destruct (deepcopy (heap w) t) as [h' c]. cbn [mbind result_bind].
    by rewrite py_insert_at.
  - rewrite (bool_decide_eq_true_2 (None = None)), andb_true_r by done.
    destruct (decide (length (objects model) = 0)) as [Hnil|Hpos].
    { rewrite bool_decide_eq_true_2 by (unfold py_len; lia).
      destruct (objects model); [|done]. by destruct i. }
    rewrite (bool_decide_eq_false_2 (py_len (objects model) = 0)%Z) by (unfold py_len; lia).
    rewrite (bool_decide_eq_true_2 (py_len (objects model) <> 0)%Z) by (unfold py_len; lia).
    assert (clamp (Z.of_nat i) (py_len (objects model) - 1)
            = Z.of_nat (i `min` (length (objects model) - 1))) as ->
      by (unfold clamp, py_len; lia).
    destruct (lookup_lt_is_Some_2 (objects model) (i `min` (length (objects model) - 1)))
      as [src Hsrc]; [lia|].
    rewrite (py_getitem_lookup _ _ _ Hsrc), Hsrc. cbn [mbind result_bind].
    destruct (deepcopy (heap w) src) as [h' c]. cbn [mbind result_bind].
    by rewrite py_insert_at.
Qed.

(** X14: when the selected indexes lie on objects of the list, with [lo]
    the least and [hi] the greatest selected place,
    [insertObjectBeforeSelectedObjects] puts one new object at [lo] and
    [insertObjectAfterSelectedObjects] one at [hi + 1].  The new object is
    a [deepcopy] of the template or, without one, of the object that
    stood at the place of insertion (the last one, at the end of the
    list): of the first selected object for the one, of the object
    behind the last selected for the other. *)
Theorem insertObject_at_selection (model : ObjectListTableModelQt) (w : store)
  (selectedIndexes : list QModelIndex) (lo hi : Z) :
  Forall (fun index =>
            0 <= (if isRowObjects model then row index else column index)
              < py_len (objects model))%Z selectedIndexes ->
  head (View.selectedObjectIndices model selectedIndexes) = Some lo ->
  last (View.selectedObjectIndices model selectedIndexes) = Some hi ->
  let objs := objects model in
  let source (i : nat) :=
    match templateObject model with
    | Some t => Some t
    | None => objs !! (i `min` (length objs - 1))
    end in
  let inserted (i : nat) (r : result (ObjectListTableModelQt * store)) :=
    exists src, source i = Some src
      /\ r = Ok (set_objects model (take i objs ++ (deepcopy (heap w) src).2 :: drop i objs),
                 {| heap := (deepcopy (heap w) src).1; called := called w |}) in
  (forall index, index ∈ selectedIndexes ->
     lo <= (if isRowObjects model then row index else column index) <= hi)%Z
  /\ inserted (Z.to_nat lo) (View.insertObjectBeforeSelectedObjects model w selectedIndexes)
  /\ inserted (Z.to_nat hi + 1) (View.insertObjectAfterSelectedObjects model w selectedIndexes).
Proof.
  intros Hsel Hhead Hlast objs source inserted.
  destruct (selectedObjectIndices_spec model selectedIndexes) as [Hsorted Hmem].
  remember (View.selectedObjectIndices model selectedIndexes) as indices eqn:Hindices.
  assert (Forall (fun i => 0 <= i < py_len objs)%Z indices) as Hrange.
  { apply Forall_forall. intros i Hi. apply Hmem in Hi as (index & Hin & <-).
    by apply (proj1 (Forall_forall _ _) Hsel). }
  assert (lo ∈ indices) as Hlo by (destruct indices; [done|injection Hhead as ->; by left]).
  assert (hi ∈ indices) as Hhi.
  { destruct indices as [|x l] using rev_ind; [done|].
    rewrite last_snoc in Hlast. injection Hlast as ->. apply elem_of_app. right. by left. }
  pose proof (proj1 (Forall_forall _ _) Hrange lo Hlo) as Hlo_range.
  pose proof (proj1 (Forall_forall _ _) Hrange hi Hhi) as Hhi_range.
  unfold py_len in Hlo_range, Hhi_range.
  assert (objs <> []) as Hne by (intros Hnil; rewrite Hnil in Hlo_range; simpl in *; lia).
  assert (forall i, i <= length objs -> exists src, source i = Some src) as Hsource.
  { intros i Hi. unfold source. destruct (templateObject model); [eauto|].
    apply lookup_lt_is_Some_2. destruct objs; [done|simpl in *; lia]. }
  assert (forall i, i <= length objs ->
            inserted i ('(_, model', w') ← insertObjects model w (Z.of_nat i) 1;
                        Ok (model', w'))) as Hins.
  { intros i Hi. destruct (Hsource i Hi) as [src Hsrc]. exists src. split; [done|].
    rewrite insertObjects_one by done. fold objs. unfold source in Hsrc. rewrite Hsrc.
    by destruct (deepcopy (heap w) src). }
  split_and!.
  - intros index Hin.
    assert ((if isRowObjects model then row index else column index) ∈ indices) as Hi
      by (apply Hmem; eauto).
    split.
    + destruct indices as [|x l]; [done|]. injection Hhead as ->.
      apply elem_of_cons in Hi as [->|Hi]; [lia|].
      apply StronglySorted_inv in Hsorted as [_ Hall].
      pose proof (proj1 (Forall_forall _ _) Hall _ Hi). lia.
    + destruct indices as [|x l _] using rev_ind; [done|].
      rewrite last_snoc in Hlast. injection Hlast as ->.
      apply elem_of_app in Hi as [Hi|Hi]; [|apply list_elem_of_singleton in Hi; lia].
      apply StronglySorted_app in Hsorted as (Hlt & _ & _).
      pose proof (Hlt _ hi Hi ltac:(by left)). lia.
  - unfold View.insertObjectBeforeSelectedObjects. rewrite <- Hindices.
    assert (py_getitem indices 0 = Ok lo) as ->.
    { destruct indices; [done|]. injection Hhead as ->. done. }
    cbn [mbind result_bind].
    pose proof (Hins (Z.to_nat lo) ltac:(lia)) as Hrun.
    by rewrite Z2Nat.id in Hrun by lia.
  - unfold View.insertObjectAfterSelectedObjects. rewrite <- Hindices.
    assert (py_getitem indices (-1) = Ok hi) as ->.
    { destruct indices as [|x l _] using rev_ind; [done|].
      rewrite last_snoc in Hlast. injection Hlast as ->.
      unfold py_getitem, py_position, py_len. rewrite length_app. simpl.
      rewrite decide_True by lia.
      replace (Z.to_nat (Z.of_nat (length l + 1) + -1)) with (length l) by lia.
      by rewrite lookup_app_r, Nat.sub_diag by lia. }
    cbn [mbind result_bind].
    replace (hi + 1)%Z with (Z.of_nat (Z.to_nat hi + 1)) by lia.
    apply Hins. lia.
Qed.

(** Both rows of the small table selected. *)
Lemma insertObject_at_selection_witness :
  let objs := objects ex_model in
  let source (i : nat) :=
    match templateObject ex_model with
    | Some t => Some t
    | None => objs !! (i `min` (length objs - 1))
    end in
  let inserted (i : nat) (r : result (ObjectListTableModelQt * store)) :=
    exists src, source i = Some src
      /\ r = Ok (set_objects ex_model
                   (take i objs ++ (deepcopy (heap ex_store) src).2 :: drop i objs),
                 {| heap := (deepcopy (heap ex_store) src).1; called := called ex_store |}) in
  (forall index, index ∈ ex_selection ->
     0 <= (if isRowObjects ex_model then row index else column index) <= 1)%Z
  /\ inserted (Z.to_nat 0)
       (View.insertObjectBeforeSelectedObjects ex_model ex_store ex_selection)
  /\ inserted (Z.to_nat 1 + 1)
       (View.insertObjectAfterSelectedObjects ex_model ex_store ex_selection).
Proof.
  apply (insertObject_at_selection ex_model ex_store ex_selection 0 1).
  - repeat constructor; unfold py_len; simpl; lia.
  - vm_compute. reflexivity.
  - vm_compute. reflexivity.
Defined.

(** X15: under the same condition and with a count of one or more from
    the dialog, [insertObjectsBeforeSelectedObjects] puts that many new
    objects in a row at [lo] and [insertObjectsAfterSelectedObjects] at
    [hi + 1]; when the dialog is cancelled neither changes anything. *)
Theorem insertObjects_at_selection (model : ObjectListTableModelQt) (w : store)
  (selectedIndexes : list QModelIndex) (num lo hi : Z) :
  Forall (fun index =>
            0 <= (if isRowObjects model then row index else column index)
              < py_len (objects model))%Z selectedIndexes ->
  head (View.selectedObjectIndices model selectedIndexes) = Some lo ->
  last (View.selectedObjectIndices model selectedIndexes) = Some hi ->
  (1 <= num)%Z ->
  let objs := objects model in
  let inserted (i : nat) (r : result (ObjectListTableModelQt * store)) :=
    exists news w',
      r = Ok (set_objects model (take i objs ++ news ++ drop i objs), w')
      /\ length news = Z.to_nat num
      /\ called w' = called w in
  inserted (Z.to_nat lo)
    (View.insertObjectsBeforeSelectedObjects model w selectedIndexes num true)
  /\ inserted (Z.to_nat hi + 1)
       (View.insertObjectsAfterSelectedObjects model w selectedIndexes num true)
  /\ View.insertObjectsBeforeSelectedObjects model w selectedIndexes num false = Ok (model, w)
  /\ View.insertObjectsAfterSelectedObjects model w selectedIndexes num false = Ok (model, w).
Proof.
  intros Hsel Hhead Hlast Hnum objs inserted.
  destruct (selectedObjectIndices_spec model selectedIndexes) as [Hsorted Hmem].
  remember (View.selectedObjectIndices model selectedIndexes) as indices eqn:Hindices.
  assert (Forall (fun i => 0 <= i < py_len objs)%Z indices) as Hrange.
  { apply Forall_forall. intros i Hi. apply Hmem in Hi as (index & Hin & <-).
    by apply (proj1 (Forall_forall _ _) Hsel). }
  assert (lo ∈ indices) as Hlo by (destruct indices; [done|injection Hhead as ->; by left]).
  assert (hi ∈ indices) as Hhi.
  { destruct indices as [|x l] using rev_ind; [done|].
    rewrite last_snoc in Hlast. injection Hlast as ->. apply elem_of_app. right. by left. }
  pose proof (proj1 (Forall_forall _ _) Hrange lo Hlo) as Hlo_range.
  pose proof (proj1 (Forall_forall _ _) Hrange hi Hhi) as Hhi_range.
  unfold py_len in Hlo_range, Hhi_range.
  assert (insertable model) as Hok.
  { left. fold objs. intros Hnil. rewrite Hnil in Hlo_range. simpl in *. lia. }
  assert (forall i : nat, i <= length objs ->
            inserted i ('(_, model', w') ← insertObjects model w (Z.of_nat i) num;
                        Ok (model', w'))) as Hins.
  { intros i Hi.
    destruct (insertObjects_possible model w (Z.of_nat i) num Hok ltac:(lia))
      as (model' & w' & Hrun & _).
    destruct (insertObjects_places _ _ _ _ _ _ _ Hrun eq_refl)
      as (_ & _ & news & Hlen & -> & Hcalled).
    rewrite Hrun. cbn [mbind result_bind]. exists news, w'.
    rewrite clamp_in_range, Nat2Z.id by (unfold py_len; fold objs; lia). done. }
  split_and!; [| |done|done].
  - unfold View.insertObjectsBeforeSelectedObjects. rewrite <- Hindices.
    assert (py_getitem indices 0 = Ok lo) as ->.
    { destruct indices; [done|]. injection Hhead as ->. done. }
    cbn [mbind result_bind].
    pose proof (Hins (Z.to_nat lo) ltac:(lia)) as Hrun.
    by rewrite Z2Nat.id in Hrun by lia.
  - unfold View.insertObjectsAfterSelectedObjects. rewrite <- Hindices.
    assert (py_getitem indices (-1) = Ok hi) as ->.
    { destruct indices as [|x l _] using rev_ind; [done|].
      rewrite last_snoc in Hlast. injection Hlast as ->.
      unfold py_getitem, py_position, py_len. rewrite length_app. simpl.
      rewrite decide_True by lia.
      replace (Z.to_nat (Z.of_nat (length l + 1) + -1)) with (length l) by lia.
      by rewrite lookup_app_r, Nat.sub_diag by lia. }
    cbn [mbind result_bind].
    replace (hi + 1)%Z with (Z.of_nat (Z.to_nat hi + 1)) by lia.
    apply Hins. lia.
Qed.

(** Three objects at the selection of both rows of the small table. *)
Lemma insertObjects_at_selection_witness :
  let objs := objects ex_model in
  let inserted (i : nat) (r : result (ObjectListTableModelQt * store)) :=
    exists news w',
      r = Ok (set_objects ex_model (take i objs ++ news ++ drop i objs), w')
      /\ length news = Z.to_nat 3
      /\ called w' = called ex_store in
  inserted (Z.to_nat 0)
    (View.insertObjectsBeforeSelectedObjects ex_model ex_store ex_selection 3 true)
  /\ inserted (Z.to_nat 1 + 1)
       (View.insertObjectsAfterSelectedObjects ex_model ex_store ex_selection 3 true)
  /\ View.insertObjectsBeforeSelectedObjects ex_model ex_store ex_selection 3 false
     = Ok (ex_model, ex_store)
  /\ View.insertObjectsAfterSelectedObjects ex_model ex_store ex_selection 3 false
     = Ok (ex_model, ex_store).
Proof.
  apply (insertObjects_at_selection ex_model ex_store ex_selection 3 0 1).
  - repeat constructor; unfold py_len; simpl; lia.
  - vm_compute. reflexivity.
  - vm_compute. reflexivity.
  - lia.
Defined.

(** ** Appending, and the menu of the property header *)

(** [appendObject] in full: it copies the template or, without one, the
    last object, and does nothing when there is neither. *)
Lemma appendObject_cases (model : ObjectListTableModelQt) (w : store) :
  View.appendObject model w =
    match (match templateObject model with
           | Some t => Some t
           | None => last (objects model)
           end) with
    | Some src =>
        let '(h', c) := deepcopy (heap w) src in
        Ok (set_objects model (objects model ++ [c]),
            {| heap := h'; called := called w |})
    | None => Ok (model, w)
    end.
Proof.
  unfold View.appendObject, View.insertObject, py_len.
  rewrite insertObjects_one by done.
  rewrite last_lookup.
  replace (length (objects model) `min` (length (objects model) - 1))
    with (pred (length (objects model))) by lia.
  destruct (match templateObject model with
            | Some t => Some t
            | None => objects model !! pred (length (objects model))
            end) as [src|]; [|done].
  destruct (deepcopy (heap w) src) as [h' c]. cbn [mbind result_bind].
  by rewrite take_ge, drop_ge by lia.
Qed.

(** X16: [appendObject] does nothing on an empty list without template.
    Otherwise, in a store without dangling references, it adds one object
    at the end of the list: a deep copy of the template or, without one,
    of the last object, at a location that was not in use, with the
    objects of the store before left as they were. *)
Theorem appendObject_appends_copy (model : ObjectListTableModelQt) (w : store) :
  (templateObject model = None -> objects model = [] ->
   View.appendObject model w = Ok (model, w))
  /\ (forall src,
        match templateObject model with
        | Some t => Some t
        | None => last (objects model)
        end = Some src ->
        closed (heap w) -> src ∈ dom (heap w) ->
        exists c h',
          View.appendObject model w
            = Ok (set_objects model (objects model ++ [c]),
                  {| heap := h'; called := called w |})
          /\ deep_copy_of (heap w) src h' c
          /\ (c ∉ dom (heap w))
          /\ heap w ⊆ h').
Proof.
  rewrite appendObject_cases. split.
  - by intros -> ->.
  - intros src -> Hclosed Hdom.
    pose proof (deepcopy_deep_copy_of (heap w) src Hclosed Hdom) as Hcopy.
    pose proof (deepcopy_fresh (heap w) src Hdom) as [Hfresh _].
    pose proof (deepcopy_extends (heap w) src) as Hext.
    destruct (deepcopy (heap w) src) as [h' c]. by exists c, h'.
Qed.

(** X17: the menu of the property header.  With two objects or more it
    holds the one action "Set All In Selected ...", connected to
    [setPropertyForAllObjects]; with no object and a template the one
    action "Add Object ...", connected to [appendObject], which then
    leaves a list of one object, a deep copy of the template; with
    exactly one object, or with none and no template, no menu is shown. *)
Theorem propertyHeaderMenu_offers (model : ObjectListTableModelQt) :
  match View.getPropertyHeaderContextMenu model with
  | Some [View.Action text View.SlotSetPropertyForAllObjects] =>
      2 <= length (objects model)
      /\ text = (if isRowObjects model then "Set All In Selected Column"
                 else "Set All In Selected Row")%string
  | Some [View.Action text View.SlotAppendObject] =>
      objects model = []
      /\ text = (if isRowObjects model then "Add Object Row" else "Add Object Column")%string
      /\ exists t, templateObject model = Some t
         /\ forall w, closed (heap w) -> t ∈ dom (heap w) ->
              exists c h',
                View.appendObject model w
                  = Ok (set_objects model [c], {| heap := h'; called := called w |})
                /\ deep_copy_of (heap w) t h' c
  | Some _ => False
  | None =>
      length (objects model) = 1 \/ (objects model = [] /\ templateObject model = None)
  end.
Proof.
  unfold View.getPropertyHeaderContextMenu.
  case_bool_decide as Hmany.
  { split; [unfold py_len in Hmany; lia|]. by destruct (isRowObjects model). }
  case_bool_decide as Hnone; simpl.
  - destruct (templateObject model) as [t|] eqn:Ht; simpl.
    + assert (objects model = []) as Hnil
        by (destruct (objects model); [done|unfold py_len in Hnone; simpl in Hnone; lia]).
      split_and!; [done|by destruct (isRowObjects model)|].
      exists t. split; [done|]. intros w Hclosed Hdom.
      rewrite appendObject_cases, Ht, Hnil. cbn [app].
      pose proof (deepcopy_deep_copy_of (heap w) t Hclosed Hdom) as Hcopy.
      destruct (deepcopy (heap w) t) as [h' c]. by exists c, h'.
    + right. split; [|done].
      destruct (objects model); [done|unfold py_len in Hnone; simpl in Hnone; lia].
  - left. unfold py_len in *. lia.
Qed.

(** X18: after [clearObjects] on a list that was not empty, the list is
    empty, the template is the one there was or else the former first
    object, the menu of the property header offers "Add Object", and
    [appendObject] leaves a list of one object, a deep copy of that
    template. *)
Theorem clearObjects_then_appendObject (model : ObjectListTableModelQt) (w : store)
  (first : loc) :
  head (objects model) = Some first ->
  closed (heap w) ->
  Forall (fun l => l ∈ dom (heap w)) (objects model) ->
  (forall t, templateObject model = Some t -> t ∈ dom (heap w)) ->
  let src := default first (templateObject model) in
  exists cleared text c h',
    View.clearObjects model = Ok cleared
    /\ objects cleared = []
    /\ templateObject cleared = Some src
    /\ View.getPropertyHeaderContextMenu cleared
       = Some [View.Action text View.SlotAppendObject]
    /\ View.appendObject cleared w
       = Ok (set_objects cleared [c], {| heap := h'; called := called w |})
    /\ deep_copy_of (heap w) src h' c.
Proof.
  intros Hfirst Hclosed Hobjs Htemplate src.
  assert (objects model <> []) as Hne by (by destruct (objects model)).
  destruct (clearObjects_total model) as (cleared & Hclear & _ & Hcleared).
  destruct (Hcleared Hne) as [Hnil Ht]. clear Hcleared.
  assert (templateObject cleared = Some src) as Hsrc.
  { rewrite Ht. unfold src. by destruct (templateObject model). }
  assert (src ∈ dom (heap w)) as Hdom.
  { unfold src. destruct (templateObject model) as [t|] eqn:Hsome; simpl; [by apply Htemplate|].
    destruct (objects model) as [|x l]; [done|]. injection Hfirst as ->.
    by apply Forall_cons in Hobjs as [? _]. }
  pose proof (deepcopy_deep_copy_of (heap w) src Hclosed Hdom) as Hcopy.
  eexists cleared, _, (deepcopy (heap w) src).2, (deepcopy (heap w) src).1.
  split_and!; [done|done|done| | |done].
  - unfold View.getPropertyHeaderContextMenu. rewrite Hnil, Hsrc. simpl. done.
  - rewrite appendObject_cases, Hsrc, Hnil. cbn [app].
    by destruct (deepcopy (heap w) src).
Qed.

(** The small table, cleared. *)
Lemma clearObjects_then_appendObject_witness :
  exists cleared text c h',
    View.clearObjects ex_model = Ok cleared
    /\ objects cleared = []
    /\ templateObject cleared = Some (default 1 (templateObject ex_model))
    /\ View.getPropertyHeaderContextMenu cleared
       = Some [View.Action text View.SlotAppendObject]
    /\ View.appendObject cleared ex_store
       = Ok (set_objects cleared [c], {| heap := h'; called := called ex_store |})
    /\ deep_copy_of (heap ex_store) (default 1 (templateObject ex_model)) h' c.
Proof.
  apply (clearObjects_then_appendObject ex_model ex_store 1).
  - reflexivity.
  - apply closedb_closed. vm_compute. reflexivity.
  - repeat constructor; apply elem_of_dom; eexists; reflexivity.
  - intros t [=].
Defined.

(** ** The context menus of the headers *)

Lemma assign_delegate_headers model w i prop view :
  let view' := assign_delegate model w i prop view in
  horizontalPolicy view' = horizontalPolicy view
  /\ verticalPolicy view' = verticalPolicy view
  /\ horizontalHandlers view' = horizontalHandlers view
  /\ verticalHandlers view' = verticalHandlers view.
Proof.
  unfold assign_delegate.
  repeat (case_match || case_bool_decide); by destruct (isRowObjects model).
Qed.

Lemma assign_delegates_headers model w props : forall i view,
  let view' := assign_delegates model w i props view in
  horizontalPolicy view' = horizontalPolicy view
  /\ verticalPolicy view' = verticalPolicy view
  /\ horizontalHandlers view' = horizontalHandlers view
  /\ verticalHandlers view' = verticalHandlers view.
Proof.
  induction props as [|prop props IH]; intros i view; [done|].
  simpl. destruct (IH (S i) (assign_delegate model w i prop view)) as (-> & -> & -> & ->).
  apply assign_delegate_headers.
Qed.

(** X19: after [setModel] the header of the properties has a custom
    context menu, with [getPropertyHeaderContextMenu] connected once
    more; the header of the objects has one, with
    [getObjectHeaderContextMenu] connected once more, when the model is
    dynamic, and none, with no new connection, when it is not. *)
Theorem setModel_header_menus (view : ObjectListTableViewQt)
  (model : ObjectListTableModelQt) (w : store) :
  let view' := setModel view model w in
  let propertyHeader (v : ObjectListTableViewQt) :=
    if isRowObjects model then (horizontalPolicy v, horizontalHandlers v)
    else (verticalPolicy v, verticalHandlers v) in
  let objectHeader (v : ObjectListTableViewQt) :=
    if isRowObjects model then (verticalPolicy v, verticalHandlers v)
    else (horizontalPolicy v, horizontalHandlers v) in
  propertyHeader view'
    = (CustomContextMenu, (propertyHeader view).2 ++ [getPropertyHeaderContextMenu])
  /\ objectHeader view'
     = if isDynamic model
       then (CustomContextMenu, (objectHeader view).2 ++ [getObjectHeaderContextMenu])
       else (NoContextMenu, (objectHeader view).2).
Proof.
  intros view' propertyHeader objectHeader.
  subst view' propertyHeader objectHeader. unfold setModel.
  destruct (assign_delegates_headers model w (properties model) 0
              (set_delegate_lists [] [] [] view)) as (_ & _ & Hh & Hv).
  simpl in Hh, Hv.
  destruct (isDynamic model), (isRowObjects model); simpl; by rewrite ?Hh, ?Hv.
Qed.

(** ** Setting a property of all objects *)

(** The cell of object [k] and property [p], whichever way the table
    lies. *)
Lemma index_cell (model : ObjectListTableModelQt) (k p : nat) obj prop :
  objects model !! k = Some obj ->
  properties model !! p = Some prop ->
  let index := View.index model
                 (if isRowObjects model then Z.of_nat k else Z.of_nat p)
                 (if isRowObjects model then Z.of_nat p else Z.of_nat k) in
  isValid index = true /\ getObject model index = Some obj
  /\ getProperty model index = Some prop.
Proof.
  intros Hobj Hprop index.
  pose proof (lookup_lt_Some _ _ _ Hobj) as Hk.
  pose proof (lookup_lt_Some _ _ _ Hprop) as Hp.
  assert (index = {| row := if isRowObjects model then Z.of_nat k else Z.of_nat p;
                     column := if isRowObjects model then Z.of_nat p else Z.of_nat k;
                     has_model := true |}) as Hindex.
  { subst index. unfold View.index, rowCount, columnCount, py_len.
    destruct (isRowObjects model);
      rewrite !bool_decide_eq_true_2 by lia; done. }
  assert (isValid index = true) as Hvalid.
  { rewrite Hindex. unfold isValid. simpl.
    destruct (isRowObjects model); by rewrite !bool_decide_eq_true_2 by lia. }
  split; [done|].
  rewrite getObject_valid, getProperty_valid by done. rewrite Hindex. simpl.
  destruct (isRowObjects model); by rewrite !Nat2Z.id.
Qed.

Lemma data_cell_of model w index obj prop a role :
  isValid index = true -> getObject model index = Some obj ->
  getProperty model index = Some prop ->
  prop !! "attr" = Some (VStr a) -> dotless a ->
  role = DisplayRole \/ role = EditRole ->
  data model w index role = cell_of (heap w) obj a.
Proof.
  intros Hvalid Hobj Hprop Hattr Hdot Hrole.
  unfold data, get_prop_attr, dict_getitem, cell_of.
  rewrite Hvalid, Hobj, Hprop, Hattr. simpl.
  rewrite bool_decide_eq_true_2 by done.
  by rewrite getAttrRecursive_dotless.
Qed.

Lemma cell_of_insert (h : gmap nat (gmap string slot)) l o a v l' :
  h !! l = Some o ->
  cell_of (<[l := <[a := Attr v]> o]> h) l' a
    = if decide (l' = l) then v else cell_of h l' a.
Proof.
  intros Hl. unfold cell_of, getattr. case_decide as Heq.
  - subst l'. by rewrite !lookup_insert_eq.
  - by rewrite lookup_insert_ne.
Qed.

(** The rounds of the loop behind the first write [value] to the
    attribute of each object in turn. *)
Lemma set_all_loop_writes (model : ObjectListTableModelQt) (prop : gmap string value)
  (p : nat) (a : string) (value : value) :
  properties model !! p = Some prop ->
  prop !! "attr" = Some (VStr a) -> dotless a ->
  prop !! "action" <> Some (VStr "button") ->
  prop !! "action" <> Some (VStr "fileDialog") ->
  forall (rest done : list nat) (w : store),
  objects model = done ++ rest -> done <> [] ->
  Forall (fun l => exists o, heap w !! l = Some o /\ forall e, o !! a <> Some (Raising e))
    (objects model) ->
  Forall (fun l => cell_of (heap w) l a = value) done ->
  let w' := View.set_all_loop model prop (Z.of_nat p) (Z.of_nat (length done)) rest value w in
  called w' = called w
  /\ Forall (fun l => cell_of (heap w') l a = value) (objects model)
  /\ (forall l name, l ∉ rest \/ name <> a ->
        heap w' !! l ≫= (fun o => o !! name) = heap w !! l ≫= (fun o => o !! name)).
Proof.
  intros Hprop Hattr Hdot Hbutton Hfile.
  induction rest as [|obj rest IH]; intros done w Hobjs Hdone Hplain Hcells; simpl.
  { rewrite app_nil_r in Hobjs. rewrite Hobjs. by split_and!. }
  assert (objects model !! length done = Some obj) as Hobj
    by (rewrite Hobjs; apply list_lookup_middle; done).
  assert (0 < length done) as Hpos by (destruct done; [done|simpl; lia]).
  rewrite bool_decide_eq_false_2 by lia.
  rewrite (bool_decide_eq_false_2 (dict_get prop "action" (VStr "") = VStr "fileDialog")).
  2:{ unfold dict_get. destruct (prop !! "action") as [x|] eqn:Hx; simpl; [|done].
      intros ->. done. }
  destruct (index_cell model (length done) p obj prop Hobj Hprop)
    as (Hvalid & Hgo & Hgp).
  cbn zeta in Hvalid, Hgo, Hgp.
  rewrite (setData_present model w _ value EditRole obj prop) by done.
  rewrite decide_False, decide_True by done.
  unfold dict_getitem. rewrite Hattr. cbn [mbind result_bind as_attr_path].
  rewrite setAttrRecursive_dotless by done.
  assert (obj ∈ objects model) as Hin by (by eapply list_elem_of_lookup_2).
  destruct (proj1 (Forall_forall _ _) Hplain obj Hin) as (o & Ho & Hslot).
  rewrite (setattr_plain _ _ o) by done. cbn [snd].
  set (w1 := {| heap := <[obj := <[a := Attr value]> o]> (heap w); called := called w |}).
  replace (Z.of_nat (length done) + 1)%Z with (Z.of_nat (length (done ++ [obj])))
    by (rewrite length_app; simpl; lia).
  destruct (IH (done ++ [obj]) w1) as (Hcalled & Hall & Hframe).
  - by rewrite <- (assoc_L (++)).
  - by destruct done.
  - apply Forall_forall. intros l Hl.
    destruct (proj1 (Forall_forall _ _) Hplain l Hl) as (o' & Ho' & Hslot').
    unfold w1. simpl. destruct (decide (l = obj)) as [->|Hne].
    + rewrite lookup_insert_eq. eexists. split; [done|]. intros e.
      by rewrite lookup_insert_eq.
    + rewrite lookup_insert_ne by done. eauto.
  - unfold w1. simpl. apply Forall_forall. intros l Hl.
    rewrite cell_of_insert by done. case_decide; [done|].
    apply elem_of_app in Hl as [Hl|Hl].
    + by apply (proj1 (Forall_forall _ _) Hcells).
    + apply list_elem_of_singleton in Hl. done.
  - split_and!; [done|done|].
    intros l name Hother. rewrite Hframe.
    2:{ destruct Hother as [Hl|]; [left|by right]. intros Hin'. apply Hl. by right. }
    unfold w1. simpl. destruct (decide (l = obj)) as [->|Hne].
    + rewrite lookup_insert_eq, Ho. simpl.
      destruct Hother as [Hl|Hname]; [destruct Hl; by left|].
      by rewrite lookup_insert_ne.
    + by rewrite lookup_insert_ne.
Qed.

(** X20: one property selected, of a known type, writable by its mode,
    neither a button nor a file dialog, with a dotless attribute that is,
    on every object of the list, a plain attribute or none yet, with no
    property behind it: after [setPropertyForAllObjects] the cell of that
    property shows, for every object, what it showed for the first object
    when the dialog closed.  No method is called, and no other attribute
    and no object outside the list is touched. *)
Theorem setPropertyForAllObjects_sets_all (model : ObjectListTableModelQt) (w : store)
  (selectedIndexes : list QModelIndex) (dialog : store -> store)
  (p : nat) (prop : gmap string value) (mode a : string) :
  View.selectedPropertyIndices model selectedIndexes = [Z.of_nat p] ->
  properties model !! p = Some prop ->
  propertyType model w (Z.of_nat p) <> VNone ->
  dict_get prop "mode" (VStr "Read/Write") = VStr mode ->
  str_contains "Write" mode = true ->
  prop !! "attr" = Some (VStr a) -> dotless a ->
  prop !! "action" <> Some (VStr "button") ->
  prop !! "action" <> Some (VStr "fileDialog") ->
  objects model <> [] ->
  Forall (fun l => exists o, heap (dialog w) !! l = Some o /\ plain_attribute o a)
    (objects model) ->
  let w' := View.setPropertyForAllObjects model w selectedIndexes dialog in
  let cell (k : nat) :=
    View.index model (if isRowObjects model then Z.of_nat k else Z.of_nat p)
      (if isRowObjects model then Z.of_nat p else Z.of_nat k) in
  called w' = called (dialog w)
  /\ (forall k, k < length (objects model) ->
        data model w' (cell k) DisplayRole = data model (dialog w) (cell 0) DisplayRole)
  /\ (forall l name, l ∉ objects model \/ name <> a ->
        heap w' !! l ≫= (fun o => o !! name)
          = heap (dialog w) !! l ≫= (fun o => o !! name)).
Proof.
  intros Hsel Hprop Hdtype Hmode Hwrite Hattr Hdot Hbutton Hfile Hne Hplain0 w' cell.
  assert (Forall (fun l => exists o, heap (dialog w) !! l = Some o
                                     /\ forall e, o !! a <> Some (Raising e))
            (objects model)) as Hplain.
  { eapply Forall_impl; [exact Hplain0|]. intros l (o & Hl & Hslot).
    exists o. split; [done|]. intros e He. destruct Hslot as [Hnone|[x Hx]]; congruence. }
  clear Hplain0.
  subst w'. unfold View.setPropertyForAllObjects. rewrite Hsel.
  rewrite bool_decide_eq_false_2 by (intros H; by apply H).
  change (py_getitem [Z.of_nat p] 0) with (Ok (A := Z) (Z.of_nat p)).
  cbn [mbind result_bind]. rewrite bool_decide_eq_false_2 by done.
  destruct (objects model) as [|first rest] eqn:Hobjs; [done|].
  change (py_getitem (first :: rest) 0) with (Ok (A := nat) first).
  cbn [mbind result_bind]. rewrite (py_getitem_lookup _ _ _ Hprop).
  cbn [mbind result_bind]. rewrite Hmode. cbn [py_contains mbind result_bind].
  rewrite Hwrite. cbn [negb try_except_all View.set_all_loop].
  rewrite bool_decide_eq_true_2 by done.
  assert (objects model !! 0 = Some first) as Hfirst by (by rewrite Hobjs).
  destruct (index_cell model 0 p first prop Hfirst Hprop) as (Hvalid & Hgo & Hgp).
  cbn zeta in Hvalid, Hgo, Hgp. fold (cell 0) in Hvalid, Hgo, Hgp |- *.
  set (w1 := dialog w) in *.
  set (value := data model w1 (cell 0) DisplayRole).
  assert (value = cell_of (heap w1) first a) as Hvalue
    by (subst value; eapply data_cell_of; eauto).
  rewrite <- Hobjs in Hplain.
  destruct (set_all_loop_writes model prop p a value Hprop Hattr Hdot Hbutton Hfile
              rest [first] w1) as (Hcalled & Hall & Hframe);
    [done|done|done|by constructor|].
  change (Z.of_nat (length [first])) with (0 + 1)%Z in Hcalled, Hall, Hframe.
  set (w' := View.set_all_loop model prop (Z.of_nat p) (0 + 1) rest value w1) in *.
  split_and!; [done| |].
  - intros k Hk.
    destruct (lookup_lt_is_Some_2 (objects model) k) as [obj Hobj];
      [by rewrite Hobjs|].
    destruct (index_cell model k p obj prop Hobj Hprop) as (Hvalid' & Hgo' & Hgp').
    cbn zeta in Hvalid', Hgo', Hgp'. fold (cell k) in Hvalid', Hgo', Hgp'.
    rewrite (data_cell_of model w' (cell k) obj prop a) by auto.
    apply (proj1 (Forall_forall _ _) Hall). by eapply list_elem_of_lookup_2.
  - intros l name Hother. apply Hframe.
    destruct Hother as [Hl|]; [left|by right]. intros Hin. apply Hl. by right.
Qed.

(** The integer column of the small table, set to 7 in the dialog. *)
Lemma setPropertyForAllObjects_sets_all_witness :
  let w' := View.setPropertyForAllObjects ex_model ex_store ex_selection ex_dialog in
  let cell (k : nat) :=
    View.index ex_model (if isRowObjects ex_model then Z.of_nat k else Z.of_nat 1)
      (if isRowObjects ex_model then Z.of_nat 1 else Z.of_nat k) in
  called w' = called (ex_dialog ex_store)
  /\ (forall k, k < length (objects ex_model) ->
        data ex_model w' (cell k) DisplayRole
        = data ex_model (ex_dialog ex_store) (cell 0) DisplayRole)
  /\ (forall l name, l ∉ objects ex_model \/ name <> "intValue"%string ->
        heap w' !! l ≫= (fun o => o !! name)
          = heap (ex_dialog ex_store) !! l ≫= (fun o => o !! name)).
Proof.
  eapply (setPropertyForAllObjects_sets_all ex_model ex_store ex_selection ex_dialog
            1 _ "Read/Write" "intValue").
  - vm_compute. reflexivity.
  - reflexivity.
  - vm_compute. discriminate.
  - reflexivity.
  - vm_compute. reflexivity.
  - vm_compute. reflexivity.
  - reflexivity.
  - vm_compute. discriminate.
  - vm_compute. discriminate.
  - discriminate.
  - repeat constructor.
    + eexists. split; [vm_compute; reflexivity|]. right. eexists. vm_compute. reflexivity.
    + eexists. split; [vm_compute; reflexivity|]. right. eexists. vm_compute. reflexivity.
Defined.

(** X21: [setPropertyForAllObjects] leaves the store as it is, and shows
    no dialog, when the selection does not hold exactly one property,
    when there is no object, when the type of the property is unknown,
    or when its mode does not hold "Write". *)
Theorem setPropertyForAllObjects_guards (model : ObjectListTableModelQt) (w : store)
  (selectedIndexes : list QModelIndex) (dialog : store -> store) :
  let selected := View.selectedPropertyIndices model selectedIndexes in
  length selected <> 1
  \/ objects model = []
  \/ (exists p, selected = [p]
        /\ (propertyType model w p = VNone
            \/ exists prop mode,
                 py_getitem (properties model) p = Ok prop
                 /\ dict_get prop "mode" (VStr "Read/Write") = VStr mode
                 /\ str_contains "Write" mode = false)) ->
  View.setPropertyForAllObjects model w selectedIndexes dialog = w.
Proof.
  intros selected Hguard. unfold View.setPropertyForAllObjects. fold selected.
  case_bool_decide as Hone; [done|].
  assert (length selected = 1) as Hlen by (unfold py_len in Hone; lia).
  destruct selected as [|p [|q selected]]; try done.
  change (py_getitem [p] 0) with (Ok (A := Z) p). cbn [mbind result_bind].
  case_bool_decide as Hdtype; [done|].
  destruct Hguard as [Hbad|[Hnil|(p' & [= <-] & [Hnone|(prop & mode & Hprop & Hmode & Hro)])]];
    try done.
  - rewrite Hnil. done.
  - destruct (py_getitem (objects model) 0) as [obj|]; [|done]. cbn [mbind result_bind].
    rewrite Hprop. cbn [mbind result_bind]. rewrite Hmode.
    cbn [py_contains mbind result_bind]. by rewrite Hro.
Qed.

(** The name column of the small table is read only. *)
Lemma setPropertyForAllObjects_guards_witness :
  View.setPropertyForAllObjects ex_model ex_store [ex_index 0 0] ex_dialog = ex_store.
Proof.
  apply (setPropertyForAllObjects_guards ex_model ex_store [ex_index 0 0] ex_dialog).
  right. right. exists 0%Z. split; [vm_compute; reflexivity|].
  right. eexists _, "Read Only"%string. split_and!.
  - reflexivity.
  - vm_compute. reflexivity.
  - vm_compute. reflexivity.
Defined.

(** ** A mode that is no string *)


(** ** Removing everything *)

(** X23: on a list that is not empty, [removeObjects] from an index of 0
    or below with a count of at least the length leaves the model
    [clearObjects] leaves: the empty list, with a template.  On that
    model [clearObjects] changes nothing and [removeObjects] returns
    [False]. *)
Theorem removeObjects_all_is_clearObjects (self : ObjectListTableModelQt) (i num : Z) :
  objects self <> [] -> (i <= 0)%Z -> (py_len (objects self) <= num)%Z ->
  exists cleared,
    clearObjects self = Ok cleared
    /\ removeObjects self i num = Ok (true, cleared)
    /\ objects cleared = []
    /\ clearObjects cleared = Ok cleared
    /\ removeObjects cleared i num = Ok (false, cleared).
Proof.
  intros Hne Hi Hnum.
  assert (0 < length (objects self)) as Hlen
    by (destruct (objects self); [done|simpl; lia]).
  pose proof (removeObjects_cases self i num) as Hrem. cbn zeta in Hrem.
  rewrite decide_False in Hrem by (unfold py_len in *; intros [|]; [done|lia]).
  assert (clamp i (Z.of_nat (length (objects self)) - 1) = 0%Z) as Hcl
    by (unfold clamp; lia).
  rewrite Hcl in Hrem. simpl in Hrem.
  replace (Z.to_nat num `min` (length (objects self) - Z.to_nat 0))
    with (length (objects self)) in Hrem by (unfold py_len in *; lia).
  rewrite drop_all, decide_True in Hrem by done.
  eexists. split_and!; [|exact Hrem|done| |].
  - unfold clearObjects.
    rewrite bool_decide_eq_true_2 by (unfold py_len; lia).
    destruct (templateObject self) as [t|] eqn:Ht.
    + cbn [mbind result_bind]. unfold set_objects. by rewrite Ht.
    + destruct (objects self) as [|first objs]; [done|]. done.
  - done.
  - unfold removeObjects. simpl. done.
Qed.

(** The small table, emptied from index -3 with a count of 7. *)
Lemma removeObjects_all_is_clearObjects_witness :
  exists cleared,
    clearObjects ex_model = Ok cleared
    /\ removeObjects ex_model (-3) 7 = Ok (true, cleared)
    /\ objects cleared = []
    /\ clearObjects cleared = Ok cleared
    /\ removeObjects cleared (-3) 7 = Ok (false, cleared).
Proof.
  apply (removeObjects_all_is_clearObjects ex_model (-3) 7).
  - discriminate.
  - lia.
  - unfold py_len. simpl. lia.
Defined.

(** ** Rows or columns *)

Lemma isValid_transpose_index index : isValid (transpose_index index) = isValid index.
Proof.
  unfold isValid, transpose_index. simpl.
  by destruct (bool_decide (0 <= row index)%Z), (bool_decide (0 <= column index)%Z).
Qed.

Lemma getObject_transpose self index :
  getObject (transpose self) (transpose_index index) = getObject self index.
Proof.
  unfold getObject. rewrite isValid_transpose_index. simpl.
  by destruct (isRowObjects self).
Qed.

Lemma getProperty_transpose self index :
  getProperty (transpose self) (transpose_index index) = getProperty self index.
Proof.
  unfold getProperty. rewrite isValid_transpose_index. simpl.
  by destruct (isRowObjects self).
Qed.

(** X24: [isRowObjects] only turns the table.  With the flag negated,
    [rowCount] and [columnCount] change places, [data] and [setData] do
    at the index across the diagonal what they did, [headerData] answers
    for the other orientation what it answered, and [insertObjects],
    [removeObjects] and [moveObjects] do to the list what they did. *)
Theorem transpose_turns_the_table (self : ObjectListTableModelQt) (w : store)
  (index : QModelIndex) (v : value) (role section : Z) (orientation : Orientation) :
  rowCount (transpose self) = columnCount self
  /\ columnCount (transpose self) = rowCount self
  /\ data (transpose self) w (transpose_index index) role = data self w index role
  /\ setData (transpose self) w (transpose_index index) v role = setData self w index v role
  /\ headerData (transpose self) section (transpose_orientation orientation) role
     = headerData self section orientation role
  /\ (forall i num,
        insertObjects (transpose self) w i num
        = '(b, self', w') ← insertObjects self w i num; Ok (b, transpose self', w'))
  /\ (forall i num,
        removeObjects (transpose self) i num
        = '(b, self') ← removeObjects self i num; Ok (b, transpose self'))
  /\ (forall indices moveToIndex,
        moveObjects (transpose self) indices moveToIndex
        = ((moveObjects self indices moveToIndex).1,
           transpose (moveObjects self indices moveToIndex).2)).
Proof.
  split_and!.
  - unfold rowCount, columnCount. simpl. by destruct (isRowObjects self).
  - unfold rowCount, columnCount. simpl. by destruct (isRowObjects self).
  - unfold data. by rewrite isValid_transpose_index, getObject_transpose, getProperty_transpose.
  - unfold setData.
    by rewrite isValid_transpose_index, getObject_transpose, getProperty_transpose.
  - unfold headerData. simpl.
    by destruct orientation, (isRowObjects self).
  - intros i num. unfold insertObjects. simpl.
    destruct (_ || _); [done|].
    destruct (insert_loop _ _ _ _) as [[objs h]|]; done.
  - intros i num. unfold removeObjects. simpl.
    destruct (_ || _); [done|].
    case_bool_decide; [|done].
    destruct (templateObject self) as [t|] eqn:Ht; [done|].
    destruct (py_getitem (objects self) 0); done.
  - intros indices moveToIndex. unfold moveObjects. simpl.
    case_bool_decide; [done|].
    destruct (mapM _ _); [|done].
    destruct (del_loop _ _) as [[e|] objs]; done.
Qed.

(** ** Writing to a copy *)

Lemma reaches_snoc (h : gmap nat (gmap string slot)) c l o a l1 :
  reaches h c l -> h !! l = Some o -> o !! a = Some (Attr (VRef l1)) -> reaches h c l1.
Proof.
  induction 1 as [l|l o' a' l1' l2 Hl Ha _ IH]; intros Ho Hattr.
  - eapply reaches_attr; [done..|]. constructor.
  - eapply reaches_attr; [done..|]. by apply IH.
Qed.

Lemma getattr_Ok_ref (h : gmap nat (gmap string slot)) obj a x :
  getattr h obj a = Ok x ->
  exists l o, obj = VRef l /\ h !! l = Some o /\ o !! a = Some (Attr x).
Proof.
  destruct obj; try done. simpl. intros Hget.
  destruct (h !! l) as [o|] eqn:Hl; [|done].
  destruct (o !! a) as [[y|]|] eqn:Ha; try done. injection Hget as ->. eauto.
Qed.





(** ** What an edit writes *)

Lemma plain_storeb_plain (h : gmap nat (gmap string slot)) :
  plain_storeb h = true -> plain_store h.
Proof.
  unfold plain_storeb. rewrite bool_decide_eq_true.
  intros H l o a Ho. unfold plain_attribute.
  destruct (o !! a) as [s|] eqn:Ha; [right|by left].
  specialize (H l o Ho a s Ha). simpl in H. destruct s; [eauto|done].
Qed.

(** On a store of plain attributes nothing raises [ValueError], so the
    handler of [setAttrRecursive] never runs for a recursive call. *)
Lemma getattr_plain_no_ValueError (h : gmap nat (gmap string slot)) obj a :
  plain_store h -> getattr h obj a <> Raise ValueError.
Proof.
  intros Hplain. destruct obj; try done. simpl.
  destruct (h !! l) as [o|] eqn:Hl; [|done].
  destruct (Hplain l o a Hl) as [->|[x ->]]; done.
Qed.

Lemma setattr_plain_no_ValueError (h : gmap nat (gmap string slot)) obj a v :
  plain_store h -> setattr h obj a v <> Raise ValueError.
Proof.
  intros Hplain. destruct obj; try done. simpl.
  destruct (h !! l) as [o|] eqn:Hl; [|done].
  destruct (Hplain l o a Hl) as [->|[x ->]]; done.
Qed.

Lemma setAttrRecursive_plain_no_ValueError (h : gmap nat (gmap string slot)) v :
  plain_store h ->
  forall n attr obj,
  String.length attr < n -> setAttrRecursive h obj attr v <> Raise ValueError.
Proof.
  intros Hplain. induction n as [|n IH]; intros attr obj Hlen; [lia|].
  destruct (String.index 0 "." attr) as [p|] eqn:Hdot.
  - rewrite (setAttrRecursive_dot _ _ _ _ p) by done.
    destruct (getattr h obj (str_before p attr)) as [obj'|e] eqn:Hget.
    + rewrite try_except_not_raised; apply (IH (str_after p attr) obj');
        pose proof (str_after_shorter p attr Hdot); lia.
    + assert (e <> ValueError) as He
        by (intros ->; by apply (getattr_plain_no_ValueError h obj (str_before p attr))).
      unfold try_except. rewrite decide_False by done. congruence.
  - rewrite setAttrRecursive_dotless by done. by apply setattr_plain_no_ValueError.
Qed.

(** On a store of plain attributes a successful [setAttrRecursive] sets
    the attribute of the last, dotless, name of the path, on an object
    the path leads to. *)
Lemma setAttrRecursive_plain_write (h h' : gmap nat (gmap string slot)) v c :
  plain_store h ->
  forall n attr obj,
  String.length attr < n ->
  (forall l, obj = VRef l -> reaches h c l) ->
  setAttrRecursive h obj attr v = Ok h' ->
  exists l o name,
    reaches h c l /\ h !! l = Some o /\ dotless name
    /\ h' = <[l := <[name := Attr v]> o]> h.
Proof.
  intros Hplain. induction n as [|n IH]; intros attr obj Hlen Hreach Hset; [lia|].
  destruct (String.index 0 "." attr) as [p|] eqn:Hdot.
  - rewrite (setAttrRecursive_dot _ _ _ _ p) in Hset by done.
    destruct (getattr h obj (str_before p attr)) as [obj'|e] eqn:Hget.
    + assert (forall l, obj' = VRef l -> reaches h c l) as Hreach'.
      { intros l1 ->. destruct (getattr_Ok_ref _ _ _ _ Hget) as (l & o & -> & Hl & Ha).
        eapply reaches_snoc; [by apply Hreach|done..]. }
      pose proof (str_after_shorter p attr Hdot) as Hshort.
      rewrite try_except_not_raised in Hset
        by (apply (setAttrRecursive_plain_no_ValueError h v Hplain n); lia).
      apply (IH (str_after p attr) obj'); [lia|done..].
    + assert (e <> ValueError) as He
        by (intros ->; by apply (getattr_plain_no_ValueError h obj (str_before p attr))).
      unfold try_except in Hset. by rewrite decide_False in Hset by done.
  - rewrite setAttrRecursive_dotless in Hset by done.
    destruct (setattr_Ok _ _ _ _ _ Hset) as (l & o & -> & Hl & ->).
    exists l, o, attr. split_and!; [by apply Hreach|done..].
Qed.

(** X7: on a store whose objects have plain attributes only, and on a
    cell that is no button: when [setData] does not return [True] the
    store is as it was; when it does, the role is the edit role, and the
    store differs in one attribute of one object that the object of the
    cell leads to, set to the value given, under a name without dot.  No
    method is called. *)
Theorem setData_writes_at_most_one_attribute (self : ObjectListTableModelQt) (w : store)
  (index : QModelIndex) (v : value) (role : Z) :
  plain_store (heap w) ->
  (forall prop, getProperty self index = Some prop ->
                prop !! "action" <> Some (VStr "button")) ->
  let r := setData self w index v role in
  (r.1 <> VBool true -> r.2 = w)
  /\ (r.1 = VBool true ->
      role = EditRole
      /\ exists obj l o name,
           getObject self index = Some obj
           /\ reaches (heap w) obj l
           /\ heap w !! l = Some o
           /\ dotless name
           /\ r.2 = {| heap := <[l := <[name := Attr v]> o]> (heap w);
                       called := called w |}).
Proof.
  intros Hplain Hbutton r. subst r.
  assert (forall x, x <> VBool true ->
            (((x, w).1 <> VBool true -> (x, w).2 = w)
             /\ ((x, w).1 = VBool true ->
                 role = EditRole
                 /\ exists obj l o name,
                      getObject self index = Some obj
                      /\ reaches (heap w) obj l
                      /\ heap w !! l = Some o
                      /\ dotless name
                      /\ (x, w).2 = {| heap := <[l := <[name := Attr v]> o]> (heap w);
                                       called := called w |}))) as Hrefused.
  { intros x Hx. split; [done|]. simpl. intros ->. done. }
  destruct (isValid index) eqn:Hvalid; [|rewrite setData_invalid by done; by apply Hrefused].
  destruct (getObject self index) as [obj|] eqn:Ho; cycle 1.
  { rewrite setData_missing by auto. by apply Hrefused. }
  destruct (getProperty self index) as [prop|] eqn:Hp; cycle 1.
  { rewrite setData_missing by auto. by apply Hrefused. }
  rewrite (setData_present self w index v role obj prop) by done.
  rewrite decide_False by (by apply Hbutton).
  destruct (decide (role = EditRole)) as [Hrole|]; [|by apply Hrefused].
  destruct (dict_getitem prop "attr") as [a|]; [simpl|by apply Hrefused].
  destruct (as_attr_path a) as [path|]; [simpl|by apply Hrefused].
  destruct (setAttrRecursive (heap w) (VRef obj) path v) as [h'|] eqn:Hset;
    [|by apply Hrefused].
  simpl. split; [done|]. intros _. split; [done|].
  destruct (setAttrRecursive_plain_write (heap w) h' v obj Hplain (S (String.length path))
              path (VRef obj)) as (l & o & name & Hreach & Hl & Hname & ->); [lia| |done|].
  { intros l [= <-]. constructor. }
  by exists obj, l, o, name.
Qed.

(** The integer of the child of the second row of the small table. *)
Lemma setData_writes_at_most_one_attribute_witness :
  let r := setData ex_model ex_store (ex_index 1 4) (VInt 9) EditRole in
  (r.1 <> VBool true -> r.2 = ex_store)
  /\ (r.1 = VBool true ->
      EditRole = EditRole
      /\ exists obj l o name,
           getObject ex_model (ex_index 1 4) = Some obj
           /\ reaches (heap ex_store) obj l
           /\ heap ex_store !! l = Some o
           /\ dotless name
           /\ r.2 = {| heap := <[l := <[name := Attr (VInt 9)]> o]> (heap ex_store);
                       called := called ex_store |}).
Proof.
  apply (setData_writes_at_most_one_attribute ex_model ex_store (ex_index 1 4) (VInt 9)
           EditRole).
  - apply plain_storeb_plain. vm_compute. reflexivity.
  - intros prop [= <-]. vm_compute. discriminate.
Defined.
